(** * Azure Blob private storage adapters

    A shallow embedding of the two implementations of the storage back end
    [api/server/services/Files/AzureBlobPrivate/crud.js]:

    - the signed-URL back end (shared key, SAS query strings), module
      [SignedUrl];
    - the identity-based back end (workload identity, direct client calls),
      module [Identity].
    - the image adapter that wraps either of them, module [Images].

    JavaScript strings are [string]; a value that may be [undefined] is an
    [option]; promises are run to completion, so an [async] function is a
    computation in the monad [M] below, which threads the module singletons
    and the log of calls made to the collaborators (SDK, file system,
    network) and carries thrown errors. *)

From Stdlib Require Import String Ascii List ZArith Lia Bool.
Import ListNotations.
Local Open Scope string_scope.

(* ================================================================== *)
(** ** JavaScript strings and values *)

Module Js.

(** The values a caller may hand over as [userId]. *)
Inductive value : Type :=
| undefined
| null
| str (s : string).

(** ToBoolean, as used by [userId ? ... : ...]. *)
Definition truthy (v : value) : bool :=
  match v with
  | undefined => false
  | null => false
  | str s => negb (s =? "")
  end.

(** ToString, as used by a template literal [`${v}`]. *)
Definition to_string (v : value) : string :=
  match v with
  | undefined => "undefined"
  | null => "null"
  | str s => s
  end.

(** ToBoolean and ToString of a string-or-undefined (an environment
    variable, an optional argument). *)
Definition truthy_opt (o : option string) : bool :=
  match o with
  | Some s => negb (s =? "")
  | None => false
  end.

Definition opt_to_string (o : option string) : string :=
  match o with
  | Some s => s
  | None => "undefined"
  end.

(** A parameter default [x = d]: taken when the argument is [undefined]. *)
Definition default {A : Type} (d : A) (o : option A) : A :=
  match o with
  | Some a => a
  | None => d
  end.

(** [s.includes(needle)]. *)
Fixpoint includes (s needle : string) : bool :=
  match s with
  | EmptyString => prefix needle EmptyString
  | String _ s' => prefix needle s || includes s' needle
  end.

(** [s.split(sep)] for a non-empty separator.  [skip] counts the characters
    of a separator just matched that are still to be passed over, [cur] is
    the piece being collected. *)
Fixpoint split_from (sep : string) (skip : nat) (cur s : string)
  : list string :=
  match s with
  | EmptyString => [cur]
  | String c s' =>
      match skip with
      | S k => split_from sep k cur s'
      | O =>
          if prefix sep s
          then cur :: split_from sep (String.length sep - 1) EmptyString s'
          else split_from sep 0 (cur ++ String c EmptyString) s'
      end
  end.

Definition split (s sep : string) : list string :=
  split_from sep 0 EmptyString s.

(** [arr[i]]: [undefined] out of range. *)
Definition index {A : Type} (l : list A) (i : nat) : option A :=
  nth_error l i.

(** String reversal, used by [basename]. *)
Fixpoint rev_append (s acc : string) : string :=
  match s with
  | EmptyString => acc
  | String c s' => rev_append s' (String c acc)
  end.

Definition rev (s : string) : string := rev_append s EmptyString.

Definition is_slash (c : ascii) : bool := Ascii.eqb c "/"%char.

Fixpoint drop_slashes (s : string) : string :=
  match s with
  | EmptyString => EmptyString
  | String c s' => if is_slash c then drop_slashes s' else s
  end.

Fixpoint take_to_slash (s : string) : string :=
  match s with
  | EmptyString => EmptyString
  | String c s' => if is_slash c then EmptyString else String c (take_to_slash s')
  end.

(** [path.basename(p)] (POSIX flavour, no suffix argument): trailing
    slashes are ignored and the last component is returned. *)
Definition basename (p : string) : string :=
  rev (take_to_slash (drop_slashes (rev p))).

End Js.

(* ================================================================== *)
(** ** JavaScript dates

    A [Date] is its time value: milliseconds since the epoch, or NaN
    ([None]).  [getMinutes] and [setMinutes] work on the local-time fields,
    as ECMA-262 defines them; the host's time zone is the function
    [LocalTZA]. *)

Module JsDate.

Local Open Scope Z_scope.

(** [LocalTZA t isUTC]: the offset of local time from UTC, in ms, at the
    UTC instant [t] ([isUTC = true]) or at the local time [t]
    ([isUTC = false]). *)
Definition TimeZone : Type := Z -> bool -> Z.

Definition msPerSecond : Z := 1000.
Definition msPerMinute : Z := 60000.
Definition msPerHour : Z := 3600000.
Definition msPerDay : Z := 86400000.

Definition Day (t : Z) : Z := t / msPerDay.
Definition HourFromTime (t : Z) : Z := (t / msPerHour) mod 24.
Definition MinFromTime (t : Z) : Z := (t / msPerMinute) mod 60.
Definition SecFromTime (t : Z) : Z := (t / msPerSecond) mod 60.
Definition msFromTime (t : Z) : Z := t mod msPerSecond.

Definition MakeTime (hour min sec ms : Z) : Z :=
  hour * msPerHour + min * msPerMinute + sec * msPerSecond + ms.

Definition MakeDate (day time : Z) : Z := day * msPerDay + time.

Definition LocalTime (tz : TimeZone) (t : Z) : Z := t + tz t true.
Definition UTC (tz : TimeZone) (t : Z) : Z := t - tz t false.

Definition maxTime : Z := 8640000000000000.

Definition TimeClip (t : Z) : option Z :=
  if Z.abs t <=? maxTime then Some t else None.

(** [date.getMinutes()] of a valid date. *)
Definition getMinutes (tz : TimeZone) (tv : Z) : Z :=
  MinFromTime (LocalTime tz tv).

(** [date.setMinutes(min)]: the new time value, which is also returned. *)
Definition setMinutes (tz : TimeZone) (tv : Z) (min : Z) : option Z :=
  let t := LocalTime tz tv in
  let date :=
    MakeDate (Day t)
             (MakeTime (HourFromTime t) min (SecFromTime t) (msFromTime t)) in
  TimeClip (UTC tz date).

(** [new Date(value)] for a numeric [value] (possibly NaN). *)
Definition newDate (value : option Z) : option Z :=
  match value with
  | Some t => TimeClip t
  | None => None
  end.

(** A host whose local time is a fixed offset from UTC. *)
Definition fixedOffset (off : Z) : TimeZone := fun _ _ => off.

(** US Eastern time around the end of daylight saving time on
    2026-11-01: at 06:00:00 UTC the offset goes from -4h to -5h, and local
    clocks go from 02:00 back to 01:00.  A local time that occurs twice is
    read with the offset before the transition. *)
Definition dstEnd2026 : Z := 1793512800000.

Definition usEastern2026 : TimeZone :=
  fun t isUTC =>
    if isUTC
    then if t <? dstEnd2026 then -4 * msPerHour else -5 * msPerHour
    else if t <? dstEnd2026 - 4 * msPerHour
         then -4 * msPerHour else -5 * msPerHour.

End JsDate.

(* ================================================================== *)
(** ** JavaScript URLs

    The SDK builds the URL of a client by parsing the parent's URL with
    [new URL], setting its [pathname] and printing it again.  Setting the
    path of an [https] URL walks its segments: a single-dot segment is
    dropped, a double-dot segment removes the segment before it, and a dot
    segment at the very end leaves an empty last segment.  The texts handed
    over are outputs of [encodeURIComponent] joined by slashes, on which the
    parser does nothing else. *)

Module JsUrl.

Definition is_single_dot (seg : string) : bool :=
  (seg =? ".") || (seg =? "%2e") || (seg =? "%2E").

Definition is_double_dot (seg : string) : bool :=
  (seg =? "..")
  || (seg =? ".%2e") || (seg =? ".%2E")
  || (seg =? "%2e.") || (seg =? "%2E.")
  || (seg =? "%2e%2e") || (seg =? "%2e%2E")
  || (seg =? "%2E%2e") || (seg =? "%2E%2E").

(** The pieces between the slashes of [s], after the piece [cur] already
    read. *)
Fixpoint segments_from (cur s : string) : list string :=
  match s with
  | EmptyString => [cur]
  | String c s' =>
      if Js.is_slash c
      then cur :: segments_from EmptyString s'
      else segments_from (cur ++ String c EmptyString) s'
  end.

Definition segments (s : string) : list string :=
  segments_from EmptyString s.

(** The path state of the parser: [stack] holds the segments kept so far,
    last one first. *)
Fixpoint resolve (stack segs : list string) : list string :=
  match segs with
  | [] => List.rev stack
  | seg :: rest =>
      match rest with
      | [] =>
          if is_double_dot seg then List.rev (EmptyString :: List.tl stack)
          else if is_single_dot seg then List.rev (EmptyString :: stack)
          else List.rev (seg :: stack)
      | _ :: _ =>
          if is_double_dot seg then resolve (List.tl stack) rest
          else if is_single_dot seg then resolve stack rest
          else resolve (seg :: stack) rest
      end
  end.

Fixpoint serialise (segs : list string) : string :=
  match segs with
  | [] => EmptyString
  | seg :: rest => "/" ++ seg ++ serialise rest
  end.

Definition strip_slash (s : string) : string :=
  match s with
  | EmptyString => EmptyString
  | String c s' => if Js.is_slash c then s' else s
  end.

(** [url.pathname = p], read back: the path the URL then has. *)
Definition setPathname (p : string) : string :=
  serialise (resolve [] (segments (strip_slash p))).

Definition endsWithSlash (s : string) : bool :=
  match Js.rev s with
  | EmptyString => false
  | String c _ => Js.is_slash c
  end.

(** SDK: [appendToURLPath(url, name)], on the path of [url]; the origin of
    the URL is left as it is. *)
Definition appendToURLPath (pathname name : string) : string :=
  setPathname
    (if pathname =? "" then name
     else if endsWithSlash pathname then pathname ++ name
     else pathname ++ "/" ++ name).

(** A segment that the parser keeps, and a path made of such segments. *)
Definition plain_segment (seg : string) : bool :=
  negb (is_single_dot seg) && negb (is_double_dot seg).

Definition plain_path (p : string) : bool :=
  forallb plain_segment (segments p).

End JsUrl.

(* ================================================================== *)
(** ** Errors, SDK objects and the collaborators *)

Record JsError : Type := mkError {
  err_name : string;
  err_message : string;
  err_statusCode : option Z
}.

(** [new Error(msg)] and the TypeError of a property read on [null] or
    [undefined]; neither has a [statusCode]. *)
Definition Error (msg : string) : JsError := mkError "Error" msg None.
Definition TypeError (msg : string) : JsError := mkError "TypeError" msg None.

Inductive Completion (A : Type) : Type :=
| Normal (a : A)
| Throw (e : JsError).
Arguments Normal {A} a.
Arguments Throw {A} e.

Definition Buffer : Type := list Byte.byte.
Definition Stream : Type := Buffer.

Inductive Credential : Type :=
| StorageSharedKeyCredential (accountName accountKey : option string)
| WorkloadIdentityCredential.

Record BlobServiceClient : Type := {
  svc_url : string;
  svc_credential : Credential
}.

Record ContainerClient : Type := {
  cc_service : BlobServiceClient;
  cc_containerName : string
}.

Record BlobClient : Type := {
  bc_container : ContainerClient;
  bc_name : string
}.

(** [new BlobSASPermissions()]: every flag is [false] until set. *)
Record BlobSASPermissions : Type := {
  read : bool;
  add : bool;
  create : bool;
  write : bool;
  delete : bool;
  deleteVersion : bool;
  tag : bool;
  move : bool;
  execute : bool;
  setImmutabilityPolicy : bool;
  permanentDelete : bool
}.

Definition newBlobSASPermissions : BlobSASPermissions :=
  {| read := false; add := false; create := false; write := false;
     delete := false; deleteVersion := false; tag := false; move := false;
     execute := false; setImmutabilityPolicy := false;
     permanentDelete := false |}.

Definition set_read (p : BlobSASPermissions) (b : bool) : BlobSASPermissions :=
  {| read := b; add := add p; create := create p; write := write p;
     delete := delete p; deleteVersion := deleteVersion p; tag := tag p;
     move := move p; execute := execute p;
     setImmutabilityPolicy := setImmutabilityPolicy p;
     permanentDelete := permanentDelete p |}.

Definition set_write (p : BlobSASPermissions) (b : bool) : BlobSASPermissions :=
  {| read := read p; add := add p; create := create p; write := b;
     delete := delete p; deleteVersion := deleteVersion p; tag := tag p;
     move := move p; execute := execute p;
     setImmutabilityPolicy := setImmutabilityPolicy p;
     permanentDelete := permanentDelete p |}.

(** The object literal handed to [generateBlobSASQueryParameters].  The
    SDK's [BlobSASSignatureValues] has an optional [blobName]; a literal
    that does not list it leaves it [undefined]. *)
Record BlobSASSignatureValues : Type := {
  sas_containerName : string;
  sas_blobName : option string;
  sas_permissions : BlobSASPermissions;
  sas_expiresOn : option Z
}.

(** The response of [fetch(url)]: [response.buffer()] may itself fail. *)
Record Response : Type := {
  resp_buffer : Completion Buffer
}.

(** What the outside world answers.  Environment variables are read once,
    at module load; the [n]-th [new Date()] of the process reads
    [clock n]. *)
Record World : Type := {
  env_ACCOUNT_NAME : option string;
  env_ACCOUNT_KEY : option string;
  env_CONTAINER_NAME : option string;
  timeZone : JsDate.TimeZone;
  clock : nat -> Z;
  mime_getType : string -> option string;
  encodeURIComponent : string -> string;
  EscapePath : string -> string;
  generateBlobSASQueryParameters :
    BlobSASSignatureValues -> Credential -> string;
  newWorkloadIdentityCredential : Completion Credential;
  sdk_createIfNotExists : ContainerClient -> Completion unit;
  sdk_upload : BlobClient -> Buffer -> Z -> string -> Completion unit;
  sdk_uploadFile : BlobClient -> string -> string -> Completion unit;
  sdk_delete : BlobClient -> Completion unit;
  sdk_download : BlobClient -> Completion Stream;
  fetch_get : string -> Completion Response;
  fetch_put : string -> string -> Z -> Buffer -> Completion unit;
  axios_get : string -> Completion Stream;
  fs_stat : string -> Completion Z;
  fs_readFile : string -> Completion Buffer
}.

(** The calls a back end makes on its collaborators, in order. *)
Inductive Event : Type :=
| Log (level message : string)
| NewDate
| CreateIfNotExists (c : ContainerClient)
| Upload (b : BlobClient) (data : Buffer) (len : Z) (contentType : string)
| UploadFile (b : BlobClient) (filePath contentType : string)
| Delete (b : BlobClient)
| Download (b : BlobClient)
| FetchGet (url : string)
| FetchPut (url contentType : string) (len : Z) (body : Buffer)
| AxiosGet (url : string)
| Stat (filePath : string)
| ReadFile (filePath : string).

(** The module-level singletons of a back end, with the calls made so far
    and the number of clock readings. *)
Record State : Type := {
  blobServiceClient : option BlobServiceClient;
  containerClient : option ContainerClient;
  calls : list Event;
  clockReads : nat
}.

Definition initialState : State :=
  {| blobServiceClient := None; containerClient := None;
     calls := []; clockReads := 0 |}.

(* ================================================================== *)
(** ** The monad of back-end operations *)

Definition M (A : Type) : Type := World -> State -> Completion A * State.

Definition ret {A : Type} (a : A) : M A := fun _ s => (Normal a, s).

Definition throw {A : Type} (e : JsError) : M A := fun _ s => (Throw e, s).

Definition bind {A B : Type} (m : M A) (k : A -> M B) : M B :=
  fun w s =>
    match m w s with
    | (Normal a, s') => k a w s'
    | (Throw e, s') => (Throw e, s')
    end.

Declare Scope js_scope.
Delimit Scope js_scope with js.
Notation "x <- m ;; k" := (bind m (fun x => k))
  (at level 61, m at next level, right associativity) : js_scope.
Notation "m ;;; k" := (bind m (fun _ => k))
  (at level 61, right associativity) : js_scope.
Local Open Scope js_scope.

(** [try { body } catch (error) { handler }]. *)
Definition try_catch {A : Type} (body : M A) (handler : JsError -> M A) : M A :=
  fun w s =>
    match body w s with
    | (Normal a, s') => (Normal a, s')
    | (Throw e, s') => handler e w s'
    end.

Definition ask : M World := fun w s => (Normal w, s).
Definition get : M State := fun _ s => (Normal s, s).

Definition emit (ev : Event) : M unit :=
  fun _ s =>
    (Normal tt,
     {| blobServiceClient := blobServiceClient s;
        containerClient := containerClient s;
        calls := calls s ++ [ev];
        clockReads := clockReads s |}).

(** A call on a collaborator: it is recorded, then answered by the world. *)
Definition call {A : Type} (ev : Event) (answer : World -> Completion A) : M A :=
  emit ev ;;; (fun w s => (answer w, s)).

Definition set_blobServiceClient (c : BlobServiceClient) : M unit :=
  fun _ s =>
    (Normal tt,
     {| blobServiceClient := Some c;
        containerClient := containerClient s;
        calls := calls s;
        clockReads := clockReads s |}).

Definition set_containerClient (c : ContainerClient) : M unit :=
  fun _ s =>
    (Normal tt,
     {| blobServiceClient := blobServiceClient s;
        containerClient := Some c;
        calls := calls s;
        clockReads := clockReads s |}).

(** [new Date()]: the next reading of the host clock. *)
Definition newDateNow : M Z :=
  fun w s =>
    (Normal (clock w (clockReads s)),
     {| blobServiceClient := blobServiceClient s;
        containerClient := containerClient s;
        calls := calls s ++ [NewDate];
        clockReads := S (clockReads s) |}).

(** Reading the [containerClient] singleton in order to call a method on
    it: a TypeError while it is still [null]. *)
Definition the_containerClient : M ContainerClient :=
  s <- get ;;
  match containerClient s with
  | Some c => ret c
  | None => throw (TypeError "Cannot read properties of null")
  end.

Definition logger (level message : string) : M unit := emit (Log level message).

(** [x || 'application/octet-stream'] on the answer of [mime.getType]. *)
Definition contentTypeOf (w : World) (name : string) : string :=
  if Js.truthy_opt (mime_getType w name)
  then Js.opt_to_string (mime_getType w name)
  else "application/octet-stream".

(** SDK: [blobServiceClient.getContainerClient(name)],
    [containerClient.getBlockBlobClient(name)] (and [getBlobClient]) and the
    [url] property of the clients. *)
Definition getContainerClient (svc : BlobServiceClient) (name : string)
  : ContainerClient :=
  {| cc_service := svc; cc_containerName := name |}.

Definition getBlockBlobClient (c : ContainerClient) (blobName : string)
  : BlobClient :=
  {| bc_container := c; bc_name := blobName |}.

Definition getBlobClient (c : ContainerClient) (blobName : string)
  : BlobClient :=
  {| bc_container := c; bc_name := blobName |}.

(** The service URL is an origin ([https://account.blob.core.windows.net],
    path [/]).  The URL of a container client and of a blob client is
    [appendToURLPath] of the parent's URL and the escaped name;
    [encodeURIComponent] and [EscapePath] stand for the escaping of the
    characters of the name. *)
Definition container_path (w : World) (c : ContainerClient) : string :=
  JsUrl.appendToURLPath "/" (encodeURIComponent w (cc_containerName c)).

Definition container_url (w : World) (c : ContainerClient) : string :=
  svc_url (cc_service c) ++ container_path w c.

Definition blob_url (w : World) (b : BlobClient) : string :=
  svc_url (cc_service (bc_container b))
  ++ JsUrl.appendToURLPath (container_path w (bc_container b))
       (EscapePath w (bc_name b)).

(** The request, the stored file record and the uploaded file, as far as
    the back ends read them. *)
Record ServerRequest : Type := { user_id : string }.
Record MongoFile : Type := { filepath : string }.
Record MulterFile : Type := { path : string }.
Record UploadResult : Type := { res_filepath : string; res_bytes : Z }.

Definition defaultBasePath : string := "images".

(** [process.env.AZURE_PRIVATE_CONTAINER_NAME], with its default. *)
Definition AZURE_PRIVATE_CONTAINER_NAME (w : World) : string :=
  Js.default "files" (env_CONTAINER_NAME w).

(** [`${basePath}/${userId}/${fileName}`] and [`${basePath}/${fileName}`]. *)
Definition userBlobPath (basePath : string) (userId : Js.value)
  (fileName : string) : string :=
  basePath ++ "/" ++ Js.to_string userId ++ "/" ++ fileName.

Definition sharedBlobPath (basePath fileName : string) : string :=
  basePath ++ "/" ++ fileName.

(** The blob path of [saveBufferToAzureBlobPrivate] and of
    [getAzureBlobPrivateURL]; both back ends compute them alike. *)
Definition saveBlobPath (basePath : option string) (userId : Js.value)
  (fileName : string) : string :=
  userBlobPath (Js.default defaultBasePath basePath) userId fileName.

Definition resolveBlobPath (basePath : option string) (userId : Js.value)
  (fileName : string) : string :=
  if Js.truthy userId
  then userBlobPath (Js.default defaultBasePath basePath) userId fileName
  else sharedBlobPath (Js.default defaultBasePath basePath) fileName.

(** The stored file name and blob path of [uploadFileToAzureBlobPrivate]. *)
Definition uploadFileName (file_id inputFilePath : string) : string :=
  file_id ++ "__" ++ Js.basename inputFilePath.

(** [file.filepath.split(`${AZURE_PRIVATE_CONTAINER_NAME}/`)[1]]. *)
Definition extractBlobPath (w : World) (file : MongoFile) : option string :=
  Js.index (Js.split (filepath file) (AZURE_PRIVATE_CONTAINER_NAME w ++ "/")) 1.

(* ================================================================== *)
(** ** The signed-URL back end *)

Module SignedUrl.

(** [initializeAzureBlobPrivateService]: builds both singletons once. *)
Definition initializeAzureBlobPrivateService : M BlobServiceClient :=
  s <- get ;;
  w <- ask ;;
  match blobServiceClient s with
  | Some svc => ret svc
  | None =>
      if Js.truthy_opt (env_ACCOUNT_NAME w)
         && Js.truthy_opt (env_ACCOUNT_KEY w)
         && negb (AZURE_PRIVATE_CONTAINER_NAME w =? "")
      then
        let url := "https://" ++ Js.opt_to_string (env_ACCOUNT_NAME w)
                   ++ ".blob.core.windows.net" in
        let credential :=
          StorageSharedKeyCredential (env_ACCOUNT_NAME w) (env_ACCOUNT_KEY w) in
        let svc := {| svc_url := url; svc_credential := credential |} in
        set_blobServiceClient svc ;;;
        set_containerClient
          (getContainerClient svc (AZURE_PRIVATE_CONTAINER_NAME w)) ;;;
        logger "info" "Azure Blob Private Service initialized" ;;;
        ret svc
      else
        throw (Error "Azure Blob Private: Missing required configuration. Provide AZURE_STORAGE_ACCOUNT_NAME, AZURE_STORAGE_ACCOUNT_KEY and AZURE_PRIVATE_CONTAINER_NAME")
  end.

(** [new Date(currentDateTime.setMinutes(currentDateTime.getMinutes() + duration))]. *)
Definition expiryDateTime (tz : JsDate.TimeZone) (currentDateTime : Z)
  (duration : Z) : option Z :=
  JsDate.newDate
    (JsDate.setMinutes tz currentDateTime
       (JsDate.getMinutes tz currentDateTime + duration)%Z).

(** The [blobSasModel] literal of [createSASReadString]. *)
Definition readSasModel (tz : JsDate.TimeZone) (containerName : string)
  (currentDateTime : Z) (duration : option Z) : BlobSASSignatureValues :=
  let permissions := set_read newBlobSASPermissions true in
  {| sas_containerName := containerName;
     sas_blobName := None;
     sas_permissions := permissions;
     sas_expiresOn :=
       expiryDateTime tz currentDateTime (Js.default 5%Z duration) |}.

(** The [blobSasModel] literal of [createSASWriteString]. *)
Definition writeSasModel (tz : JsDate.TimeZone) (containerName : string)
  (currentDateTime : Z) (duration : option Z) : BlobSASSignatureValues :=
  let permissions := set_write newBlobSASPermissions true in
  {| sas_containerName := containerName;
     sas_blobName := None;
     sas_permissions := permissions;
     sas_expiresOn :=
       expiryDateTime tz currentDateTime (Js.default 5%Z duration) |}.

Definition createSASReadString (key accountName : option string)
  (containerName : string) (duration : option Z) : M string :=
  currentDateTime <- newDateNow ;;
  w <- ask ;;
  let blobSasModel :=
    readSasModel (timeZone w) containerName currentDateTime duration in
  let credential := StorageSharedKeyCredential accountName key in
  ret (generateBlobSASQueryParameters w blobSasModel credential).

Definition createSASWriteString (blobName : string)
  (key accountName : option string) (containerName : string)
  (duration : option Z) : M string :=
  currentDateTime <- newDateNow ;;
  w <- ask ;;
  let blobSasModel :=
    writeSasModel (timeZone w) containerName currentDateTime duration in
  let credential := StorageSharedKeyCredential accountName key in
  let sasQueryParams := generateBlobSASQueryParameters w blobSasModel credential in
  c <- the_containerClient ;;
  let tempBlockBlobClient := getBlockBlobClient c blobName in
  ret (blob_url w tempBlockBlobClient ++ "?" ++ sasQueryParams).

Definition getSignedDownloadUrl (blobName : string)
  (key accountName : option string) (containerName : string)
  (duration : option Z) : M string :=
  c <- the_containerClient ;;
  w <- ask ;;
  let blockBlobClient := getBlockBlobClient c blobName in
  sasQueryParams <- createSASReadString key accountName containerName duration ;;
  ret (blob_url w blockBlobClient ++ "?" ++ sasQueryParams).

Definition uploadFileToSignedUrl (url filePath : string) : M unit :=
  size <- call (Stat filePath) (fun w => fs_stat w filePath) ;;
  w <- ask ;;
  let contentType := contentTypeOf w filePath in
  body <- call (ReadFile filePath) (fun w => fs_readFile w filePath) ;;
  call (FetchPut url contentType size body)
       (fun w => fetch_put w url contentType size body).

Definition uploadBufferToSignedUrl (url : string) (buffer : Buffer)
  (contentType : string) : M unit :=
  let len := Z.of_nat (List.length buffer) in
  call (FetchPut url contentType len buffer)
       (fun w => fetch_put w url contentType len buffer).

Definition saveBufferToAzureBlobPrivate (userId : Js.value) (buffer : Buffer)
  (fileName : string) (basePath containerName : option string) : M string :=
  w <- ask ;;
  let containerName := Js.default (AZURE_PRIVATE_CONTAINER_NAME w) containerName in
  try_catch
    (initializeAzureBlobPrivateService ;;;
     c <- the_containerClient ;;
     call (CreateIfNotExists c) (fun w => sdk_createIfNotExists w c) ;;;
     let blobPath := saveBlobPath basePath userId fileName in
     let contentType := contentTypeOf w fileName in
     uploadUrl <- createSASWriteString blobPath (env_ACCOUNT_KEY w)
                    (env_ACCOUNT_NAME w) containerName None ;;
     uploadBufferToSignedUrl uploadUrl buffer contentType ;;;
     getSignedDownloadUrl blobPath (env_ACCOUNT_KEY w) (env_ACCOUNT_NAME w)
       containerName None)
    (fun error =>
       logger "error" "[saveBufferToAzureBlobPrivate] Error uploading buffer:" ;;;
       throw error).

Definition saveURLToAzureBlobPrivate (userId : Js.value) (URL : string)
  (fileName : string) (basePath containerName : option string) : M string :=
  w <- ask ;;
  let containerName := Js.default (AZURE_PRIVATE_CONTAINER_NAME w) containerName in
  try_catch
    (response <- call (FetchGet URL) (fun w => fetch_get w URL) ;;
     buffer <- (fun _ s => (resp_buffer response, s)) ;;
     saveBufferToAzureBlobPrivate userId buffer fileName basePath
       (Some containerName))
    (fun error =>
       logger "error" "[saveURLToAzureBlobPrivate] Error uploading file from URL:" ;;;
       throw error).

Definition getAzureBlobPrivateURL (fileName : string)
  (basePath : option string) (userId : Js.value)
  (containerName : option string) : M string :=
  w <- ask ;;
  let containerName := Js.default (AZURE_PRIVATE_CONTAINER_NAME w) containerName in
  try_catch
    (initializeAzureBlobPrivateService ;;;
     let blobPath := resolveBlobPath basePath userId fileName in
     getSignedDownloadUrl blobPath (env_ACCOUNT_KEY w) (env_ACCOUNT_NAME w)
       containerName None)
    (fun error =>
       logger "error" "[getAzureBlobPrivateURL] Error retrieving signed URL:" ;;;
       throw error).

Definition deleteFileFromAzureBlobPrivate (req : ServerRequest)
  (file : MongoFile) : M unit :=
  try_catch
    (initializeAzureBlobPrivateService ;;;
     w <- ask ;;
     blobPath <- match extractBlobPath w file with
                 | Some blobPath => ret blobPath
                 | None => throw (TypeError "Cannot read properties of undefined (reading 'includes')")
                 end ;;
     (if negb (Js.includes blobPath (user_id req))
      then throw (Error "User ID not found in blob path")
      else ret tt) ;;;
     c <- the_containerClient ;;
     let blockBlobClient := getBlockBlobClient c blobPath in
     call (Delete blockBlobClient) (fun w => sdk_delete w blockBlobClient) ;;;
     logger "debug" "[deleteFileFromAzureBlobPrivate] Blob deleted successfully from Azure Blob Private Storage")
    (fun error =>
       logger "error" "[deleteFileFromAzureBlobPrivate] Error deleting blob:" ;;;
       if match err_statusCode error with
          | Some code => (code =? 404)%Z
          | None => false
          end
       then ret tt
       else throw error).

Definition uploadFileToAzureBlobPrivate (req : ServerRequest)
  (file : MulterFile) (file_id : string)
  (basePath containerName : option string) : M UploadResult :=
  w <- ask ;;
  let containerName := Js.default (AZURE_PRIVATE_CONTAINER_NAME w) containerName in
  try_catch
    (initializeAzureBlobPrivateService ;;;
     let inputFilePath := path file in
     bytes <- call (Stat inputFilePath) (fun w => fs_stat w inputFilePath) ;;
     let userId := user_id req in
     let fileName := uploadFileName file_id inputFilePath in
     let blobPath :=
       userBlobPath (Js.default defaultBasePath basePath) (Js.str userId) fileName in
     c <- the_containerClient ;;
     call (CreateIfNotExists c) (fun w => sdk_createIfNotExists w c) ;;;
     uploadUrl <- createSASWriteString blobPath (env_ACCOUNT_KEY w)
                    (env_ACCOUNT_NAME w) containerName None ;;
     uploadFileToSignedUrl uploadUrl inputFilePath ;;;
     downloadUrl <- getSignedDownloadUrl blobPath (env_ACCOUNT_KEY w)
                      (env_ACCOUNT_NAME w) containerName None ;;
     ret {| res_filepath := downloadUrl; res_bytes := bytes |})
    (fun error =>
       logger "error" "[uploadFileToAzureBlobPrivate] Error uploading file:" ;;;
       throw error).

Definition getAzureBlobPrivateFileStream (_req : ServerRequest)
  (fileURL : string) : M Stream :=
  try_catch
    (call (AxiosGet fileURL) (fun w => axios_get w fileURL))
    (fun error =>
       logger "error" "[getAzureBlobPrivateFileStream] Error getting blob stream:" ;;;
       throw error).

End SignedUrl.

(* ================================================================== *)
(** ** The identity-based back end *)

Module Identity.

Definition initializeAzureBlobPrivateService : M BlobServiceClient :=
  s <- get ;;
  w <- ask ;;
  match blobServiceClient s with
  | Some svc => ret svc
  | None =>
      if negb (Js.truthy_opt (env_ACCOUNT_NAME w))
         || (AZURE_PRIVATE_CONTAINER_NAME w =? "")
      then
        throw (Error "Azure Blob Private: Missing required configuration. Provide AZURE_PRIVATE_STORAGE_ACCOUNT_NAME and AZURE_PRIVATE_CONTAINER_NAME")
      else
        let url := "https://" ++ Js.opt_to_string (env_ACCOUNT_NAME w)
                   ++ ".blob.core.windows.net" in
        svc <- try_catch
                 (credential <- (fun w s => (newWorkloadIdentityCredential w, s)) ;;
                  let svc := {| svc_url := url; svc_credential := credential |} in
                  set_blobServiceClient svc ;;;
                  logger "info" "Azure Blob Private Service initialized using WorkloadIdentityCredential" ;;;
                  ret svc)
                 (fun error =>
                    logger "error" "Failed to initialize with WorkloadIdentityCredential:" ;;;
                    throw (Error "Azure Blob Private: Failed to initialize with WorkloadIdentityCredential. Ensure the pod has proper Workload Identity permissions and is running in AKS with Workload Identity enabled.")) ;;
        set_containerClient
          (getContainerClient svc (AZURE_PRIVATE_CONTAINER_NAME w)) ;;;
        ret svc
  end.

Definition getDirectBlobUrl (w : World) (blobName containerName : string)
  : string :=
  "https://" ++ Js.opt_to_string (env_ACCOUNT_NAME w)
  ++ ".blob.core.windows.net/" ++ containerName ++ "/" ++ blobName.

Definition uploadBufferDirectly (blobName : string) (buffer : Buffer)
  (contentType : string) : M unit :=
  c <- the_containerClient ;;
  let blockBlobClient := getBlockBlobClient c blobName in
  let len := Z.of_nat (List.length buffer) in
  call (Upload blockBlobClient buffer len contentType)
       (fun w => sdk_upload w blockBlobClient buffer len contentType).

Definition uploadFileDirectly (blobName filePath : string) : M unit :=
  c <- the_containerClient ;;
  w <- ask ;;
  let blockBlobClient := getBlockBlobClient c blobName in
  let contentType := contentTypeOf w filePath in
  call (UploadFile blockBlobClient filePath contentType)
       (fun w => sdk_uploadFile w blockBlobClient filePath contentType).

Definition saveBufferToAzureBlobPrivate (userId : Js.value) (buffer : Buffer)
  (fileName : string) (basePath containerName : option string) : M string :=
  w <- ask ;;
  let containerName := Js.default (AZURE_PRIVATE_CONTAINER_NAME w) containerName in
  try_catch
    (initializeAzureBlobPrivateService ;;;
     c <- the_containerClient ;;
     call (CreateIfNotExists c) (fun w => sdk_createIfNotExists w c) ;;;
     let blobPath := saveBlobPath basePath userId fileName in
     let contentType := contentTypeOf w fileName in
     uploadBufferDirectly blobPath buffer contentType ;;;
     ret (getDirectBlobUrl w blobPath containerName))
    (fun error =>
       logger "error" "[saveBufferToAzureBlobPrivate] Error uploading buffer:" ;;;
       throw error).

Definition saveURLToAzureBlobPrivate (userId : Js.value) (URL : string)
  (fileName : string) (basePath containerName : option string) : M string :=
  w <- ask ;;
  let containerName := Js.default (AZURE_PRIVATE_CONTAINER_NAME w) containerName in
  try_catch
    (response <- call (FetchGet URL) (fun w => fetch_get w URL) ;;
     buffer <- (fun _ s => (resp_buffer response, s)) ;;
     saveBufferToAzureBlobPrivate userId buffer fileName basePath
       (Some containerName))
    (fun error =>
       logger "error" "[saveURLToAzureBlobPrivate] Error uploading file from URL:" ;;;
       throw error).

Definition getAzureBlobPrivateURL (fileName : string)
  (basePath : option string) (userId : Js.value)
  (containerName : option string) : M string :=
  w <- ask ;;
  let containerName := Js.default (AZURE_PRIVATE_CONTAINER_NAME w) containerName in
  try_catch
    (initializeAzureBlobPrivateService ;;;
     let blobPath := resolveBlobPath basePath userId fileName in
     ret (getDirectBlobUrl w blobPath containerName))
    (fun error =>
       logger "error" "[getAzureBlobPrivateURL] Error retrieving URL:" ;;;
       throw error).

Definition deleteFileFromAzureBlobPrivate (req : ServerRequest)
  (file : MongoFile) : M unit :=
  try_catch
    (initializeAzureBlobPrivateService ;;;
     w <- ask ;;
     blobPath <- match extractBlobPath w file with
                 | Some blobPath => ret blobPath
                 | None => throw (TypeError "Cannot read properties of undefined (reading 'includes')")
                 end ;;
     (if negb (Js.includes blobPath (user_id req))
      then throw (Error "User ID not found in blob path")
      else ret tt) ;;;
     c <- the_containerClient ;;
     let blockBlobClient := getBlockBlobClient c blobPath in
     call (Delete blockBlobClient) (fun w => sdk_delete w blockBlobClient) ;;;
     logger "debug" "[deleteFileFromAzureBlobPrivate] Blob deleted successfully from Azure Blob Private Storage")
    (fun error =>
       logger "error" "[deleteFileFromAzureBlobPrivate] Error deleting blob:" ;;;
       if match err_statusCode error with
          | Some code => (code =? 404)%Z
          | None => false
          end
       then ret tt
       else throw error).

Definition uploadFileToAzureBlobPrivate (req : ServerRequest)
  (file : MulterFile) (file_id : string)
  (basePath containerName : option string) : M UploadResult :=
  w <- ask ;;
  let containerName := Js.default (AZURE_PRIVATE_CONTAINER_NAME w) containerName in
  try_catch
    (initializeAzureBlobPrivateService ;;;
     let inputFilePath := path file in
     bytes <- call (Stat inputFilePath) (fun w => fs_stat w inputFilePath) ;;
     let userId := user_id req in
     let fileName := uploadFileName file_id inputFilePath in
     let blobPath :=
       userBlobPath (Js.default defaultBasePath basePath) (Js.str userId) fileName in
     c <- the_containerClient ;;
     call (CreateIfNotExists c) (fun w => sdk_createIfNotExists w c) ;;;
     uploadFileDirectly blobPath inputFilePath ;;;
     let downloadUrl := getDirectBlobUrl w blobPath containerName in
     ret {| res_filepath := downloadUrl; res_bytes := bytes |})
    (fun error =>
       logger "error" "[uploadFileToAzureBlobPrivate] Error uploading file:" ;;;
       throw error).

(** The blob name is the container name; [fileURL] is not read. *)
Definition getAzureBlobPrivateFileStream (_req : ServerRequest)
  (fileURL : string) : M Stream :=
  try_catch
    (w <- ask ;;
     let blobName := AZURE_PRIVATE_CONTAINER_NAME w in
     c <- the_containerClient ;;
     let blobClient := getBlobClient c blobName in
     call (Download blobClient) (fun w => sdk_download w blobClient))
    (fun error =>
       logger "error" "[getAzureBlobPrivateFileStream] Error getting blob stream:" ;;;
       throw error).

End Identity.

(* ================================================================== *)
(** ** Auxiliary notions for the statements *)

(** The state [s] after the calls [evs] and [n] further clock readings. *)
Definition after (s : State) (evs : list Event) (n : nat) : State :=
  {| blobServiceClient := blobServiceClient s;
     containerClient := containerClient s;
     calls := calls s ++ evs;
     clockReads := n + clockReads s |}.

(** The singletons as [initializeAzureBlobPrivateService] leaves them:
    both unset, or a service client with the container client it gave for
    the configured container. *)
Definition singletons_ok (w : World) (s : State) : Prop :=
  match blobServiceClient s, containerClient s with
  | None, None => True
  | Some svc, Some c => c = getContainerClient svc (AZURE_PRIVATE_CONTAINER_NAME w)
  | _, _ => False
  end.

Definition is_Delete (ev : Event) : bool :=
  match ev with
  | Delete _ => true
  | _ => false
  end.

(** The calls that write a blob: a PUT on a signed URL, or an SDK upload. *)
Definition is_upload (ev : Event) : bool :=
  match ev with
  | FetchPut _ _ _ _ => true
  | Upload _ _ _ _ => true
  | UploadFile _ _ _ => true
  | _ => false
  end.

Definition is_404 (e : JsError) : bool :=
  match err_statusCode e with
  | Some code => (code =? 404)%Z
  | None => false
  end.

(** A permission set with the read flag only, and one with the write flag
    only. *)
Definition readOnly : BlobSASPermissions :=
  {| read := true; add := false; create := false; write := false;
     delete := false; deleteVersion := false; tag := false; move := false;
     execute := false; setImmutabilityPolicy := false;
     permanentDelete := false |}.

Definition writeOnly : BlobSASPermissions :=
  {| read := false; add := false; create := false; write := true;
     delete := false; deleteVersion := false; tag := false; move := false;
     execute := false; setImmutabilityPolicy := false;
     permanentDelete := false |}.

(** *** A concrete world, to run the operations on

    Account [acct], container [files], identity encoders, a signer that
    prints the signed fields, and collaborators that succeed unless told
    otherwise. *)
Definition demoSign (m : BlobSASSignatureValues) (_ : Credential) : string :=
  "sp=" ++ (if read (sas_permissions m) then "r" else "")
        ++ (if write (sas_permissions m) then "w" else "")
  ++ "&sr=" ++ (match sas_blobName m with Some _ => "b" | None => "c" end)
  ++ "&cn=" ++ sas_containerName m.

Definition restError (status : Z) : JsError :=
  mkError "RestError" "request failed" (Some status).

Definition demoWorld (tz : JsDate.TimeZone) (now : Z)
  (deleteAnswer : Completion unit) (fetchAnswer : Completion Response)
  : World :=
  {| env_ACCOUNT_NAME := Some "acct";
     env_ACCOUNT_KEY := Some "a2V5";
     env_CONTAINER_NAME := None;
     timeZone := tz;
     clock := fun _ => now;
     mime_getType := fun _ => None;
     encodeURIComponent := fun x => x;
     EscapePath := fun x => x;
     generateBlobSASQueryParameters := demoSign;
     newWorkloadIdentityCredential := Normal WorkloadIdentityCredential;
     sdk_createIfNotExists := fun _ => Normal tt;
     sdk_upload := fun _ _ _ _ => Normal tt;
     sdk_uploadFile := fun _ _ _ => Normal tt;
     sdk_delete := fun _ => deleteAnswer;
     sdk_download := fun _ => Normal [];
     fetch_get := fun _ => fetchAnswer;
     fetch_put := fun _ _ _ _ => Normal tt;
     axios_get := fun _ => Normal [];
     fs_stat := fun _ => Normal 2048%Z;
     fs_readFile := fun _ => Normal [] |}.

Definition calmWorld : World :=
  demoWorld (JsDate.fixedOffset 0) 1793512680000%Z (Normal tt)
    (Normal {| resp_buffer := Normal [] |}).

(** A state in which the service has been initialised for [calmWorld]. *)
Definition calmReady : State :=
  snd (SignedUrl.initializeAzureBlobPrivateService calmWorld initialState).

(** The error of the authorization check in
    [deleteFileFromAzureBlobPrivate], and the log entry of its handler. *)
Definition authorizationError : JsError :=
  Error "User ID not found in blob path".

Definition deleteErrorLog : Event :=
  Log "error" "[deleteFileFromAzureBlobPrivate] Error deleting blob:".

(** What [deleteFileFromAzureBlobPrivate] does once initialisation has
    answered [r0]; the two back ends differ in the initialisation only. *)
Definition deleteOutcome (w : World) (req : ServerRequest) (file : MongoFile)
  (r0 : Completion BlobServiceClient * State) : Completion unit * State :=
  let s1 := snd r0 in
  match fst r0 with
  | Throw e =>
      (if is_404 e then Normal tt else Throw e, after s1 [deleteErrorLog] 0)
  | Normal _ =>
      match extractBlobPath w file with
      | None =>
          (Throw (TypeError "Cannot read properties of undefined (reading 'includes')"),
           after s1 [deleteErrorLog] 0)
      | Some blobPath =>
          if Js.includes blobPath (user_id req)
          then
            match containerClient s1 with
            | None =>
                (Throw (TypeError "Cannot read properties of null"),
                 after s1 [deleteErrorLog] 0)
            | Some c =>
                let b := getBlockBlobClient c blobPath in
                match sdk_delete w b with
                | Normal _ =>
                    (Normal tt,
                     after s1
                       [Delete b;
                        Log "debug" "[deleteFileFromAzureBlobPrivate] Blob deleted successfully from Azure Blob Private Storage"]
                       0)
                | Throw e =>
                    (if is_404 e then Normal tt else Throw e,
                     after s1 [Delete b; deleteErrorLog] 0)
                end
            end
          else (Throw authorizationError, after s1 [deleteErrorLog] 0)
      end
  end.

(** A world in which the storage service answers a delete with 404, and
    the service clients the two back ends build for account [acct]. *)
Definition notFoundWorld : World :=
  demoWorld (JsDate.fixedOffset 0) 1793512680000%Z (Throw (restError 404))
    (Normal {| resp_buffer := Normal [] |}).

Definition signedClient : BlobServiceClient :=
  {| svc_url := "https://acct.blob.core.windows.net";
     svc_credential :=
       StorageSharedKeyCredential (Some "acct") (Some "a2V5") |}.

Definition identityClient : BlobServiceClient :=
  {| svc_url := "https://acct.blob.core.windows.net";
     svc_credential := WorkloadIdentityCredential |}.

(** A world in which fetching any URL fails. *)
Definition networkError : JsError :=
  mkError "FetchError" "request to source failed" None.

Definition offlineWorld : World :=
  demoWorld (JsDate.fixedOffset 0) 1793512680000%Z (Normal tt)
    (Throw networkError).

Definition saveURLErrorLog : Event :=
  Log "error" "[saveURLToAzureBlobPrivate] Error uploading file from URL:".

(** The container client of the configured container, and the signed URL
    of a blob in it: the blob client's URL, a question mark, and the SAS
    query string of the model [m] under the configured shared key. *)
Definition configuredContainer (w : World) (svc : BlobServiceClient)
  : ContainerClient :=
  getContainerClient svc (AZURE_PRIVATE_CONTAINER_NAME w).

Definition signedBlobUrl (w : World) (svc : BlobServiceClient)
  (blobPath : string) (m : BlobSASSignatureValues) : string :=
  blob_url w (getBlockBlobClient (configuredContainer w svc) blobPath) ++ "?"
  ++ generateBlobSASQueryParameters w m
       (StorageSharedKeyCredential (env_ACCOUNT_NAME w) (env_ACCOUNT_KEY w)).

(** The blob path of [uploadFileToAzureBlobPrivate]. *)
Definition uploadBlobPath (basePath : option string) (req : ServerRequest)
  (file : MulterFile) (file_id : string) : string :=
  userBlobPath (Js.default defaultBasePath basePath) (Js.str (user_id req))
    (uploadFileName file_id (path file)).

(** A file name without a [/]. *)
Fixpoint no_slash (s : string) : bool :=
  match s with
  | EmptyString => true
  | String c s' => negb (Js.is_slash c) && no_slash s'
  end.

(** The escaped container name is one non-empty segment that the URL
    parser keeps, and no segment of the escaped blob path is a dot
    segment. *)
Definition plainLocation (w : World) (blobPath : string) : bool :=
  no_slash (encodeURIComponent w (AZURE_PRIVATE_CONTAINER_NAME w))
  && negb (encodeURIComponent w (AZURE_PRIVATE_CONTAINER_NAME w) =? "")
  && JsUrl.plain_segment (encodeURIComponent w (AZURE_PRIVATE_CONTAINER_NAME w))
  && JsUrl.plain_path (EscapePath w blobPath).

Definition streamErrorLog : Event :=
  Log "error" "[getAzureBlobPrivateFileStream] Error getting blob stream:".

(** A computation only ever adds to the log of calls. *)
Definition extends {A : Type} (m : M A) : Prop :=
  forall w s, exists evs, calls (snd (m w s)) = (calls s ++ evs)%list.

(** A computation leaves the singletons as initialisation sets them. *)
Definition keeps_singletons {A : Type} (m : M A) : Prop :=
  forall w s, singletons_ok w s -> singletons_ok w (snd (m w s)).

Definition is_Log (ev : Event) : bool :=
  match ev with
  | Log _ _ => true
  | _ => false
  end.

(* ================================================================== *)
(** ** The image adapter

    [images.js] wraps two operations of whichever [./crud] is deployed, so
    the wrapped operation is an argument here; [processImageBuffer] is the
    image-processing collaborator. *)

Record ImageMetadata : Type := {
  meta_type : string;
  meta_width : Z;
  meta_height : Z
}.

Record ProcessedImage : Type := {
  img_buffer : Buffer;
  img_metadata : ImageMetadata
}.

Record AvatarResult : Type := {
  avatar_url : string;
  avatar_metadata : ImageMetadata
}.

Module Images.

Definition uploadImageToAzureBlobPrivate
  (saveBufferToAzureBlobPrivate :
     Js.value -> Buffer -> string -> option string -> option string -> M string)
  (userId : Js.value) (buffer : Buffer) (fileName : string)
  (basePath containerName : option string) : M string :=
  let basePath := Js.default defaultBasePath basePath in
  try_catch
    (saveBufferToAzureBlobPrivate userId buffer fileName (Some basePath)
       containerName)
    (fun error =>
       logger "error" "[uploadImageToAzureBlobPrivate] Error uploading image:" ;;;
       throw error).

Definition prepareAzureBlobPrivateImageURL
  (getAzureBlobPrivateURL :
     string -> option string -> Js.value -> option string -> M string)
  (fileName : string) (basePath : option string) (userId : Js.value)
  (containerName : option string) : M string :=
  let basePath := Js.default defaultBasePath basePath in
  try_catch
    (getAzureBlobPrivateURL fileName (Some basePath) userId containerName)
    (fun error =>
       logger "error" "[prepareAzureBlobPrivateImageURL] Error preparing image URL:" ;;;
       throw error).

Definition processAzureBlobPrivateAvatar
  (processImageBuffer : Buffer -> Completion ProcessedImage)
  (saveBufferToAzureBlobPrivate :
     Js.value -> Buffer -> string -> option string -> option string -> M string)
  (userId : Js.value) (buffer : Buffer) (fileName : string)
  (basePath containerName : option string) : M AvatarResult :=
  let basePath := Js.default defaultBasePath basePath in
  try_catch
    (processed <- (fun _ s => (processImageBuffer buffer, s)) ;;
     let processedBuffer := img_buffer processed in
     let metadata := img_metadata processed in
     url <- saveBufferToAzureBlobPrivate userId processedBuffer fileName
              (Some basePath) containerName ;;
     ret {| avatar_url := url;
            avatar_metadata :=
              {| meta_type := meta_type metadata;
                 meta_width := meta_width metadata;
                 meta_height := meta_height metadata |} |})
    (fun error =>
       logger "error" "[processAzureBlobPrivateAvatar] Error processing avatar:" ;;;
       throw error).

End Images.

(* ================================================================== *)
(** ** Further notions for the statements *)

(** The configuration test of the signed-URL back end, and the errors of
    initialisation. *)
Definition signedConfigured (w : World) : bool :=
  Js.truthy_opt (env_ACCOUNT_NAME w)
  && Js.truthy_opt (env_ACCOUNT_KEY w)
  && negb (AZURE_PRIVATE_CONTAINER_NAME w =? "").

Definition identityConfigured (w : World) : bool :=
  Js.truthy_opt (env_ACCOUNT_NAME w)
  && negb (AZURE_PRIVATE_CONTAINER_NAME w =? "").

Definition signedConfigError : JsError :=
  Error "Azure Blob Private: Missing required configuration. Provide AZURE_STORAGE_ACCOUNT_NAME, AZURE_STORAGE_ACCOUNT_KEY and AZURE_PRIVATE_CONTAINER_NAME".

Definition identityConfigError : JsError :=
  Error "Azure Blob Private: Missing required configuration. Provide AZURE_PRIVATE_STORAGE_ACCOUNT_NAME and AZURE_PRIVATE_CONTAINER_NAME".

Definition credentialError : JsError :=
  Error "Azure Blob Private: Failed to initialize with WorkloadIdentityCredential. Ensure the pod has proper Workload Identity permissions and is running in AKS with Workload Identity enabled.".

(** The log entries of the handlers. *)
Definition saveBufferErrorLog : Event :=
  Log "error" "[saveBufferToAzureBlobPrivate] Error uploading buffer:".

Definition signedGetURLErrorLog : Event :=
  Log "error" "[getAzureBlobPrivateURL] Error retrieving signed URL:".

Definition identityGetURLErrorLog : Event :=
  Log "error" "[getAzureBlobPrivateURL] Error retrieving URL:".

Definition uploadFileErrorLog : Event :=
  Log "error" "[uploadFileToAzureBlobPrivate] Error uploading file:".

Definition deleteDoneLog : Event :=
  Log "debug" "[deleteFileFromAzureBlobPrivate] Blob deleted successfully from Azure Blob Private Storage".

Definition credentialErrorLog : Event :=
  Log "error" "Failed to initialize with WorkloadIdentityCredential:".

Definition avatarErrorLog : Event :=
  Log "error" "[processAzureBlobPrivateAvatar] Error processing avatar:".

Definition uploadImageErrorLog : Event :=
  Log "error" "[uploadImageToAzureBlobPrivate] Error uploading image:".

(** The state in which initialisation has bound both singletons. *)
Definition readyState (w : World) (svc : BlobServiceClient)
  (evs : list Event) (n : nat) : State :=
  {| blobServiceClient := Some svc;
     containerClient := Some (configuredContainer w svc);
     calls := evs;
     clockReads := n |}.

(** [sep] starts at no position inside [pre] in the string [pre ++ tail]. *)
Fixpoint no_match_in (sep pre tail : string) : bool :=
  match pre with
  | EmptyString => true
  | String c pre' =>
      negb (prefix sep (pre ++ tail)) && no_match_in sep pre' tail
  end.

(** The separator that [deleteFileFromAzureBlobPrivate] splits on, and the
    part of a direct blob URL in front of the container name. *)
Definition containerSegment (w : World) : string :=
  AZURE_PRIVATE_CONTAINER_NAME w ++ "/".

Definition hostPrefix (w : World) : string :=
  "https://" ++ Js.opt_to_string (env_ACCOUNT_NAME w)
  ++ ".blob.core.windows.net/".

(** A computation adds to the log only calls that satisfy [P]. *)
Definition emits_only (P : Event -> bool) {A : Type} (m : M A) : Prop :=
  forall w s,
  exists evs,
    calls (snd (m w s)) = (calls s ++ evs)%list /\ forallb P evs = true.

(** Log entries and clock readings: calls that reach neither the storage
    service, nor the network, nor the file system. *)
Definition is_local (ev : Event) : bool :=
  match ev with
  | Log _ _ => true
  | NewDate => true
  | _ => false
  end.

Definition not_Delete (ev : Event) : bool := negb (is_Delete ev).

(** Worlds that differ from a given one in the environment, or in what one
    collaborator answers. *)
Definition withEnv (name key container : option string) (w : World) : World :=
  {| env_ACCOUNT_NAME := name;
     env_ACCOUNT_KEY := key;
     env_CONTAINER_NAME := container;
     timeZone := timeZone w;
     clock := clock w;
     mime_getType := mime_getType w;
     encodeURIComponent := encodeURIComponent w;
     EscapePath := EscapePath w;
     generateBlobSASQueryParameters := generateBlobSASQueryParameters w;
     newWorkloadIdentityCredential := newWorkloadIdentityCredential w;
     sdk_createIfNotExists := sdk_createIfNotExists w;
     sdk_upload := sdk_upload w;
     sdk_uploadFile := sdk_uploadFile w;
     sdk_delete := sdk_delete w;
     sdk_download := sdk_download w;
     fetch_get := fetch_get w;
     fetch_put := fetch_put w;
     axios_get := axios_get w;
     fs_stat := fs_stat w;
     fs_readFile := fs_readFile w |}.

Definition withAnswers (credential : Completion Credential)
  (createAnswer : Completion unit) (putAnswer : Completion unit)
  (statAnswer : Completion Z) (w : World) : World :=
  {| env_ACCOUNT_NAME := env_ACCOUNT_NAME w;
     env_ACCOUNT_KEY := env_ACCOUNT_KEY w;
     env_CONTAINER_NAME := env_CONTAINER_NAME w;
     timeZone := timeZone w;
     clock := clock w;
     mime_getType := mime_getType w;
     encodeURIComponent := encodeURIComponent w;
     EscapePath := EscapePath w;
     generateBlobSASQueryParameters := generateBlobSASQueryParameters w;
     newWorkloadIdentityCredential := credential;
     sdk_createIfNotExists := fun _ => createAnswer;
     sdk_upload := fun _ _ _ _ => putAnswer;
     sdk_uploadFile := fun _ _ _ => putAnswer;
     sdk_delete := sdk_delete w;
     sdk_download := sdk_download w;
     fetch_get := fetch_get w;
     fetch_put := fun _ _ _ _ => putAnswer;
     axios_get := axios_get w;
     fs_stat := fun _ => statAnswer;
     fs_readFile := fs_readFile w |}.

(** An image processor that answers a two-byte image of 128 by 128, and
    one that rejects its input. *)
Definition thumbnail : ProcessedImage :=
  {| img_buffer := [Byte.x52; Byte.x49];
     img_metadata :=
       {| meta_type := "webp"; meta_width := 128; meta_height := 128 |} |}.

Definition shrinkingProcessor (_ : Buffer) : Completion ProcessedImage :=
  Normal thumbnail.

Definition rejectingProcessor (_ : Buffer) : Completion ProcessedImage :=
  Throw (mkError "Error" "Input buffer contains unsupported image format" None).

(** No shared key in the environment. *)
Definition keylessWorld : World := withEnv (Some "acct") None None calmWorld.

(** The workload identity is rejected. *)
Definition noIdentityWorld : World :=
  withAnswers (Throw (mkError "CredentialUnavailableError" "no token file" None))
    (Normal tt) (Normal tt) (Normal 2048%Z) calmWorld.

(** The storage service is unreachable. *)
Definition storageDownWorld : World :=
  withAnswers (Normal WorkloadIdentityCredential) (Throw (restError 503))
    (Throw (restError 503)) (Normal 2048%Z) calmWorld.

(** The local file is missing. *)
Definition noFileWorld : World :=
  withAnswers (Normal WorkloadIdentityCredential) (Normal tt) (Normal tt)
    (Throw (mkError "Error" "ENOENT: no such file or directory" None))
    calmWorld.

(* ================================================================== *)
(** * Properties *)

(** Unfolding the monad: [run] exposes what a computation does to the
    world and the state it is applied to. *)
Ltac run :=
  cbv beta iota zeta delta
    [bind ret throw ask get try_catch call emit logger newDateNow
     the_containerClient set_blobServiceClient set_containerClient];
  cbn [fst snd blobServiceClient containerClient calls clockReads].

(** ** Strings *)

Lemma length_append (a b : string) :
  String.length (a ++ b) = String.length a + String.length b.
Proof.
  induction a as [|c a IH]; simpl; [reflexivity | now rewrite IH].
Qed.

Lemma append_inv_head (a b c : string) : a ++ b = a ++ c -> b = c.
Proof.
  induction a as [|x a IH]; simpl; intros H; [exact H|].
  injection H as H. auto.
Qed.

(** ** Blob paths *)

(** For a user id that is absent or empty the save path has one more
    segment than the resolve path. *)
Lemma blob_paths_differ (basePath : option string) (userId : Js.value)
  (fileName : string) :
  Js.truthy userId = false ->
  saveBlobPath basePath userId fileName <> resolveBlobPath basePath userId fileName.
Proof.
  intros Hf. unfold saveBlobPath, resolveBlobPath. rewrite Hf.
  unfold userBlobPath, sharedBlobPath. intros H.
  apply append_inv_head in H. apply append_inv_head in H.
  apply (f_equal String.length) in H.
  rewrite !length_append in H. simpl in H. lia.
Qed.

Lemma blob_paths_agree_when_present (basePath : option string)
  (userId : Js.value) (fileName : string) :
  Js.truthy userId = true ->
  resolveBlobPath basePath userId fileName = saveBlobPath basePath userId fileName.
Proof.
  intros Ht. unfold resolveBlobPath. now rewrite Ht.
Qed.

(** C1, as amended: for every base path and file name and every user id
    that is present (a non-empty string), [saveBufferToAzureBlobPrivate]
    and [getAzureBlobPrivateURL] compute the same blob path. *)
Theorem blob_paths_agree (basePath : option string) (userId : Js.value)
  (fileName : string) :
  Js.truthy userId = true ->
  saveBlobPath basePath userId fileName = resolveBlobPath basePath userId fileName.
Proof.
  intros Ht. unfold resolveBlobPath. now rewrite Ht.
Qed.

Lemma blob_paths_agree_u1 :
  Js.truthy (Js.str "u1") = true /\
  saveBlobPath None (Js.str "u1") "a.png" = "images/u1/a.png" /\
  saveBlobPath None (Js.str "u1") "a.png"
  = resolveBlobPath None (Js.str "u1") "a.png".
Proof.
  split; [reflexivity|]. split; [reflexivity|].
  apply (blob_paths_agree None (Js.str "u1") "a.png"). reflexivity.
Defined.

(** C1 as stated fails: with the empty user id the save path is
    [images//a.png] and the resolve path is [images/a.png]. *)
Lemma blob_paths_empty_user :
  saveBlobPath None (Js.str "") "a.png" = "images//a.png" /\
  resolveBlobPath None (Js.str "") "a.png" = "images/a.png" /\
  saveBlobPath None (Js.str "") "a.png"
  <> resolveBlobPath None (Js.str "") "a.png".
Proof.
  split; [reflexivity|]. split; [reflexivity|]. discriminate.
Qed.

(** ** Minting grants *)

Lemma createSASReadString_run (key accountName : option string)
  (containerName : string) (duration : option Z) (w : World) (s : State) :
  SignedUrl.createSASReadString key accountName containerName duration w s
  = (Normal
       (generateBlobSASQueryParameters w
          (SignedUrl.readSasModel (timeZone w) containerName
             (clock w (clockReads s)) duration)
          (StorageSharedKeyCredential accountName key)),
     after s [NewDate] 1).
Proof. reflexivity. Qed.

Lemma createSASWriteString_run (blobName : string)
  (key accountName : option string) (containerName : string)
  (duration : option Z) (w : World) (s : State) :
  SignedUrl.createSASWriteString blobName key accountName containerName
    duration w s
  = (match containerClient s with
     | Some c =>
         Normal
           (blob_url w (getBlockBlobClient c blobName) ++ "?"
            ++ generateBlobSASQueryParameters w
                 (SignedUrl.writeSasModel (timeZone w) containerName
                    (clock w (clockReads s)) duration)
                 (StorageSharedKeyCredential accountName key))
     | None => Throw (TypeError "Cannot read properties of null")
     end,
     after s [NewDate] 1).
Proof.
  unfold SignedUrl.createSASWriteString. run.
  destruct s as [svc [c|] evs n]; reflexivity.
Qed.

Lemma getSignedDownloadUrl_run (blobName : string)
  (key accountName : option string) (containerName : string)
  (duration : option Z) (w : World) (s : State) :
  SignedUrl.getSignedDownloadUrl blobName key accountName containerName
    duration w s
  = match containerClient s with
    | Some c =>
        (Normal
           (blob_url w (getBlockBlobClient c blobName) ++ "?"
            ++ generateBlobSASQueryParameters w
                 (SignedUrl.readSasModel (timeZone w) containerName
                    (clock w (clockReads s)) duration)
                 (StorageSharedKeyCredential accountName key)),
         after s [NewDate] 1)
    | None => (Throw (TypeError "Cannot read properties of null"), s)
    end.
Proof.
  unfold SignedUrl.getSignedDownloadUrl, SignedUrl.createSASReadString. run.
  destruct s as [svc [c|] evs n]; reflexivity.
Qed.

(** C2, as amended: the SAS model of a grant names the container and no
    blob, so one query string serves every blob name: the read fragment
    [qr] and the write fragment [qw] are fixed before the blob name is
    chosen, and only the base URL they are appended to names the blob. *)
Theorem grants_are_container_scoped (key accountName : option string)
  (containerName : string) (duration : option Z) (w : World) (s : State) :
  exists (mr mw : BlobSASSignatureValues) (qr qw : string),
    qr = generateBlobSASQueryParameters w mr
           (StorageSharedKeyCredential accountName key) /\
    qw = generateBlobSASQueryParameters w mw
           (StorageSharedKeyCredential accountName key) /\
    sas_blobName mr = None /\ sas_containerName mr = containerName /\
    sas_blobName mw = None /\ sas_containerName mw = containerName /\
    fst (SignedUrl.createSASReadString key accountName containerName
           duration w s) = Normal qr /\
    (forall blobName : string,
        fst (SignedUrl.getSignedDownloadUrl blobName key accountName
               containerName duration w s)
        = match containerClient s with
          | Some c =>
              Normal (blob_url w (getBlockBlobClient c blobName) ++ "?" ++ qr)
          | None => Throw (TypeError "Cannot read properties of null")
          end) /\
    (forall blobName : string,
        fst (SignedUrl.createSASWriteString blobName key accountName
               containerName duration w s)
        = match containerClient s with
          | Some c =>
              Normal (blob_url w (getBlockBlobClient c blobName) ++ "?" ++ qw)
          | None => Throw (TypeError "Cannot read properties of null")
          end).
Proof.
  exists (SignedUrl.readSasModel (timeZone w) containerName
            (clock w (clockReads s)) duration).
  exists (SignedUrl.writeSasModel (timeZone w) containerName
            (clock w (clockReads s)) duration).
  do 2 eexists.
  repeat (split; [reflexivity|]).
  split; intros blobName.
  - rewrite getSignedDownloadUrl_run. destruct (containerClient s); reflexivity.
  - rewrite createSASWriteString_run. destruct (containerClient s); reflexivity.
Qed.

(** C2 as stated fails: the model signed for the upload of
    [images/u1/a.png] does not name that blob, and the fragment minted for it
    is the one minted for [images/u2/b.png]. *)
Lemma grant_not_blob_scoped :
  sas_blobName
    (SignedUrl.writeSasModel (timeZone calmWorld) "files"
       (clock calmWorld 0) None)
  <> Some "images/u1/a.png" /\
  fst (SignedUrl.createSASWriteString "images/u1/a.png" (Some "a2V5")
         (Some "acct") "files" None calmWorld calmReady)
  = Normal "https://acct.blob.core.windows.net/files/images/u1/a.png?sp=w&sr=c&cn=files" /\
  fst (SignedUrl.createSASWriteString "images/u2/b.png" (Some "a2V5")
         (Some "acct") "files" None calmWorld calmReady)
  = Normal "https://acct.blob.core.windows.net/files/images/u2/b.png?sp=w&sr=c&cn=files".
Proof.
  split; [discriminate|]. split; reflexivity.
Qed.

(** C3: a read grant carries the read flag and no other, a write grant the
    write flag and no other; the strings returned by [createSASReadString]
    and [createSASWriteString] are signed from exactly these models. *)
Theorem grants_single_permission (blobName : string)
  (key accountName : option string) (containerName : string)
  (duration : option Z) (w : World) (s : State) :
  let now := clock w (clockReads s) in
  let mr := SignedUrl.readSasModel (timeZone w) containerName now duration in
  let mw := SignedUrl.writeSasModel (timeZone w) containerName now duration in
  sas_permissions mr = readOnly /\
  sas_permissions mw = writeOnly /\
  read (sas_permissions mr) && write (sas_permissions mr) = false /\
  read (sas_permissions mw) && write (sas_permissions mw) = false /\
  fst (SignedUrl.createSASReadString key accountName containerName
         duration w s)
  = Normal (generateBlobSASQueryParameters w mr
              (StorageSharedKeyCredential accountName key)) /\
  fst (SignedUrl.createSASWriteString blobName key accountName containerName
         duration w s)
  = match containerClient s with
    | Some c =>
        Normal (blob_url w (getBlockBlobClient c blobName) ++ "?"
                ++ generateBlobSASQueryParameters w mw
                     (StorageSharedKeyCredential accountName key))
    | None => Throw (TypeError "Cannot read properties of null")
    end.
Proof.
  intros now mr mw.
  repeat (split; [reflexivity|]).
  rewrite createSASWriteString_run. reflexivity.
Qed.

(** ** Expiry of a grant *)

Lemma time_fields (t : Z) :
  (JsDate.MakeDate (JsDate.Day t)
     (JsDate.MakeTime (JsDate.HourFromTime t) (JsDate.MinFromTime t)
        (JsDate.SecFromTime t) (JsDate.msFromTime t)) = t)%Z.
Proof.
  unfold JsDate.MakeDate, JsDate.MakeTime, JsDate.Day, JsDate.HourFromTime,
    JsDate.MinFromTime, JsDate.SecFromTime, JsDate.msFromTime,
    JsDate.msPerDay, JsDate.msPerHour, JsDate.msPerMinute, JsDate.msPerSecond.
  replace (t / 60000)%Z with (t / 1000 / 60)%Z
    by (rewrite Z.div_div by lia; reflexivity).
  replace (t / 3600000)%Z with (t / 1000 / 60 / 60)%Z
    by (rewrite !Z.div_div by lia; reflexivity).
  replace (t / 86400000)%Z with (t / 1000 / 60 / 60 / 24)%Z
    by (rewrite !Z.div_div by lia; reflexivity).
  pose proof (Z.div_mod t 1000 ltac:(lia)).
  pose proof (Z.div_mod (t / 1000) 60 ltac:(lia)).
  pose proof (Z.div_mod (t / 1000 / 60) 60 ltac:(lia)).
  pose proof (Z.div_mod (t / 1000 / 60 / 60) 24 ltac:(lia)).
  lia.
Qed.

(** On a host whose offset from UTC never changes, the expiry is the
    minting time plus the requested minutes, exactly. *)
Lemma expiry_exact_fixed_offset (off now duration : Z) :
  (Z.abs (now + duration * JsDate.msPerMinute) <= JsDate.maxTime)%Z ->
  SignedUrl.expiryDateTime (JsDate.fixedOffset off) now duration
  = Some (now + duration * JsDate.msPerMinute)%Z.
Proof.
  intros Hrange.
  unfold SignedUrl.expiryDateTime, JsDate.setMinutes, JsDate.getMinutes,
    JsDate.LocalTime, JsDate.UTC, JsDate.fixedOffset.
  set (t := (now + off)%Z).
  assert (E : (JsDate.MakeDate (JsDate.Day t)
                 (JsDate.MakeTime (JsDate.HourFromTime t)
                    (JsDate.MinFromTime t + duration)
                    (JsDate.SecFromTime t) (JsDate.msFromTime t)) - off
               = now + duration * JsDate.msPerMinute)%Z).
  { pose proof (time_fields t) as F.
    unfold JsDate.MakeDate, JsDate.MakeTime in *. subst t. lia. }
  rewrite E. unfold JsDate.TimeClip.
  destruct (Z.leb_spec (Z.abs (now + duration * JsDate.msPerMinute))
              JsDate.maxTime) as [_|Hgt]; [|lia].
  simpl. unfold JsDate.TimeClip.
  destruct (Z.leb_spec (Z.abs (now + duration * JsDate.msPerMinute))
              JsDate.maxTime) as [_|Hgt]; [reflexivity|lia].
Qed.

(** C5, where the code departs from it: on a host on US Eastern time a
    grant minted on 2026-11-01 at 05:58:00 UTC (01:58 local, two minutes
    before clocks go back) with the default five minutes expires at
    07:03:00 UTC, 65 minutes later, for a read grant and for a write grant
    alike. *)
Theorem expiry_across_dst_end :
  let now := 1793512680000%Z in
  sas_expiresOn (SignedUrl.readSasModel JsDate.usEastern2026 "files" now None)
  = Some (now + 65 * JsDate.msPerMinute)%Z /\
  sas_expiresOn (SignedUrl.writeSasModel JsDate.usEastern2026 "files" now None)
  = Some (now + 65 * JsDate.msPerMinute)%Z /\
  sas_expiresOn (SignedUrl.readSasModel JsDate.usEastern2026 "files" now None)
  <> Some (now + 5 * JsDate.msPerMinute)%Z.
Proof.
  cbv zeta. split; [vm_compute; reflexivity|].
  split; [vm_compute; reflexivity|]. vm_compute. discriminate.
Qed.

(** ** Initialisation *)

Lemma signed_init_run (w : World) (s : State) :
  exists evs,
    forallb is_Log evs = true /\
    calls (snd (SignedUrl.initializeAzureBlobPrivateService w s))
    = (calls s ++ evs)%list /\
    clockReads (snd (SignedUrl.initializeAzureBlobPrivateService w s))
    = clockReads s /\
    (singletons_ok w s ->
     singletons_ok w (snd (SignedUrl.initializeAzureBlobPrivateService w s))) /\
    (forall svc,
        singletons_ok w s ->
        fst (SignedUrl.initializeAzureBlobPrivateService w s) = Normal svc ->
        containerClient (snd (SignedUrl.initializeAzureBlobPrivateService w s))
        = Some (getContainerClient svc (AZURE_PRIVATE_CONTAINER_NAME w))).
Proof.
  unfold SignedUrl.initializeAzureBlobPrivateService, singletons_ok. run.
  destruct s as [[svc0|] cc evs0 n]; cbn [blobServiceClient containerClient calls clockReads fst snd].
  - exists []. rewrite app_nil_r. repeat split; auto.
    intros svc Hok [= <-]. destruct cc as [c|]; [now subst|contradiction].
  - destruct (Js.truthy_opt (env_ACCOUNT_NAME w)
              && Js.truthy_opt (env_ACCOUNT_KEY w)
              && negb (AZURE_PRIVATE_CONTAINER_NAME w =? "")).
    + exists [Log "info" "Azure Blob Private Service initialized"].
      cbn. repeat split; auto. intros svc _ [= <-]. reflexivity.
    + exists []. cbn. rewrite app_nil_r. repeat split; auto.
      intros svc _ [=].
Qed.

Lemma identity_init_run (w : World) (s : State) :
  exists evs,
    forallb is_Log evs = true /\
    calls (snd (Identity.initializeAzureBlobPrivateService w s))
    = (calls s ++ evs)%list /\
    clockReads (snd (Identity.initializeAzureBlobPrivateService w s))
    = clockReads s /\
    (singletons_ok w s ->
     singletons_ok w (snd (Identity.initializeAzureBlobPrivateService w s))) /\
    (forall svc,
        singletons_ok w s ->
        fst (Identity.initializeAzureBlobPrivateService w s) = Normal svc ->
        containerClient (snd (Identity.initializeAzureBlobPrivateService w s))
        = Some (getContainerClient svc (AZURE_PRIVATE_CONTAINER_NAME w))).
Proof.
  unfold Identity.initializeAzureBlobPrivateService, singletons_ok. run.
  destruct s as [[svc0|] cc evs0 n]; cbn [blobServiceClient containerClient calls clockReads fst snd].
  - exists []. rewrite app_nil_r. repeat split; auto.
    intros svc Hok [= <-]. destruct cc as [c|]; [now subst|contradiction].
  - destruct (negb (Js.truthy_opt (env_ACCOUNT_NAME w))
              || (AZURE_PRIVATE_CONTAINER_NAME w =? "")).
    + exists []. cbn. rewrite app_nil_r. repeat split; auto.
      intros svc _ [=].
    + destruct (newWorkloadIdentityCredential w) as [cred|e].
      * exists [Log "info" "Azure Blob Private Service initialized using WorkloadIdentityCredential"].
        cbn. repeat split; auto. intros svc _ [= <-]. reflexivity.
      * exists [Log "error" "Failed to initialize with WorkloadIdentityCredential:"].
        cbn. repeat split; auto. intros svc _ [=].
Qed.

Lemma signed_init_error (w : World) (s : State) (e : JsError) :
  fst (SignedUrl.initializeAzureBlobPrivateService w s) = Throw e ->
  is_404 e = false.
Proof.
  unfold SignedUrl.initializeAzureBlobPrivateService. run.
  destruct (blobServiceClient s); [discriminate|].
  destruct (_ && _); cbn; [discriminate|]. now intros [= <-].
Qed.

Lemma identity_init_error (w : World) (s : State) (e : JsError) :
  fst (Identity.initializeAzureBlobPrivateService w s) = Throw e ->
  is_404 e = false.
Proof.
  unfold Identity.initializeAzureBlobPrivateService. run.
  destruct (blobServiceClient s); [discriminate|].
  destruct (_ || _); cbn; [now intros [= <-]|].
  destruct (newWorkloadIdentityCredential w); cbn; [discriminate|].
  now intros [= <-].
Qed.

(** ** Deletion *)

Ltac proj :=
  cbn [fst snd blobServiceClient containerClient calls clockReads negb
       err_statusCode].


Ltac delete_cases r0 :=
  unfold deleteOutcome, after, is_404, authorizationError, deleteErrorLog; run;
  unfold TypeError, Error;
  destruct r0 as [[?|?] [? ? ? ?]]; proj;
  try (destruct (extractBlobPath _ _); proj);
  try (destruct (Js.includes _ _); proj);
  try (match goal with c : option ContainerClient |- _ => destruct c end; proj);
  try (match goal with
       | |- context [sdk_delete ?w ?b] => destruct (sdk_delete w b) as [[]|?]
       end; proj);
  try (match goal with
       | |- context [err_statusCode ?e] => destruct (err_statusCode e)
       end);
  try (match goal with
       | |- context [(?c =? 404)%Z] => destruct (c =? 404)%Z
       end);
  rewrite <- ?app_assoc; reflexivity.

Lemma signed_delete_run (req : ServerRequest) (file : MongoFile)
  (w : World) (s : State) :
  SignedUrl.deleteFileFromAzureBlobPrivate req file w s
  = deleteOutcome w req file (SignedUrl.initializeAzureBlobPrivateService w s).
Proof.
  unfold SignedUrl.deleteFileFromAzureBlobPrivate.
  delete_cases (SignedUrl.initializeAzureBlobPrivateService w s).
Qed.

Lemma identity_delete_run (req : ServerRequest) (file : MongoFile)
  (w : World) (s : State) :
  Identity.deleteFileFromAzureBlobPrivate req file w s
  = deleteOutcome w req file (Identity.initializeAzureBlobPrivateService w s).
Proof.
  unfold Identity.deleteFileFromAzureBlobPrivate.
  delete_cases (Identity.initializeAzureBlobPrivateService w s).
Qed.

Lemma logs_are_not_deletes (evs : list Event) :
  forallb is_Log evs = true -> existsb is_Delete evs = false.
Proof.
  induction evs as [|ev evs IH]; [reflexivity|].
  destruct ev; cbn; try discriminate. exact IH.
Qed.

Lemma existsb_Delete_app (evs evs' : list Event) :
  existsb is_Delete evs = false -> existsb is_Delete evs' = false ->
  existsb is_Delete (evs ++ evs') = false.
Proof.
  intros H H'. rewrite existsb_app, H, H'. reflexivity.
Qed.

(** Without the user id in the extracted path (or without an extracted
    path at all) the outcome is an error and a log entry, whatever the
    initialisation answered. *)
Lemma deleteOutcome_unauthorized (w : World) (req : ServerRequest)
  (file : MongoFile) (r0 : Completion BlobServiceClient * State) :
  (forall e, fst r0 = Throw e -> is_404 e = false) ->
  (forall blobPath, extractBlobPath w file = Some blobPath ->
                    Js.includes blobPath (user_id req) = false) ->
  exists e,
    deleteOutcome w req file r0 = (Throw e, after (snd r0) [deleteErrorLog] 0) /\
    (forall svc blobPath,
        fst r0 = Normal svc -> extractBlobPath w file = Some blobPath ->
        e = authorizationError).
Proof.
  intros Hinit Hpath. unfold deleteOutcome.
  destruct r0 as [[svc|e] s1]; cbn [fst snd] in *.
  - destruct (extractBlobPath w file) as [blobPath|].
    + rewrite (Hpath blobPath eq_refl). eexists. split; [reflexivity|]. reflexivity.
    + eexists. split; [reflexivity|]. intros ? ? _ [=].
  - rewrite (Hinit e eq_refl). exists e. split; [reflexivity|]. intros ? ? [=].
Qed.

Lemma deleteOutcome_primitive_fails (w : World) (req : ServerRequest)
  (file : MongoFile) (r0 : Completion BlobServiceClient * State)
  (svc : BlobServiceClient) (c : ContainerClient) (blobPath : string)
  (e : JsError) :
  fst r0 = Normal svc ->
  containerClient (snd r0) = Some c ->
  extractBlobPath w file = Some blobPath ->
  Js.includes blobPath (user_id req) = true ->
  sdk_delete w (getBlockBlobClient c blobPath) = Throw e ->
  fst (deleteOutcome w req file r0) = if is_404 e then Normal tt else Throw e.
Proof.
  intros H0 Hc Hp Hi Hd. unfold deleteOutcome.
  rewrite H0, Hp, Hi, Hc. cbv zeta. rewrite Hd. reflexivity.
Qed.

(** The delete primitive is reached only with a blob path that was
    extracted and contains the user id. *)
Lemma deleteOutcome_delete_called (w : World) (req : ServerRequest)
  (file : MongoFile) (r0 : Completion BlobServiceClient * State)
  (evs : list Event) (b : BlobClient) :
  calls (snd (deleteOutcome w req file r0)) = (calls (snd r0) ++ evs)%list ->
  In (Delete b) evs ->
  extractBlobPath w file = Some (bc_name b) /\
  Js.includes (bc_name b) (user_id req) = true.
Proof.
  unfold deleteOutcome, after.
  destruct (fst r0) as [svc|e]; cbn [snd calls].
  2:{ intros H%app_inv_head Hin. subst evs.
      destruct Hin as [[=]|[]]. }
  destruct (extractBlobPath w file) as [blobPath|]; cbn [snd calls].
  2:{ intros H%app_inv_head Hin. subst evs. destruct Hin as [[=]|[]]. }
  destruct (Js.includes blobPath (user_id req)) eqn:Hi; cbn [snd calls].
  2:{ intros H%app_inv_head Hin. subst evs. destruct Hin as [[=]|[]]. }
  destruct (containerClient (snd r0)) as [c|]; cbn [snd calls].
  2:{ intros H%app_inv_head Hin. subst evs. destruct Hin as [[=]|[]]. }
  cbv zeta. destruct (sdk_delete w _) as [[]|e]; cbn [snd calls];
    intros H%app_inv_head Hin; subst evs;
    destruct Hin as [[= <-]|[[=]|[]]]; cbn; auto.
Qed.

(** C4: when the extracted blob path does not contain the requesting
    user's id, [deleteFileFromAzureBlobPrivate] throws, and none of the
    calls it makes is a blob delete; the error is the authorization error
    whenever the service initialises.  Signed-URL back end from state [s],
    identity back end from state [s']. *)
Theorem delete_requires_user_id (w : World) (s s' : State)
  (req : ServerRequest) (file : MongoFile) :
  (forall blobPath, extractBlobPath w file = Some blobPath ->
                    Js.includes blobPath (user_id req) = false) ->
  (exists e evs,
      fst (SignedUrl.deleteFileFromAzureBlobPrivate req file w s) = Throw e /\
      calls (snd (SignedUrl.deleteFileFromAzureBlobPrivate req file w s))
      = (calls s ++ evs)%list /\
      existsb is_Delete evs = false /\
      (forall svc blobPath,
          fst (SignedUrl.initializeAzureBlobPrivateService w s) = Normal svc ->
          extractBlobPath w file = Some blobPath ->
          e = authorizationError)) /\
  (exists e evs,
      fst (Identity.deleteFileFromAzureBlobPrivate req file w s') = Throw e /\
      calls (snd (Identity.deleteFileFromAzureBlobPrivate req file w s'))
      = (calls s' ++ evs)%list /\
      existsb is_Delete evs = false /\
      (forall svc blobPath,
          fst (Identity.initializeAzureBlobPrivateService w s') = Normal svc ->
          extractBlobPath w file = Some blobPath ->
          e = authorizationError)).
Proof.
  intros Hpath. split.
  - destruct (deleteOutcome_unauthorized w req file
                (SignedUrl.initializeAzureBlobPrivateService w s)
                (signed_init_error w s) Hpath) as (e & Hrun & Hauth).
    destruct (signed_init_run w s) as (evs & Hlogs & Hcalls & _).
    exists e, (evs ++ [deleteErrorLog])%list.
    rewrite signed_delete_run, Hrun. cbn [fst snd after calls].
    rewrite Hcalls, <- app_assoc. repeat split; auto.
    apply existsb_Delete_app; [now apply logs_are_not_deletes|reflexivity].
  - destruct (deleteOutcome_unauthorized w req file
                (Identity.initializeAzureBlobPrivateService w s')
                (identity_init_error w s') Hpath) as (e & Hrun & Hauth).
    destruct (identity_init_run w s') as (evs & Hlogs & Hcalls & _).
    exists e, (evs ++ [deleteErrorLog])%list.
    rewrite identity_delete_run, Hrun. cbn [fst snd after calls].
    rewrite Hcalls, <- app_assoc. repeat split; auto.
    apply existsb_Delete_app; [now apply logs_are_not_deletes|reflexivity].
Qed.

(** A delete asked by user [u2] for a file stored under [u1]. *)
Lemma delete_requires_user_id_u2 :
  (forall blobPath,
      extractBlobPath calmWorld
        {| filepath := "https://acct.blob.core.windows.net/files/images/u1/a.png" |}
      = Some blobPath ->
      Js.includes blobPath (user_id {| user_id := "u2" |}) = false) /\
  exists e evs,
    fst (SignedUrl.deleteFileFromAzureBlobPrivate {| user_id := "u2" |}
           {| filepath := "https://acct.blob.core.windows.net/files/images/u1/a.png" |}
           calmWorld initialState) = Throw e /\
    calls (snd (SignedUrl.deleteFileFromAzureBlobPrivate {| user_id := "u2" |}
                  {| filepath := "https://acct.blob.core.windows.net/files/images/u1/a.png" |}
                  calmWorld initialState))
    = (calls initialState ++ evs)%list /\
    existsb is_Delete evs = false.
Proof.
  assert (H : forall blobPath,
             extractBlobPath calmWorld
               {| filepath := "https://acct.blob.core.windows.net/files/images/u1/a.png" |}
             = Some blobPath ->
             Js.includes blobPath (user_id {| user_id := "u2" |}) = false).
  { intros blobPath E. vm_compute in E. injection E as <-. reflexivity. }
  split; [exact H|].
  destruct (delete_requires_user_id calmWorld initialState initialState
              {| user_id := "u2" |}
              {| filepath := "https://acct.blob.core.windows.net/files/images/u1/a.png" |}
              H) as [(e & evs & H1 & H2 & H3 & _) _].
  exists e, evs. auto.
Defined.

(** A blob delete among the calls of [deleteFileFromAzureBlobPrivate]
    means that the blob path was extracted from the stored path and
    contains the user id. *)
Lemma delete_called_only_if_authorized (w : World) (s : State)
  (req : ServerRequest) (file : MongoFile) (evs : list Event)
  (b : BlobClient) :
  calls (snd (SignedUrl.deleteFileFromAzureBlobPrivate req file w s))
  = (calls (snd (SignedUrl.initializeAzureBlobPrivateService w s)) ++ evs)%list ->
  In (Delete b) evs ->
  extractBlobPath w file = Some (bc_name b) /\
  Js.includes (bc_name b) (user_id req) = true.
Proof.
  rewrite signed_delete_run. apply deleteOutcome_delete_called.
Qed.

(** C6: when the delete primitive fails with error [e], the operation
    returns normally if [e.statusCode] is 404 and throws [e] itself
    otherwise.  Signed-URL back end from state [s], identity back end from
    state [s']. *)
Theorem delete_not_found_is_success (w : World) (s s' : State)
  (req : ServerRequest) (file : MongoFile) (blobPath : string)
  (svc svc' : BlobServiceClient) (e : JsError) :
  singletons_ok w s ->
  singletons_ok w s' ->
  fst (SignedUrl.initializeAzureBlobPrivateService w s) = Normal svc ->
  fst (Identity.initializeAzureBlobPrivateService w s') = Normal svc' ->
  extractBlobPath w file = Some blobPath ->
  Js.includes blobPath (user_id req) = true ->
  sdk_delete w
    (getBlockBlobClient
       (getContainerClient svc (AZURE_PRIVATE_CONTAINER_NAME w)) blobPath)
  = Throw e ->
  sdk_delete w
    (getBlockBlobClient
       (getContainerClient svc' (AZURE_PRIVATE_CONTAINER_NAME w)) blobPath)
  = Throw e ->
  fst (SignedUrl.deleteFileFromAzureBlobPrivate req file w s)
  = (if is_404 e then Normal tt else Throw e) /\
  fst (Identity.deleteFileFromAzureBlobPrivate req file w s')
  = (if is_404 e then Normal tt else Throw e).
Proof.
  intros Hok Hok' Hi Hi' Hp Hin Hd Hd'. split.
  - rewrite signed_delete_run.
    destruct (signed_init_run w s) as (_ & _ & _ & _ & _ & Hc).
    eapply deleteOutcome_primitive_fails; eauto.
  - rewrite identity_delete_run.
    destruct (identity_init_run w s') as (_ & _ & _ & _ & _ & Hc).
    eapply deleteOutcome_primitive_fails; eauto.
Qed.

Lemma delete_not_found_is_success_u1 :
  fst (SignedUrl.deleteFileFromAzureBlobPrivate {| user_id := "u1" |}
         {| filepath := "https://acct.blob.core.windows.net/files/images/u1/a.png" |}
         notFoundWorld initialState) = Normal tt /\
  fst (Identity.deleteFileFromAzureBlobPrivate {| user_id := "u1" |}
         {| filepath := "https://acct.blob.core.windows.net/files/images/u1/a.png" |}
         notFoundWorld initialState) = Normal tt.
Proof.
  apply (delete_not_found_is_success notFoundWorld initialState initialState
           {| user_id := "u1" |}
           {| filepath := "https://acct.blob.core.windows.net/files/images/u1/a.png" |}
           "images/u1/a.png" signedClient identityClient (restError 404));
    try reflexivity; exact I.
Defined.

(** ** Computations only add to the log *)

Lemma extends_ret {A : Type} (a : A) : extends (ret a).
Proof. intros w s. exists []. cbn. now rewrite app_nil_r. Qed.

Lemma extends_throw {A : Type} (e : JsError) : extends (@throw A e).
Proof. intros w s. exists []. cbn. now rewrite app_nil_r. Qed.

Lemma extends_ask : extends ask.
Proof. intros w s. exists []. cbn. now rewrite app_nil_r. Qed.

Lemma extends_get : extends get.
Proof. intros w s. exists []. cbn. now rewrite app_nil_r. Qed.

Lemma extends_answer {A : Type} (f : World -> Completion A) :
  extends (fun w s => (f w, s)).
Proof. intros w s. exists []. cbn. now rewrite app_nil_r. Qed.

Lemma extends_emit (ev : Event) : extends (emit ev).
Proof. intros w s. exists [ev]. reflexivity. Qed.

Lemma extends_bind {A B : Type} (m : M A) (k : A -> M B) :
  extends m -> (forall a, extends (k a)) -> extends (bind m k).
Proof.
  intros Hm Hk w s. unfold bind.
  destruct (Hm w s) as (evs & E). destruct (m w s) as [[a|e] s1]; cbn in *.
  - destruct (Hk a w s1) as (evs' & E'). exists (evs ++ evs')%list.
    now rewrite E', E, app_assoc.
  - now exists evs.
Qed.

Lemma extends_try_catch {A : Type} (m : M A) (h : JsError -> M A) :
  extends m -> (forall e, extends (h e)) -> extends (try_catch m h).
Proof.
  intros Hm Hh w s. unfold try_catch.
  destruct (Hm w s) as (evs & E). destruct (m w s) as [[a|e] s1]; cbn in *.
  - now exists evs.
  - destruct (Hh e w s1) as (evs' & E'). exists (evs ++ evs')%list.
    now rewrite E', E, app_assoc.
Qed.

Lemma extends_call {A : Type} (ev : Event) (f : World -> Completion A) :
  extends (call ev f).
Proof.
  apply extends_bind; [apply extends_emit|intros _; apply extends_answer].
Qed.

Lemma extends_logger (level message : string) : extends (logger level message).
Proof. apply extends_emit. Qed.

Lemma extends_newDateNow : extends newDateNow.
Proof. intros w s. exists [NewDate]. reflexivity. Qed.

Lemma extends_set_blobServiceClient (c : BlobServiceClient) :
  extends (set_blobServiceClient c).
Proof. intros w s. exists []. cbn. now rewrite app_nil_r. Qed.

Lemma extends_set_containerClient (c : ContainerClient) :
  extends (set_containerClient c).
Proof. intros w s. exists []. cbn. now rewrite app_nil_r. Qed.

Create HintDb extends.
#[local] Hint Resolve extends_ret extends_throw extends_ask extends_get
  extends_emit extends_call extends_logger extends_newDateNow
  extends_set_blobServiceClient extends_set_containerClient : extends.

(** Follows the shape of a computation: binds and handlers are entered,
    branches are split, the leaves are closed from the hint database. *)
Ltac extends_steps :=
  repeat first
    [ solve [auto with extends]
    | apply extends_answer
    | apply extends_bind; [|intros ?]
    | apply extends_try_catch; [|intros ?]
    | match goal with
      | |- extends (match ?x with _ => _ end) => destruct x
      end ].

Lemma extends_the_containerClient : extends the_containerClient.
Proof. unfold the_containerClient. extends_steps. Qed.

#[local] Hint Resolve extends_the_containerClient : extends.

Lemma extends_signed_init : extends SignedUrl.initializeAzureBlobPrivateService.
Proof. unfold SignedUrl.initializeAzureBlobPrivateService. extends_steps. Qed.

Lemma extends_identity_init : extends Identity.initializeAzureBlobPrivateService.
Proof. unfold Identity.initializeAzureBlobPrivateService. extends_steps. Qed.

#[local] Hint Resolve extends_signed_init extends_identity_init : extends.

Lemma extends_signed_saveBuffer (userId : Js.value) (buffer : Buffer)
  (fileName : string) (basePath containerName : option string) :
  extends (SignedUrl.saveBufferToAzureBlobPrivate userId buffer fileName
             basePath containerName).
Proof.
  unfold SignedUrl.saveBufferToAzureBlobPrivate, SignedUrl.createSASWriteString,
    SignedUrl.uploadBufferToSignedUrl, SignedUrl.getSignedDownloadUrl,
    SignedUrl.createSASReadString.
  extends_steps.
Qed.

Lemma extends_identity_saveBuffer (userId : Js.value) (buffer : Buffer)
  (fileName : string) (basePath containerName : option string) :
  extends (Identity.saveBufferToAzureBlobPrivate userId buffer fileName
             basePath containerName).
Proof.
  unfold Identity.saveBufferToAzureBlobPrivate, Identity.uploadBufferDirectly.
  extends_steps.
Qed.

(** ** Saving from a URL *)

Lemma signed_saveURL_run (userId : Js.value) (URL fileName : string)
  (basePath containerName : option string) (w : World) (s : State) :
  SignedUrl.saveURLToAzureBlobPrivate userId URL fileName basePath
    containerName w s
  = match fetch_get w URL with
    | Throw e => (Throw e, after s [FetchGet URL; saveURLErrorLog] 0)
    | Normal response =>
        match resp_buffer response with
        | Throw e => (Throw e, after s [FetchGet URL; saveURLErrorLog] 0)
        | Normal buffer =>
            match SignedUrl.saveBufferToAzureBlobPrivate userId buffer fileName
                    basePath
                    (Some (Js.default (AZURE_PRIVATE_CONTAINER_NAME w) containerName))
                    w (after s [FetchGet URL] 0) with
            | (Normal url, s2) => (Normal url, s2)
            | (Throw e, s2) => (Throw e, after s2 [saveURLErrorLog] 0)
            end
        end
    end.
Proof.
  unfold SignedUrl.saveURLToAzureBlobPrivate, after, saveURLErrorLog. run.
  destruct (fetch_get w URL) as [response|e]; proj.
  - destruct (resp_buffer response) as [buffer|e]; proj.
    + destruct (SignedUrl.saveBufferToAzureBlobPrivate _ _ _ _ _ _ _)
        as [[url|e] s2]; reflexivity.
    + now rewrite <- app_assoc.
  - now rewrite <- app_assoc.
Qed.

Lemma identity_saveURL_run (userId : Js.value) (URL fileName : string)
  (basePath containerName : option string) (w : World) (s : State) :
  Identity.saveURLToAzureBlobPrivate userId URL fileName basePath
    containerName w s
  = match fetch_get w URL with
    | Throw e => (Throw e, after s [FetchGet URL; saveURLErrorLog] 0)
    | Normal response =>
        match resp_buffer response with
        | Throw e => (Throw e, after s [FetchGet URL; saveURLErrorLog] 0)
        | Normal buffer =>
            match Identity.saveBufferToAzureBlobPrivate userId buffer fileName
                    basePath
                    (Some (Js.default (AZURE_PRIVATE_CONTAINER_NAME w) containerName))
                    w (after s [FetchGet URL] 0) with
            | (Normal url, s2) => (Normal url, s2)
            | (Throw e, s2) => (Throw e, after s2 [saveURLErrorLog] 0)
            end
        end
    end.
Proof.
  unfold Identity.saveURLToAzureBlobPrivate, after, saveURLErrorLog. run.
  destruct (fetch_get w URL) as [response|e]; proj.
  - destruct (resp_buffer response) as [buffer|e]; proj.
    + destruct (Identity.saveBufferToAzureBlobPrivate _ _ _ _ _ _ _)
        as [[url|e] s2]; reflexivity.
    + now rewrite <- app_assoc.
  - now rewrite <- app_assoc.
Qed.

(** C7: when fetching the source URL fails with [e],
    [saveURLToAzureBlobPrivate] throws [e] and its only calls are the fetch
    and the error log, so nothing is uploaded; and in every run the first
    call is the fetch, so any upload comes after it.  Signed-URL back end
    from state [s], identity back end from state [s']. *)
Theorem save_url_fetch_failure (w : World) (s s' : State) (userId : Js.value)
  (URL fileName : string) (basePath containerName : option string) :
  (forall e,
      fetch_get w URL = Throw e ->
      SignedUrl.saveURLToAzureBlobPrivate userId URL fileName basePath
        containerName w s
      = (Throw e, after s [FetchGet URL; saveURLErrorLog] 0) /\
      Identity.saveURLToAzureBlobPrivate userId URL fileName basePath
        containerName w s'
      = (Throw e, after s' [FetchGet URL; saveURLErrorLog] 0)) /\
  existsb is_upload [FetchGet URL; saveURLErrorLog] = false /\
  (exists evs,
      calls (snd (SignedUrl.saveURLToAzureBlobPrivate userId URL fileName
                    basePath containerName w s))
      = (calls s ++ FetchGet URL :: evs)%list) /\
  (exists evs,
      calls (snd (Identity.saveURLToAzureBlobPrivate userId URL fileName
                    basePath containerName w s'))
      = (calls s' ++ FetchGet URL :: evs)%list).
Proof.
  split; [|split; [reflexivity|split]].
  - intros e He. rewrite signed_saveURL_run, identity_saveURL_run, He.
    split; reflexivity.
  - rewrite signed_saveURL_run.
    destruct (fetch_get w URL) as [response|e]; [|eexists; reflexivity].
    destruct (resp_buffer response) as [buffer|e]; [|eexists; reflexivity].
    destruct (extends_signed_saveBuffer userId buffer fileName basePath
                (Some (Js.default (AZURE_PRIVATE_CONTAINER_NAME w) containerName))
                w (after s [FetchGet URL] 0)) as (evs & E).
    destruct (SignedUrl.saveBufferToAzureBlobPrivate _ _ _ _ _ _ _)
      as [[url|e] s2]; cbn [snd after calls] in *; rewrite E, <- !app_assoc;
      eexists; reflexivity.
  - rewrite identity_saveURL_run.
    destruct (fetch_get w URL) as [response|e]; [|eexists; reflexivity].
    destruct (resp_buffer response) as [buffer|e]; [|eexists; reflexivity].
    destruct (extends_identity_saveBuffer userId buffer fileName basePath
                (Some (Js.default (AZURE_PRIVATE_CONTAINER_NAME w) containerName))
                w (after s' [FetchGet URL] 0)) as (evs & E).
    destruct (Identity.saveBufferToAzureBlobPrivate _ _ _ _ _ _ _)
      as [[url|e] s2]; cbn [snd after calls] in *; rewrite E, <- !app_assoc;
      eexists; reflexivity.
Qed.

Lemma save_url_fetch_failure_offline :
  fetch_get offlineWorld "https://example.org/cat.png" = Throw networkError /\
  SignedUrl.saveURLToAzureBlobPrivate (Js.str "u1")
    "https://example.org/cat.png" "cat.png" None None offlineWorld initialState
  = (Throw networkError,
     after initialState
       [FetchGet "https://example.org/cat.png"; saveURLErrorLog] 0) /\
  Identity.saveURLToAzureBlobPrivate (Js.str "u1")
    "https://example.org/cat.png" "cat.png" None None offlineWorld initialState
  = (Throw networkError,
     after initialState
       [FetchGet "https://example.org/cat.png"; saveURLErrorLog] 0).
Proof.
  split; [reflexivity|].
  apply (proj1 (save_url_fetch_failure offlineWorld initialState initialState
                  (Js.str "u1") "https://example.org/cat.png" "cat.png"
                  None None)).
  reflexivity.
Defined.

(** The same when the fetch answers but reading the body fails. *)
Lemma save_url_body_failure (w : World) (s : State) (userId : Js.value)
  (URL fileName : string) (basePath containerName : option string)
  (response : Response) (e : JsError) :
  fetch_get w URL = Normal response ->
  resp_buffer response = Throw e ->
  SignedUrl.saveURLToAzureBlobPrivate userId URL fileName basePath
    containerName w s
  = (Throw e, after s [FetchGet URL; saveURLErrorLog] 0) /\
  Identity.saveURLToAzureBlobPrivate userId URL fileName basePath
    containerName w s
  = (Throw e, after s [FetchGet URL; saveURLErrorLog] 0).
Proof.
  intros Hf Hb. rewrite signed_saveURL_run, identity_saveURL_run, Hf, Hb.
  split; reflexivity.
Qed.

(** ** Reading a blob back *)

Lemma identity_stream_run (req : ServerRequest) (fileURL : string)
  (w : World) (s : State) :
  Identity.getAzureBlobPrivateFileStream req fileURL w s
  = match containerClient s with
    | None =>
        (Throw (TypeError "Cannot read properties of null"),
         after s [streamErrorLog] 0)
    | Some c =>
        let blobClient := getBlobClient c (AZURE_PRIVATE_CONTAINER_NAME w) in
        match sdk_download w blobClient with
        | Normal stream => (Normal stream, after s [Download blobClient] 0)
        | Throw e => (Throw e, after s [Download blobClient; streamErrorLog] 0)
        end
    end.
Proof.
  unfold Identity.getAzureBlobPrivateFileStream, after, streamErrorLog. run.
  destruct s as [svc [c|] evs n]; proj; [|reflexivity].
  destruct (sdk_download w _) as [stream|e]; proj; [reflexivity|].
  now rewrite <- app_assoc.
Qed.

(** C9: in the identity-based back end the stream is opened on the blob
    whose name is the configured container name; [fileURL] plays no part,
    so two calls with different URLs (and requests) do the same. *)
Theorem identity_stream_ignores_url (w : World) (s : State)
  (req1 req2 : ServerRequest) (fileURL1 fileURL2 : string) :
  Identity.getAzureBlobPrivateFileStream req1 fileURL1 w s
  = Identity.getAzureBlobPrivateFileStream req2 fileURL2 w s /\
  Identity.getAzureBlobPrivateFileStream req1 fileURL1 w s
  = match containerClient s with
    | None =>
        (Throw (TypeError "Cannot read properties of null"),
         after s [streamErrorLog] 0)
    | Some c =>
        let blobClient := getBlobClient c (AZURE_PRIVATE_CONTAINER_NAME w) in
        match sdk_download w blobClient with
        | Normal stream => (Normal stream, after s [Download blobClient] 0)
        | Throw e => (Throw e, after s [Download blobClient; streamErrorLog] 0)
        end
    end.
Proof.
  split; [|apply identity_stream_run].
  now rewrite !identity_stream_run.
Qed.

(** ** The operations of the signed-URL back end, when all goes well *)

Lemma signed_init_ready (w : World) (s : State) (svc : BlobServiceClient) :
  singletons_ok w s ->
  fst (SignedUrl.initializeAzureBlobPrivateService w s) = Normal svc ->
  exists evs,
    SignedUrl.initializeAzureBlobPrivateService w s
    = (Normal svc,
       {| blobServiceClient := Some svc;
          containerClient := Some (configuredContainer w svc);
          calls := calls s ++ evs;
          clockReads := clockReads s |}).
Proof.
  unfold SignedUrl.initializeAzureBlobPrivateService, singletons_ok. run.
  destruct s as [[svc0|] cc evs0 n]; proj.
  - destruct cc as [c|]; [|contradiction]. intros -> [= ->].
    exists []. now rewrite app_nil_r.
  - destruct (_ && _); proj; [|discriminate]. intros _ [= <-].
    eexists. reflexivity.
Qed.

Lemma identity_init_ready (w : World) (s : State) (svc : BlobServiceClient) :
  singletons_ok w s ->
  fst (Identity.initializeAzureBlobPrivateService w s) = Normal svc ->
  exists evs,
    Identity.initializeAzureBlobPrivateService w s
    = (Normal svc,
       {| blobServiceClient := Some svc;
          containerClient := Some (configuredContainer w svc);
          calls := calls s ++ evs;
          clockReads := clockReads s |}).
Proof.
  unfold Identity.initializeAzureBlobPrivateService, singletons_ok. run.
  destruct s as [[svc0|] cc evs0 n]; proj.
  - destruct cc as [c|]; [|contradiction]. intros -> [= ->].
    exists []. now rewrite app_nil_r.
  - destruct (_ || _); proj; [discriminate|].
    destruct (newWorkloadIdentityCredential w); proj; [|discriminate].
    intros _ [= <-]. eexists. reflexivity.
Qed.

Lemma signed_getURL_run (fileName : string) (basePath : option string)
  (userId : Js.value) (containerName : option string) (w : World) (s : State)
  (svc : BlobServiceClient) :
  singletons_ok w s ->
  fst (SignedUrl.initializeAzureBlobPrivateService w s) = Normal svc ->
  fst (SignedUrl.getAzureBlobPrivateURL fileName basePath userId containerName
         w s)
  = Normal
      (signedBlobUrl w svc (resolveBlobPath basePath userId fileName)
         (SignedUrl.readSasModel (timeZone w)
            (Js.default (AZURE_PRIVATE_CONTAINER_NAME w) containerName)
            (clock w (clockReads s)) None)) /\
  calls (snd (SignedUrl.getAzureBlobPrivateURL fileName basePath userId
                containerName w s))
  = (calls (snd (SignedUrl.initializeAzureBlobPrivateService w s))
     ++ [NewDate])%list.
Proof.
  intros Hok Hinit.
  destruct (signed_init_ready w s svc Hok Hinit) as (evs & E).
  unfold SignedUrl.getAzureBlobPrivateURL, SignedUrl.getSignedDownloadUrl,
    SignedUrl.createSASReadString. run.
  rewrite E. proj. split; reflexivity.
Qed.

Lemma signed_saveBuffer_run (userId : Js.value) (buffer : Buffer)
  (fileName : string) (basePath containerName : option string)
  (w : World) (s : State) (svc : BlobServiceClient) :
  singletons_ok w s ->
  fst (SignedUrl.initializeAzureBlobPrivateService w s) = Normal svc ->
  sdk_createIfNotExists w (configuredContainer w svc) = Normal tt ->
  (forall url contentType len body,
      fetch_put w url contentType len body = Normal tt) ->
  let cn := Js.default (AZURE_PRIVATE_CONTAINER_NAME w) containerName in
  let blobPath := saveBlobPath basePath userId fileName in
  fst (SignedUrl.saveBufferToAzureBlobPrivate userId buffer fileName basePath
         containerName w s)
  = Normal
      (signedBlobUrl w svc blobPath
         (SignedUrl.readSasModel (timeZone w) cn
            (clock w (S (clockReads s))) None)) /\
  calls (snd (SignedUrl.saveBufferToAzureBlobPrivate userId buffer fileName
                basePath containerName w s))
  = (calls (snd (SignedUrl.initializeAzureBlobPrivateService w s))
     ++ [CreateIfNotExists (configuredContainer w svc);
         NewDate;
         FetchPut
           (signedBlobUrl w svc blobPath
              (SignedUrl.writeSasModel (timeZone w) cn
                 (clock w (clockReads s)) None))
           (contentTypeOf w fileName) (Z.of_nat (List.length buffer)) buffer;
         NewDate])%list.
Proof.
  intros Hok Hinit Hcreate Hput cn blobPath.
  destruct (signed_init_ready w s svc Hok Hinit) as (evs & E).
  unfold SignedUrl.saveBufferToAzureBlobPrivate, SignedUrl.getSignedDownloadUrl,
    SignedUrl.createSASReadString, SignedUrl.createSASWriteString,
    SignedUrl.uploadBufferToSignedUrl. run.
  rewrite E. proj. rewrite Hcreate. proj. rewrite Hput. proj.
  split; [reflexivity|]. now rewrite <- !app_assoc.
Qed.

Lemma signed_upload_run (req : ServerRequest) (file : MulterFile)
  (file_id : string) (basePath containerName : option string)
  (w : World) (s : State) (svc : BlobServiceClient) (n : Z) (body : Buffer) :
  singletons_ok w s ->
  fst (SignedUrl.initializeAzureBlobPrivateService w s) = Normal svc ->
  fs_stat w (path file) = Normal n ->
  sdk_createIfNotExists w (configuredContainer w svc) = Normal tt ->
  fs_readFile w (path file) = Normal body ->
  (forall url contentType len body,
      fetch_put w url contentType len body = Normal tt) ->
  let cn := Js.default (AZURE_PRIVATE_CONTAINER_NAME w) containerName in
  let blobPath := uploadBlobPath basePath req file file_id in
  fst (SignedUrl.uploadFileToAzureBlobPrivate req file file_id basePath
         containerName w s)
  = Normal
      {| res_filepath :=
           signedBlobUrl w svc blobPath
             (SignedUrl.readSasModel (timeZone w) cn
                (clock w (S (clockReads s))) None);
         res_bytes := n |} /\
  calls (snd (SignedUrl.uploadFileToAzureBlobPrivate req file file_id basePath
                containerName w s))
  = (calls (snd (SignedUrl.initializeAzureBlobPrivateService w s))
     ++ [Stat (path file);
         CreateIfNotExists (configuredContainer w svc);
         NewDate;
         Stat (path file);
         ReadFile (path file);
         FetchPut
           (signedBlobUrl w svc blobPath
              (SignedUrl.writeSasModel (timeZone w) cn
                 (clock w (clockReads s)) None))
           (contentTypeOf w (path file)) n body;
         NewDate])%list.
Proof.
  intros Hok Hinit Hstat Hcreate Hread Hput cn blobPath.
  destruct (signed_init_ready w s svc Hok Hinit) as (evs & E).
  unfold SignedUrl.uploadFileToAzureBlobPrivate, SignedUrl.getSignedDownloadUrl,
    SignedUrl.createSASReadString, SignedUrl.createSASWriteString,
    SignedUrl.uploadFileToSignedUrl. run.
  rewrite E. proj. rewrite Hstat. proj. rewrite Hcreate. proj.
  rewrite Hread. proj. rewrite Hput. proj.
  split; [reflexivity|]. now rewrite <- !app_assoc.
Qed.

Lemma identity_upload_run (req : ServerRequest) (file : MulterFile)
  (file_id : string) (basePath containerName : option string)
  (w : World) (s : State) (svc : BlobServiceClient) (n : Z) :
  singletons_ok w s ->
  fst (Identity.initializeAzureBlobPrivateService w s) = Normal svc ->
  fs_stat w (path file) = Normal n ->
  sdk_createIfNotExists w (configuredContainer w svc) = Normal tt ->
  (forall b filePath contentType,
      sdk_uploadFile w b filePath contentType = Normal tt) ->
  let cn := Js.default (AZURE_PRIVATE_CONTAINER_NAME w) containerName in
  let blobPath := uploadBlobPath basePath req file file_id in
  fst (Identity.uploadFileToAzureBlobPrivate req file file_id basePath
         containerName w s)
  = Normal
      {| res_filepath := Identity.getDirectBlobUrl w blobPath cn;
         res_bytes := n |} /\
  calls (snd (Identity.uploadFileToAzureBlobPrivate req file file_id basePath
                containerName w s))
  = (calls (snd (Identity.initializeAzureBlobPrivateService w s))
     ++ [Stat (path file);
         CreateIfNotExists (configuredContainer w svc);
         UploadFile (getBlockBlobClient (configuredContainer w svc) blobPath)
           (path file) (contentTypeOf w (path file))])%list.
Proof.
  intros Hok Hinit Hstat Hcreate Hup cn blobPath.
  destruct (identity_init_ready w s svc Hok Hinit) as (evs & E).
  unfold Identity.uploadFileToAzureBlobPrivate, Identity.uploadFileDirectly. run.
  rewrite E. proj. rewrite Hstat. proj. rewrite Hcreate. proj.
  rewrite Hup. proj.
  split; [reflexivity|]. now rewrite <- !app_assoc.
Qed.

(** ** Base names *)

Lemma append_assoc (a b c : string) : (a ++ b) ++ c = a ++ (b ++ c).
Proof.
  induction a as [|x a IH]; simpl; [reflexivity | now rewrite IH].
Qed.

Lemma append_nil_r (a : string) : a ++ "" = a.
Proof.
  induction a as [|x a IH]; simpl; [reflexivity | now rewrite IH].
Qed.

Lemma rev_append_spec (s acc : string) :
  Js.rev_append s acc = Js.rev s ++ acc.
Proof.
  revert acc. induction s as [|c s IH]; intros acc; [reflexivity|].
  unfold Js.rev. simpl. rewrite (IH (String c acc)), (IH (String c "")).
  now rewrite append_assoc.
Qed.

Lemma rev_cons (c : ascii) (s : string) :
  Js.rev (String c s) = Js.rev s ++ String c "".
Proof. unfold Js.rev at 1. simpl. apply rev_append_spec. Qed.

Lemma rev_app (a b : string) : Js.rev (a ++ b) = Js.rev b ++ Js.rev a.
Proof.
  induction a as [|c a IH]; simpl.
  - now rewrite append_nil_r.
  - now rewrite !rev_cons, IH, append_assoc.
Qed.

Lemma rev_involutive (s : string) : Js.rev (Js.rev s) = s.
Proof.
  induction s as [|c s IH]; [reflexivity|].
  now rewrite rev_cons, rev_app, IH.
Qed.

Lemma no_slash_app (a b : string) :
  no_slash (a ++ b) = no_slash a && no_slash b.
Proof.
  induction a as [|c a IH]; simpl; [reflexivity|].
  now rewrite IH, andb_assoc.
Qed.

Lemma no_slash_rev (s : string) : no_slash (Js.rev s) = no_slash s.
Proof.
  induction s as [|c s IH]; [reflexivity|].
  rewrite rev_cons, no_slash_app, IH. simpl.
  now rewrite andb_true_r, andb_comm.
Qed.

Lemma take_to_slash_app (a b : string) :
  no_slash a = true -> Js.take_to_slash (a ++ String "/" b) = a.
Proof.
  induction a as [|c a IH]; simpl; [reflexivity|].
  intros [Hc Ha]%andb_true_iff. apply negb_true_iff in Hc.
  now rewrite Hc, IH.
Qed.

Lemma take_to_slash_all (a : string) :
  no_slash a = true -> Js.take_to_slash a = a.
Proof.
  induction a as [|c a IH]; simpl; [reflexivity|].
  intros [Hc Ha]%andb_true_iff. apply negb_true_iff in Hc.
  now rewrite Hc, IH.
Qed.

Lemma drop_slashes_none (a b : string) :
  no_slash a = true -> a <> "" -> Js.drop_slashes (a ++ b) = a ++ b.
Proof.
  destruct a as [|c a]; [intros _ H; now contradiction H|].
  simpl. intros [Hc _]%andb_true_iff _. apply negb_true_iff in Hc.
  now rewrite Hc.
Qed.

Lemma rev_not_empty (s : string) : s <> "" -> Js.rev s <> "".
Proof.
  destruct s as [|c s]; [intros H; now contradiction H|].
  intros _ H. rewrite rev_cons in H.
  apply (f_equal String.length) in H. rewrite length_append in H.
  simpl in H. lia.
Qed.

(** The base name of [dir/name] is [name], and so is that of [name] alone,
    for a non-empty [name] without a slash. *)
Lemma basename_in_dir (dir name : string) :
  no_slash name = true -> name <> "" ->
  Js.basename (dir ++ "/" ++ name) = name.
Proof.
  intros Hn Hne. unfold Js.basename.
  rewrite rev_app, rev_app. change (Js.rev "/") with "/".
  rewrite append_assoc. change ("/" ++ Js.rev dir) with (String "/" (Js.rev dir)).
  rewrite drop_slashes_none
    by (try apply rev_not_empty; try rewrite no_slash_rev; assumption).
  rewrite take_to_slash_app by (rewrite no_slash_rev; assumption).
  apply rev_involutive.
Qed.

Lemma basename_plain (name : string) :
  no_slash name = true -> name <> "" -> Js.basename name = name.
Proof.
  intros Hn Hne. unfold Js.basename.
  rewrite <- (append_nil_r (Js.rev name)).
  rewrite drop_slashes_none
    by (try apply rev_not_empty; try rewrite no_slash_rev; assumption).
  rewrite append_nil_r, take_to_slash_all by (rewrite no_slash_rev; assumption).
  apply rev_involutive.
Qed.

(** ** Uploading a local file *)

(** C8: [uploadFileToAzureBlobPrivate] stores the file under the name
    [file_id], two underscores, the base name of the local path, inside
    [basePath/userId/], and when its collaborators succeed it returns the
    access URL of that blob together with the size that [stat] reported.
    Signed-URL back end from state [s], identity back end from state
    [s']. *)
Theorem upload_local_file (w : World) (s s' : State) (req : ServerRequest)
  (file : MulterFile) (file_id : string) (basePath containerName : option string)
  (svc svc' : BlobServiceClient) (n : Z) (body : Buffer) :
  singletons_ok w s ->
  singletons_ok w s' ->
  fst (SignedUrl.initializeAzureBlobPrivateService w s) = Normal svc ->
  fst (Identity.initializeAzureBlobPrivateService w s') = Normal svc' ->
  fs_stat w (path file) = Normal n ->
  (forall c, sdk_createIfNotExists w c = Normal tt) ->
  fs_readFile w (path file) = Normal body ->
  (forall url contentType len b, fetch_put w url contentType len b = Normal tt) ->
  (forall b filePath contentType,
      sdk_uploadFile w b filePath contentType = Normal tt) ->
  let fileName := file_id ++ "__" ++ Js.basename (path file) in
  let blobPath :=
    Js.default defaultBasePath basePath ++ "/" ++ user_id req ++ "/" ++ fileName in
  let cn := Js.default (AZURE_PRIVATE_CONTAINER_NAME w) containerName in
  uploadFileName file_id (path file) = fileName /\
  (forall dir name,
      path file = dir ++ "/" ++ name -> no_slash name = true -> name <> "" ->
      fileName = file_id ++ "__" ++ name) /\
  (exists sas,
      fst (SignedUrl.uploadFileToAzureBlobPrivate req file file_id basePath
             containerName w s)
      = Normal
          {| res_filepath :=
               blob_url w (getBlockBlobClient (configuredContainer w svc) blobPath)
               ++ "?" ++ sas;
             res_bytes := n |}) /\
  (exists sas,
      In (FetchPut
            (blob_url w (getBlockBlobClient (configuredContainer w svc) blobPath)
             ++ "?" ++ sas)
            (contentTypeOf w (path file)) n body)
         (calls (snd (SignedUrl.uploadFileToAzureBlobPrivate req file file_id
                        basePath containerName w s)))) /\
  fst (Identity.uploadFileToAzureBlobPrivate req file file_id basePath
         containerName w s')
  = Normal {| res_filepath := Identity.getDirectBlobUrl w blobPath cn;
              res_bytes := n |} /\
  In (UploadFile (getBlockBlobClient (configuredContainer w svc') blobPath)
        (path file) (contentTypeOf w (path file)))
     (calls (snd (Identity.uploadFileToAzureBlobPrivate req file file_id
                    basePath containerName w s'))).
Proof.
  intros Hok Hok' Hinit Hinit' Hstat Hcreate Hread Hput Hup fileName blobPath cn.
  destruct (signed_upload_run req file file_id basePath containerName w s svc
              n body Hok Hinit Hstat (Hcreate _) Hread Hput) as [Hr Hc].
  destruct (identity_upload_run req file file_id basePath containerName w s'
              svc' n Hok' Hinit' Hstat (Hcreate _) Hup) as [Hr' Hc'].
  split; [reflexivity|]. split.
  { intros dir name Hp Hn Hne. subst fileName.
    now rewrite Hp, basename_in_dir. }
  split; [eexists; exact Hr|]. split.
  { eexists. rewrite Hc. apply in_or_app. right. cbn.
    do 5 right. left. reflexivity. }
  split; [exact Hr'|].
  rewrite Hc'. apply in_or_app. right. cbn. do 2 right. left. reflexivity.
Qed.

Lemma upload_local_file_photo :
  uploadFileName "123" "/tmp/uploads/photo.jpg" = "123__photo.jpg" /\
  fst (Identity.uploadFileToAzureBlobPrivate {| user_id := "u1" |}
         {| path := "/tmp/uploads/photo.jpg" |} "123" None None
         calmWorld initialState)
  = Normal
      {| res_filepath :=
           "https://acct.blob.core.windows.net/files/images/u1/123__photo.jpg";
         res_bytes := 2048 |} /\
  exists sas,
    fst (SignedUrl.uploadFileToAzureBlobPrivate {| user_id := "u1" |}
           {| path := "/tmp/uploads/photo.jpg" |} "123" None None
           calmWorld initialState)
    = Normal
        {| res_filepath :=
             "https://acct.blob.core.windows.net/files/images/u1/123__photo.jpg?"
             ++ sas;
           res_bytes := 2048 |}.
Proof.
  destruct (upload_local_file calmWorld initialState initialState
              {| user_id := "u1" |} {| path := "/tmp/uploads/photo.jpg" |}
              "123" None None signedClient identityClient 2048%Z [])
    as (Hname & _ & (sas & Hsigned) & _ & Hidentity & _);
    try reflexivity; try exact I.
  split; [exact Hname|]. split; [exact Hidentity|].
  exists sas. exact Hsigned.
Defined.

(** ** The container named in a grant and the container addressed *)

Lemma segments_from_no_slash (cur a : string) :
  no_slash a = true -> JsUrl.segments_from cur a = [cur ++ a].
Proof.
  revert cur. induction a as [|c a IH]; intros cur; cbn.
  - intros _. now rewrite append_nil_r.
  - intros [Hc Ha]%andb_true_iff. apply negb_true_iff in Hc.
    rewrite Hc, (IH _ Ha), append_assoc. reflexivity.
Qed.

Lemma segments_from_first (cur a b : string) :
  no_slash a = true ->
  JsUrl.segments_from cur (a ++ "/" ++ b)
  = (cur ++ a) :: JsUrl.segments_from "" b.
Proof.
  revert cur. induction a as [|c a IH]; intros cur; cbn.
  - intros _. now rewrite append_nil_r.
  - intros [Hc Ha]%andb_true_iff. apply negb_true_iff in Hc.
    rewrite Hc, (IH _ Ha), append_assoc. reflexivity.
Qed.

Lemma serialise_segments_from (cur s : string) :
  JsUrl.serialise (JsUrl.segments_from cur s) = "/" ++ cur ++ s.
Proof.
  revert cur. induction s as [|c s IH]; intros cur.
  - cbn. now rewrite !append_nil_r.
  - cbn [JsUrl.segments_from]. destruct (Js.is_slash c) eqn:Hc.
    + cbn [JsUrl.serialise]. rewrite IH.
      unfold Js.is_slash in Hc. apply Ascii.eqb_eq in Hc. subst c.
      reflexivity.
    + rewrite IH, append_assoc. reflexivity.
Qed.

Lemma serialise_app (l l' : list string) :
  JsUrl.serialise (l ++ l') = JsUrl.serialise l ++ JsUrl.serialise l'.
Proof.
  induction l as [|seg l IH]; [reflexivity|].
  cbn [JsUrl.serialise List.app]. rewrite IH.
  change ("/" ++ seg ++ JsUrl.serialise l ++ JsUrl.serialise l')
    with (String "/" (seg ++ JsUrl.serialise l ++ JsUrl.serialise l')).
  change (("/" ++ seg ++ JsUrl.serialise l) ++ JsUrl.serialise l')
    with (String "/" ((seg ++ JsUrl.serialise l) ++ JsUrl.serialise l')).
  now rewrite append_assoc.
Qed.

(** Without dot segments the parser keeps every segment. *)
Lemma resolve_plain (stack segs : list string) :
  segs <> [] ->
  forallb JsUrl.plain_segment segs = true ->
  JsUrl.resolve stack segs = (List.rev stack ++ segs)%list.
Proof.
  revert stack. induction segs as [|seg rest IH]; intros stack Hne Hp;
    [now contradiction Hne|].
  cbn [forallb] in Hp. apply andb_true_iff in Hp as [Hseg Hrest].
  unfold JsUrl.plain_segment in Hseg.
  apply andb_true_iff in Hseg as [H1 H2].
  apply negb_true_iff in H1. apply negb_true_iff in H2.
  cbn [JsUrl.resolve]. rewrite H1, H2.
  destruct rest as [|seg' rest'].
  - cbn [List.rev]. reflexivity.
  - rewrite (IH (seg :: stack)) by (try discriminate; assumption).
    cbn [List.rev]. now rewrite <- app_assoc.
Qed.

Lemma endsWithSlash_segment (a : string) :
  no_slash a = true -> a <> "" -> JsUrl.endsWithSlash ("/" ++ a) = false.
Proof.
  intros Hn Hne. unfold JsUrl.endsWithSlash. rewrite rev_app.
  pose proof (rev_not_empty a Hne) as Hr.
  rewrite <- no_slash_rev in Hn.
  destruct (Js.rev a) as [|c r]; [now contradiction Hr|].
  cbn in *. apply andb_true_iff in Hn as [Hc _]. now apply negb_true_iff in Hc.
Qed.

Lemma not_empty_eqb (a : string) : (a =? "") = false -> a <> "".
Proof. intros H. now apply String.eqb_neq. Qed.

(** The URL of a blob client of the configured container, when neither
    the container name nor the blob path has a dot segment: service URL,
    container, blob path. *)
Lemma blob_url_plain (w : World) (svc : BlobServiceClient) (blobPath : string) :
  plainLocation w blobPath = true ->
  blob_url w (getBlockBlobClient (configuredContainer w svc) blobPath)
  = svc_url svc ++ "/" ++ encodeURIComponent w (AZURE_PRIVATE_CONTAINER_NAME w)
    ++ "/" ++ EscapePath w blobPath.
Proof.
  unfold plainLocation.
  intros [[[Hn He]%andb_true_iff Hs]%andb_true_iff Hp]%andb_true_iff.
  apply negb_true_iff in He. pose proof (not_empty_eqb _ He) as Hne.
  set (cn := encodeURIComponent w (AZURE_PRIVATE_CONTAINER_NAME w)) in *.
  set (name := EscapePath w blobPath) in *.
  assert (Hc : container_path w (configuredContainer w svc) = "/" ++ cn).
  { unfold container_path, configuredContainer, getContainerClient,
      JsUrl.appendToURLPath, JsUrl.setPathname, JsUrl.segments.
    cbn [cc_containerName]. fold cn.
    change (("/" =? "")) with false. change (JsUrl.endsWithSlash "/") with true.
    cbn [JsUrl.strip_slash append].
    change (Js.is_slash "/") with true. cbv iota.
    rewrite (segments_from_no_slash "" cn Hn).
    cbn [append]. rewrite resolve_plain; [|discriminate|cbn; now rewrite Hs].
    cbn. now rewrite append_nil_r. }
  unfold blob_url. cbn [bc_container bc_name getBlockBlobClient cc_service
                          configuredContainer getContainerClient].
  change (getContainerClient svc (AZURE_PRIVATE_CONTAINER_NAME w))
    with (configuredContainer w svc).
  rewrite Hc. fold name. f_equal.
  unfold JsUrl.appendToURLPath.
  change ("/" ++ cn) with (String "/" cn).
  cbn [String.eqb]. 
  change (String "/" cn) with ("/" ++ cn).
  rewrite (endsWithSlash_segment cn Hn Hne).
  unfold JsUrl.setPathname, JsUrl.segments.
  change (("/" ++ cn) ++ "/" ++ name) with (String "/" (cn ++ "/" ++ name)).
  cbn [JsUrl.strip_slash]. change (Js.is_slash "/") with true. cbv iota.
  rewrite (segments_from_first "" cn name Hn). cbn [append].
  rewrite resolve_plain;
    [|discriminate|cbn [forallb]; rewrite Hs; exact Hp].
  cbn [List.rev List.app JsUrl.serialise].
  rewrite serialise_segments_from. reflexivity.
Qed.

Lemma signedBlobUrl_shape (w : World) (svc : BlobServiceClient)
  (blobPath : string) (m : BlobSASSignatureValues) :
  plainLocation w blobPath = true ->
  signedBlobUrl w svc blobPath m
  = svc_url svc ++ "/" ++ encodeURIComponent w (AZURE_PRIVATE_CONTAINER_NAME w)
    ++ "/" ++ EscapePath w blobPath ++ "?"
    ++ generateBlobSASQueryParameters w m
         (StorageSharedKeyCredential (env_ACCOUNT_NAME w) (env_ACCOUNT_KEY w)).
Proof.
  intros Hp. unfold signedBlobUrl. rewrite (blob_url_plain w svc blobPath Hp).
  now rewrite !append_assoc.
Qed.

(** C10, as amended: in the signed-URL back end a [containerName]
    argument reaches the SAS model only.  The URL that is PUT to and the
    URL that is returned address the blob through the singleton client of
    the configured container, whatever the argument, while the model that
    is signed names [override].  When neither the container name nor the
    blob path has a dot segment, that URL is the service URL, the
    configured container and the blob path, so that signature and URL name
    different containers whenever [override] differs from the configured
    name. *)
Theorem container_override_only_signs (w : World) (s : State)
  (userId : Js.value) (buffer : Buffer) (fileName : string)
  (basePath : option string) (req : ServerRequest) (file : MulterFile)
  (file_id override : string) (svc : BlobServiceClient) (n : Z)
  (body : Buffer) :
  singletons_ok w s ->
  fst (SignedUrl.initializeAzureBlobPrivateService w s) = Normal svc ->
  fs_stat w (path file) = Normal n ->
  (forall c, sdk_createIfNotExists w c = Normal tt) ->
  fs_readFile w (path file) = Normal body ->
  (forall url contentType len b, fetch_put w url contentType len b = Normal tt) ->
  let tz := timeZone w in
  let t0 := clock w (clockReads s) in
  let t1 := clock w (S (clockReads s)) in
  let readModel := fun t => SignedUrl.readSasModel tz override t None in
  let writeModel := SignedUrl.writeSasModel tz override t0 None in
  fst (SignedUrl.getAzureBlobPrivateURL fileName basePath userId
         (Some override) w s)
  = Normal (signedBlobUrl w svc (resolveBlobPath basePath userId fileName)
              (readModel t0)) /\
  fst (SignedUrl.saveBufferToAzureBlobPrivate userId buffer fileName basePath
         (Some override) w s)
  = Normal (signedBlobUrl w svc (saveBlobPath basePath userId fileName)
              (readModel t1)) /\
  In (FetchPut
        (signedBlobUrl w svc (saveBlobPath basePath userId fileName) writeModel)
        (contentTypeOf w fileName) (Z.of_nat (List.length buffer)) buffer)
     (calls (snd (SignedUrl.saveBufferToAzureBlobPrivate userId buffer fileName
                    basePath (Some override) w s))) /\
  fst (SignedUrl.uploadFileToAzureBlobPrivate req file file_id basePath
         (Some override) w s)
  = Normal
      {| res_filepath :=
           signedBlobUrl w svc (uploadBlobPath basePath req file file_id)
             (readModel t1);
         res_bytes := n |} /\
  In (FetchPut
        (signedBlobUrl w svc (uploadBlobPath basePath req file file_id)
           writeModel)
        (contentTypeOf w (path file)) n body)
     (calls (snd (SignedUrl.uploadFileToAzureBlobPrivate req file file_id
                    basePath (Some override) w s))) /\
  (forall blobPath m,
      plainLocation w blobPath = true ->
      signedBlobUrl w svc blobPath m
      = svc_url svc ++ "/"
        ++ encodeURIComponent w (AZURE_PRIVATE_CONTAINER_NAME w)
        ++ "/" ++ EscapePath w blobPath ++ "?"
        ++ generateBlobSASQueryParameters w m
             (StorageSharedKeyCredential (env_ACCOUNT_NAME w)
                (env_ACCOUNT_KEY w))) /\
  cc_containerName (configuredContainer w svc) = AZURE_PRIVATE_CONTAINER_NAME w /\
  sas_containerName (readModel t0) = override /\
  sas_containerName (readModel t1) = override /\
  sas_containerName writeModel = override /\
  (override <> AZURE_PRIVATE_CONTAINER_NAME w ->
   sas_containerName writeModel <> cc_containerName (configuredContainer w svc) /\
   sas_containerName (readModel t1)
   <> cc_containerName (configuredContainer w svc)).
Proof.
  intros Hok Hinit Hstat Hcreate Hread Hput tz t0 t1 readModel writeModel.
  destruct (signed_getURL_run fileName basePath userId (Some override) w s svc
              Hok Hinit) as [Hg _].
  destruct (signed_saveBuffer_run userId buffer fileName basePath
              (Some override) w s svc Hok Hinit (Hcreate _) Hput) as [Hs Hsc].
  destruct (signed_upload_run req file file_id basePath (Some override) w s
              svc n body Hok Hinit Hstat (Hcreate _) Hread Hput) as [Hu Huc].
  split; [exact Hg|]. split; [exact Hs|]. split.
  { rewrite Hsc. apply in_or_app. right. cbn. do 2 right. left. reflexivity. }
  split; [exact Hu|]. split.
  { rewrite Huc. apply in_or_app. right. cbn. do 5 right. left. reflexivity. }
  split; [intros blobPath m Hp; now apply signedBlobUrl_shape|].
  repeat (split; [reflexivity|]).
  intros Hne. split; exact Hne.
Qed.

Lemma container_override_other :
  fst (SignedUrl.getAzureBlobPrivateURL "a.png" None (Js.str "u1")
         (Some "other") calmWorld initialState)
  = Normal "https://acct.blob.core.windows.net/files/images/u1/a.png?sp=r&sr=c&cn=other" /\
  fst (SignedUrl.saveBufferToAzureBlobPrivate (Js.str "u1") [] "a.png" None
         (Some "other") calmWorld initialState)
  = Normal "https://acct.blob.core.windows.net/files/images/u1/a.png?sp=r&sr=c&cn=other" /\
  In (FetchPut
        "https://acct.blob.core.windows.net/files/images/u1/a.png?sp=w&sr=c&cn=other"
        "application/octet-stream" 0 [])
     (calls (snd (SignedUrl.saveBufferToAzureBlobPrivate (Js.str "u1") []
                    "a.png" None (Some "other") calmWorld initialState))).
Proof.
  destruct (container_override_only_signs calmWorld initialState (Js.str "u1")
              [] "a.png" None {| user_id := "u1" |}
              {| path := "/tmp/uploads/photo.jpg" |} "123" "other"
              signedClient 2048%Z [])
    as (Hg & Hs & Hput & _); try reflexivity; try exact I.
  split; [exact Hg|]. split; [exact Hs|]. exact Hput.
Defined.

(** C10 as stated fails for a file name with dot segments: saving
    [../../../other/a.png] for user [u1] with the container argument
    [other], where [files] is configured, PUTs to and returns a URL inside
    the container [other], the very container that the signature names. *)
Lemma container_override_dot_segments :
  AZURE_PRIVATE_CONTAINER_NAME calmWorld = "files" /\
  saveBlobPath None (Js.str "u1") "../../../other/a.png"
  = "images/u1/../../../other/a.png" /\
  fst (SignedUrl.saveBufferToAzureBlobPrivate (Js.str "u1") []
         "../../../other/a.png" None (Some "other") calmWorld initialState)
  = Normal "https://acct.blob.core.windows.net/other/a.png?sp=r&sr=c&cn=other" /\
  In (FetchPut
        "https://acct.blob.core.windows.net/other/a.png?sp=w&sr=c&cn=other"
        "application/octet-stream" 0 [])
     (calls (snd (SignedUrl.saveBufferToAzureBlobPrivate (Js.str "u1") []
                    "../../../other/a.png" None (Some "other") calmWorld
                    initialState))).
Proof.
  split; [reflexivity|]. split; [reflexivity|]. split; [reflexivity|].
  cbn. do 3 right. left. reflexivity.
Qed.

(** ** The singletons stay bound to the configured container *)

Lemma keeps_ret {A : Type} (a : A) : keeps_singletons (ret a).
Proof. intros w s H. exact H. Qed.

Lemma keeps_throw {A : Type} (e : JsError) : keeps_singletons (@throw A e).
Proof. intros w s H. exact H. Qed.

Lemma keeps_ask : keeps_singletons ask.
Proof. intros w s H. exact H. Qed.

Lemma keeps_get : keeps_singletons get.
Proof. intros w s H. exact H. Qed.

Lemma keeps_answer {A : Type} (f : World -> Completion A) :
  keeps_singletons (fun w s => (f w, s)).
Proof. intros w s H. exact H. Qed.

Lemma keeps_emit (ev : Event) : keeps_singletons (emit ev).
Proof. intros w s H. exact H. Qed.

Lemma keeps_newDateNow : keeps_singletons newDateNow.
Proof. intros w s H. exact H. Qed.

Lemma keeps_bind {A B : Type} (m : M A) (k : A -> M B) :
  keeps_singletons m -> (forall a, keeps_singletons (k a)) ->
  keeps_singletons (bind m k).
Proof.
  intros Hm Hk w s H. unfold bind. specialize (Hm w s H).
  destruct (m w s) as [[a|e] s1]; cbn in *; [now apply Hk | exact Hm].
Qed.

Lemma keeps_try_catch {A : Type} (m : M A) (h : JsError -> M A) :
  keeps_singletons m -> (forall e, keeps_singletons (h e)) ->
  keeps_singletons (try_catch m h).
Proof.
  intros Hm Hh w s H. unfold try_catch. specialize (Hm w s H).
  destruct (m w s) as [[a|e] s1]; cbn in *; [exact Hm | now apply Hh].
Qed.

Lemma keeps_call {A : Type} (ev : Event) (f : World -> Completion A) :
  keeps_singletons (call ev f).
Proof.
  apply keeps_bind; [apply keeps_emit|intros _; apply keeps_answer].
Qed.

Lemma keeps_signed_init :
  keeps_singletons SignedUrl.initializeAzureBlobPrivateService.
Proof.
  intros w s H. destruct (signed_init_run w s) as (_ & _ & _ & _ & Hk & _).
  now apply Hk.
Qed.

Lemma keeps_identity_init :
  keeps_singletons Identity.initializeAzureBlobPrivateService.
Proof.
  intros w s H. destruct (identity_init_run w s) as (_ & _ & _ & _ & Hk & _).
  now apply Hk.
Qed.

Create HintDb keeps.
#[local] Hint Resolve keeps_ret keeps_throw keeps_ask keeps_get keeps_emit
  keeps_newDateNow keeps_call keeps_signed_init keeps_identity_init : keeps.

Ltac keeps_steps :=
  unfold logger, the_containerClient;
  repeat first
    [ solve [auto with keeps]
    | apply keeps_answer
    | apply keeps_bind; [|intros ?]
    | apply keeps_try_catch; [|intros ?]
    | match goal with
      | |- keeps_singletons (match ?x with _ => _ end) => destruct x
      end ].

(** Every operation of the signed-URL back end leaves the singletons unset
    or bound to the configured container, so the premise [singletons_ok] of
    the statements above holds in every state that the operations reach from
    [initialState]. *)
Lemma signed_operations_keep_singletons :
  (forall userId buffer fileName basePath containerName,
      keeps_singletons
        (SignedUrl.saveBufferToAzureBlobPrivate userId buffer fileName basePath
           containerName)) /\
  (forall userId URL fileName basePath containerName,
      keeps_singletons
        (SignedUrl.saveURLToAzureBlobPrivate userId URL fileName basePath
           containerName)) /\
  (forall fileName basePath userId containerName,
      keeps_singletons
        (SignedUrl.getAzureBlobPrivateURL fileName basePath userId
           containerName)) /\
  (forall req file,
      keeps_singletons (SignedUrl.deleteFileFromAzureBlobPrivate req file)) /\
  (forall req file file_id basePath containerName,
      keeps_singletons
        (SignedUrl.uploadFileToAzureBlobPrivate req file file_id basePath
           containerName)) /\
  (forall req fileURL,
      keeps_singletons (SignedUrl.getAzureBlobPrivateFileStream req fileURL)).
Proof.
  repeat split; intros;
    unfold SignedUrl.saveURLToAzureBlobPrivate,
      SignedUrl.saveBufferToAzureBlobPrivate, SignedUrl.getAzureBlobPrivateURL,
      SignedUrl.deleteFileFromAzureBlobPrivate,
      SignedUrl.uploadFileToAzureBlobPrivate,
      SignedUrl.getAzureBlobPrivateFileStream,
      SignedUrl.createSASWriteString, SignedUrl.uploadBufferToSignedUrl,
      SignedUrl.uploadFileToSignedUrl, SignedUrl.getSignedDownloadUrl,
      SignedUrl.createSASReadString;
    keeps_steps.
Qed.

Lemma identity_operations_keep_singletons :
  (forall userId buffer fileName basePath containerName,
      keeps_singletons
        (Identity.saveBufferToAzureBlobPrivate userId buffer fileName basePath
           containerName)) /\
  (forall userId URL fileName basePath containerName,
      keeps_singletons
        (Identity.saveURLToAzureBlobPrivate userId URL fileName basePath
           containerName)) /\
  (forall fileName basePath userId containerName,
      keeps_singletons
        (Identity.getAzureBlobPrivateURL fileName basePath userId
           containerName)) /\
  (forall req file,
      keeps_singletons (Identity.deleteFileFromAzureBlobPrivate req file)) /\
  (forall req file file_id basePath containerName,
      keeps_singletons
        (Identity.uploadFileToAzureBlobPrivate req file file_id basePath
           containerName)) /\
  (forall req fileURL,
      keeps_singletons (Identity.getAzureBlobPrivateFileStream req fileURL)).
Proof.
  repeat split; intros;
    unfold Identity.saveURLToAzureBlobPrivate,
      Identity.saveBufferToAzureBlobPrivate, Identity.getAzureBlobPrivateURL,
      Identity.deleteFileFromAzureBlobPrivate,
      Identity.uploadFileToAzureBlobPrivate,
      Identity.getAzureBlobPrivateFileStream,
      Identity.uploadBufferDirectly, Identity.uploadFileDirectly;
    keeps_steps.
Qed.

Lemma initialState_singletons_ok (w : World) : singletons_ok w initialState.
Proof. exact I. Qed.

(* ================================================================== *)
(** * Further properties of the back ends *)

Lemma after_after (s : State) (evs evs' : list Event) (m n : nat) :
  after (after s evs m) evs' n = after s (evs ++ evs') (n + m).
Proof.
  unfold after. cbn. now rewrite app_assoc, Nat.add_assoc.
Qed.

(** ** Initialisation *)

(** X1: initialisation is memoised.  Once it has succeeded, calling it
    again returns the same service client, makes no call and leaves the
    state as it is, in both back ends. *)
Theorem init_is_memoised (w : World) (s s' : State)
  (svc svc' : BlobServiceClient) :
  fst (SignedUrl.initializeAzureBlobPrivateService w s) = Normal svc ->
  fst (Identity.initializeAzureBlobPrivateService w s') = Normal svc' ->
  SignedUrl.initializeAzureBlobPrivateService w
    (snd (SignedUrl.initializeAzureBlobPrivateService w s))
  = (Normal svc, snd (SignedUrl.initializeAzureBlobPrivateService w s)) /\
  Identity.initializeAzureBlobPrivateService w
    (snd (Identity.initializeAzureBlobPrivateService w s'))
  = (Normal svc', snd (Identity.initializeAzureBlobPrivateService w s')).
Proof.
  intros H H'. split.
  - revert H. unfold SignedUrl.initializeAzureBlobPrivateService. run.
    destruct s as [[svc0|] c evs n]; proj.
    + now intros [= ->].
    + destruct (_ && _); proj; [|discriminate]. now intros [= <-].
  - revert H'. unfold Identity.initializeAzureBlobPrivateService. run.
    destruct s' as [[svc0|] c evs n]; proj.
    + now intros [= ->].
    + destruct (_ || _); proj; [discriminate|].
      destruct (newWorkloadIdentityCredential w); proj; [|discriminate].
      now intros [= <-].
Qed.

Lemma init_is_memoised_calm :
  SignedUrl.initializeAzureBlobPrivateService calmWorld
    (snd (SignedUrl.initializeAzureBlobPrivateService calmWorld initialState))
  = (Normal signedClient,
     snd (SignedUrl.initializeAzureBlobPrivateService calmWorld initialState)) /\
  Identity.initializeAzureBlobPrivateService calmWorld
    (snd (Identity.initializeAzureBlobPrivateService calmWorld initialState))
  = (Normal identityClient,
     snd (Identity.initializeAzureBlobPrivateService calmWorld initialState)).
Proof.
  apply (init_is_memoised calmWorld initialState initialState signedClient
           identityClient); reflexivity.
Defined.

Lemma signed_init_unconfigured (w : World) (s : State) :
  blobServiceClient s = None ->
  signedConfigured w = false ->
  SignedUrl.initializeAzureBlobPrivateService w s = (Throw signedConfigError, s).
Proof.
  unfold SignedUrl.initializeAzureBlobPrivateService, signedConfigured. run.
  intros -> ->. reflexivity.
Qed.

(** X2: while the account name, the shared key or the container name is
    missing (unset or empty), every operation of the signed-URL back end
    that initialises throws the configuration error, and its only call is
    the error log of its handler: nothing is stored, fetched, signed or
    deleted, and nothing is memoised. *)
Theorem signed_unconfigured_fails_fast (w : World) (s : State)
  (userId : Js.value) (buffer : Buffer) (fileName : string)
  (basePath containerName : option string) (req : ServerRequest)
  (file : MongoFile) (upload : MulterFile) (file_id : string) :
  blobServiceClient s = None ->
  signedConfigured w = false ->
  SignedUrl.initializeAzureBlobPrivateService w s
  = (Throw signedConfigError, s) /\
  SignedUrl.saveBufferToAzureBlobPrivate userId buffer fileName basePath
    containerName w s
  = (Throw signedConfigError, after s [saveBufferErrorLog] 0) /\
  SignedUrl.getAzureBlobPrivateURL fileName basePath userId containerName w s
  = (Throw signedConfigError, after s [signedGetURLErrorLog] 0) /\
  SignedUrl.deleteFileFromAzureBlobPrivate req file w s
  = (Throw signedConfigError, after s [deleteErrorLog] 0) /\
  SignedUrl.uploadFileToAzureBlobPrivate req upload file_id basePath
    containerName w s
  = (Throw signedConfigError, after s [uploadFileErrorLog] 0).
Proof.
  intros Hs Hc. pose proof (signed_init_unconfigured w s Hs Hc) as E.
  split; [exact E|].
  unfold SignedUrl.saveBufferToAzureBlobPrivate,
    SignedUrl.getAzureBlobPrivateURL, SignedUrl.deleteFileFromAzureBlobPrivate,
    SignedUrl.uploadFileToAzureBlobPrivate. run. rewrite E. proj.
  repeat split; reflexivity.
Qed.

Lemma signed_unconfigured_keyless :
  SignedUrl.saveBufferToAzureBlobPrivate (Js.str "u1") [] "a.png" None None
    keylessWorld initialState
  = (Throw signedConfigError, after initialState [saveBufferErrorLog] 0) /\
  SignedUrl.deleteFileFromAzureBlobPrivate {| user_id := "u1" |}
    {| filepath := "https://acct.blob.core.windows.net/files/images/u1/a.png" |}
    keylessWorld initialState
  = (Throw signedConfigError, after initialState [deleteErrorLog] 0).
Proof.
  destruct (signed_unconfigured_fails_fast keylessWorld initialState
              (Js.str "u1") [] "a.png" None None {| user_id := "u1" |}
              {| filepath := "https://acct.blob.core.windows.net/files/images/u1/a.png" |}
              {| path := "/tmp/uploads/photo.jpg" |} "123")
    as (_ & Hsave & _ & Hdelete & _); try reflexivity.
  split; [exact Hsave | exact Hdelete].
Defined.

(** X3: [saveURLToAzureBlobPrivate] fetches before it initialises: with
    the configuration missing the source URL is still downloaded in full,
    and only then the configuration error is thrown, logged by both
    handlers. *)
Theorem signed_unconfigured_still_fetches (w : World) (s : State)
  (userId : Js.value) (URL fileName : string)
  (basePath containerName : option string) (response : Response)
  (buffer : Buffer) :
  blobServiceClient s = None ->
  signedConfigured w = false ->
  fetch_get w URL = Normal response ->
  resp_buffer response = Normal buffer ->
  SignedUrl.saveURLToAzureBlobPrivate userId URL fileName basePath
    containerName w s
  = (Throw signedConfigError,
     after s [FetchGet URL; saveBufferErrorLog; saveURLErrorLog] 0).
Proof.
  intros Hs Hc Hf Hb. rewrite signed_saveURL_run, Hf, Hb.
  unfold SignedUrl.saveBufferToAzureBlobPrivate. run.
  rewrite (signed_init_unconfigured w (after s [FetchGet URL] 0) Hs Hc). proj.
  unfold after. cbn. now rewrite <- !app_assoc.
Qed.

Lemma signed_unconfigured_still_fetches_keyless :
  SignedUrl.saveURLToAzureBlobPrivate (Js.str "u1")
    "https://example.org/cat.png" "cat.png" None None keylessWorld initialState
  = (Throw signedConfigError,
     after initialState
       [FetchGet "https://example.org/cat.png"; saveBufferErrorLog;
        saveURLErrorLog] 0).
Proof.
  apply (signed_unconfigured_still_fetches keylessWorld initialState
           (Js.str "u1") "https://example.org/cat.png" "cat.png" None None
           {| resp_buffer := Normal [] |} []); reflexivity.
Defined.

(** X4: the identity-based initialisation tells a missing configuration
    from a rejected credential.  Without account or container name it
    throws the configuration error and does not try the credential; with
    them, a failing credential constructor is logged and replaced by the
    credential error, whatever was thrown.  Either way both singletons stay
    unset, so the next call starts over. *)
Theorem identity_init_failures (w : World) (s : State) (e : JsError) :
  blobServiceClient s = None ->
  newWorkloadIdentityCredential w = Throw e ->
  Identity.initializeAzureBlobPrivateService w s
  = (if identityConfigured w
     then (Throw credentialError, after s [credentialErrorLog] 0)
     else (Throw identityConfigError, s)) /\
  credentialError <> identityConfigError.
Proof.
  intros Hs He. split; [|discriminate].
  unfold Identity.initializeAzureBlobPrivateService, identityConfigured. run.
  rewrite Hs.
  destruct (Js.truthy_opt (env_ACCOUNT_NAME w)); cbn [negb orb andb];
    [|reflexivity].
  destruct (AZURE_PRIVATE_CONTAINER_NAME w =? ""); cbn [negb]; [reflexivity|].
  rewrite He. proj. reflexivity.
Qed.

Lemma identity_init_failures_no_identity :
  Identity.initializeAzureBlobPrivateService noIdentityWorld initialState
  = (Throw credentialError, after initialState [credentialErrorLog] 0).
Proof.
  apply (proj1 (identity_init_failures noIdentityWorld initialState
                  (mkError "CredentialUnavailableError" "no token file" None)
                  eq_refl eq_refl)).
Defined.

(** ** Expiry on a host without offset changes *)

(** X5: on a host whose local time is a fixed offset from UTC, the expiry
    in a read grant and in a write grant is the minting time plus the
    requested minutes (five when none are requested), to the millisecond,
    as long as that instant is a valid time value. *)
Theorem expiry_exact_on_fixed_offset_host (off : Z) (containerName : string)
  (now : Z) (duration : option Z) :
  (Z.abs (now + Js.default 5 duration * JsDate.msPerMinute)
   <= JsDate.maxTime)%Z ->
  sas_expiresOn
    (SignedUrl.readSasModel (JsDate.fixedOffset off) containerName now duration)
  = Some (now + Js.default 5 duration * JsDate.msPerMinute)%Z /\
  sas_expiresOn
    (SignedUrl.writeSasModel (JsDate.fixedOffset off) containerName now duration)
  = Some (now + Js.default 5 duration * JsDate.msPerMinute)%Z.
Proof.
  intros H. cbn [sas_expiresOn SignedUrl.readSasModel SignedUrl.writeSasModel].
  split; now apply expiry_exact_fixed_offset.
Qed.

Lemma expiry_exact_on_fixed_offset_host_cet :
  sas_expiresOn
    (SignedUrl.readSasModel (JsDate.fixedOffset 3600000) "files"
       1793512680000 (Some 15%Z))
  = Some 1793513580000%Z /\
  sas_expiresOn
    (SignedUrl.writeSasModel (JsDate.fixedOffset 3600000) "files"
       1793512680000 (Some 15%Z))
  = Some 1793513580000%Z.
Proof.
  apply (expiry_exact_on_fixed_offset_host 3600000 "files" 1793512680000
           (Some 15%Z)).
  vm_compute. discriminate.
Defined.

(** ** Substrings and splitting *)

Lemma prefix_append (a b : string) : prefix a (a ++ b) = true.
Proof.
  induction a as [|c a IH]; [now destruct b|].
  simpl. destruct (ascii_dec c c); [exact IH|contradiction].
Qed.

Lemma includes_at (a s needle : string) :
  prefix needle s = true -> Js.includes (a ++ s) needle = true.
Proof.
  intros H. induction a as [|c a IH]; cbn [Js.includes append].
  - destruct s; cbn [Js.includes]; [exact H|]. now rewrite H.
  - rewrite IH. apply orb_true_r.
Qed.

Lemma includes_middle (a b c : string) : Js.includes (a ++ b ++ c) b = true.
Proof. apply includes_at, prefix_append. Qed.

Lemma prefix_nil (s : string) : prefix "" s = true.
Proof. now destruct s. Qed.

Lemma prefix_append_l (needle x b : string) :
  prefix needle x = true -> prefix needle (x ++ b) = true.
Proof.
  revert x. induction needle as [|d needle IH]; intros x H;
    [apply prefix_nil|].
  destruct x as [|y x]; [discriminate|]. cbn [append prefix] in *.
  destruct (ascii_dec d y); [now apply IH|discriminate].
Qed.

Lemma includes_append_l (a b needle : string) :
  Js.includes a needle = true -> Js.includes (a ++ b) needle = true.
Proof.
  induction a as [|c a IH]; cbn [Js.includes append].
  - intros H. apply (includes_at "" b needle).
    destruct needle; [apply prefix_nil|discriminate].
  - intros [H|H]%orb_true_iff.
    + apply orb_true_iff. left.
      apply (prefix_append_l needle (String c a) b H).
    + rewrite (IH H). apply orb_true_r.
Qed.

Lemma includes_append_r (a b needle : string) :
  Js.includes b needle = true -> Js.includes (a ++ b) needle = true.
Proof.
  intros H. induction a as [|c a IH]; simpl; [exact H|].
  rewrite IH. apply orb_true_r.
Qed.

(** The user segment of a blob path contains whatever the user id
    contains. *)
Lemma includes_userBlobPath (basePath owner fileName needle : string) :
  Js.includes owner needle = true ->
  Js.includes (userBlobPath basePath (Js.str owner) fileName) needle = true.
Proof.
  intros H. unfold userBlobPath. cbn [Js.to_string].
  apply includes_append_r, includes_append_r, includes_append_l, H.
Qed.

Lemma includes_self (s : string) : Js.includes s s = true.
Proof.
  rewrite <- (append_nil_r s) at 1. apply (includes_at "" (s ++ "") s).
  apply prefix_append.
Qed.

Lemma split_from_none (sep cur s : string) :
  Js.includes s sep = false -> Js.split_from sep 0 cur s = [cur ++ s].
Proof.
  revert cur. induction s as [|c s IH]; intros cur; simpl.
  - intros _. now rewrite append_nil_r.
  - intros [Hp Hi]%orb_false_iff. simpl in Hp. rewrite Hp.
    rewrite (IH _ Hi), append_assoc. reflexivity.
Qed.

Lemma split_from_skip (sep cur a rest : string) :
  Js.split_from sep (String.length a) cur (a ++ rest)
  = Js.split_from sep 0 cur rest.
Proof.
  induction a as [|c a IH]; [reflexivity|exact IH].
Qed.

Lemma split_from_passes (sep pre tail cur : string) :
  no_match_in sep pre tail = true ->
  Js.split_from sep 0 cur (pre ++ tail) = Js.split_from sep 0 (cur ++ pre) tail.
Proof.
  revert cur. induction pre as [|c pre IH]; intros cur; simpl.
  - intros _. now rewrite append_nil_r.
  - intros [Hp Hn]%andb_true_iff. apply negb_true_iff in Hp.
    simpl in Hp. rewrite Hp, (IH _ Hn), append_assoc. reflexivity.
Qed.

Lemma split_from_match (sep cur rest : string) :
  sep <> "" ->
  Js.split_from sep 0 cur (sep ++ rest) = cur :: Js.split_from sep 0 "" rest.
Proof.
  intros Hne. destruct sep as [|c sep']; [now contradiction Hne|].
  change (String c sep' ++ rest) with (String c (sep' ++ rest)).
  cbn [Js.split_from].
  change (String c (sep' ++ rest)) with (String c sep' ++ rest).
  rewrite prefix_append. cbn [String.length Nat.sub]. rewrite Nat.sub_0_r.
  now rewrite split_from_skip.
Qed.

(** The stored path [pre ++ sep ++ rest], when [sep] occurs neither
    earlier nor in [rest], splits into [pre] and [rest]. *)
Lemma split_once (sep pre rest : string) :
  sep <> "" ->
  no_match_in sep pre (sep ++ rest) = true ->
  Js.includes rest sep = false ->
  Js.split (pre ++ sep ++ rest) sep = [pre; rest].
Proof.
  intros Hne Hpre Hrest. unfold Js.split.
  rewrite (split_from_passes _ _ _ _ Hpre), (split_from_match _ _ _ Hne).
  now rewrite (split_from_none _ _ _ Hrest).
Qed.

Lemma containerSegment_not_empty (w : World) : containerSegment w <> "".
Proof.
  unfold containerSegment. intros H. apply (f_equal String.length) in H.
  rewrite length_append in H. simpl in H. lia.
Qed.

Lemma extractBlobPath_once (w : World) (pre rest : string) :
  no_match_in (containerSegment w) pre (containerSegment w ++ rest) = true ->
  Js.includes rest (containerSegment w) = false ->
  extractBlobPath w {| filepath := pre ++ containerSegment w ++ rest |}
  = Some rest.
Proof.
  intros Hpre Hrest. unfold extractBlobPath. cbn [filepath].
  change (AZURE_PRIVATE_CONTAINER_NAME w ++ "/") with (containerSegment w).
  now rewrite (split_once _ _ _ (containerSegment_not_empty w) Hpre Hrest).
Qed.

Lemma extractBlobPath_none (w : World) (file : MongoFile) :
  Js.includes (filepath file) (containerSegment w) = false ->
  extractBlobPath w file = None.
Proof.
  intros H. unfold extractBlobPath, Js.split.
  change (AZURE_PRIVATE_CONTAINER_NAME w ++ "/") with (containerSegment w).
  now rewrite (split_from_none _ _ _ H).
Qed.

(** ** Deletion, further *)

Lemma deleteOutcome_done (w : World) (req : ServerRequest) (file : MongoFile)
  (r0 : Completion BlobServiceClient * State) (svc : BlobServiceClient)
  (c : ContainerClient) (blobPath : string) :
  fst r0 = Normal svc ->
  containerClient (snd r0) = Some c ->
  extractBlobPath w file = Some blobPath ->
  Js.includes blobPath (user_id req) = true ->
  sdk_delete w (getBlockBlobClient c blobPath) = Normal tt ->
  deleteOutcome w req file r0
  = (Normal tt,
     after (snd r0) [Delete (getBlockBlobClient c blobPath); deleteDoneLog] 0).
Proof.
  intros H0 Hc Hp Hi Hd. unfold deleteOutcome.
  rewrite H0, Hp, Hi, Hc. cbv zeta. rewrite Hd. reflexivity.
Qed.

Lemma deleteOutcome_no_path (w : World) (req : ServerRequest)
  (file : MongoFile) (r0 : Completion BlobServiceClient * State)
  (svc : BlobServiceClient) :
  fst r0 = Normal svc ->
  extractBlobPath w file = None ->
  deleteOutcome w req file r0
  = (Throw (TypeError "Cannot read properties of undefined (reading 'includes')"),
     after (snd r0) [deleteErrorLog] 0).
Proof.
  intros H0 Hp. unfold deleteOutcome. now rewrite H0, Hp.
Qed.

(** X6: an authorised delete.  When the extracted blob path contains the
    user id and the storage service accepts the delete, the operation
    returns normally after exactly one blob delete, on the blob of that
    path in the configured container, followed by the debug log; in both
    back ends. *)
Theorem delete_removes_extracted_blob (w : World) (s s' : State)
  (req : ServerRequest) (file : MongoFile) (blobPath : string)
  (svc svc' : BlobServiceClient) :
  singletons_ok w s ->
  singletons_ok w s' ->
  fst (SignedUrl.initializeAzureBlobPrivateService w s) = Normal svc ->
  fst (Identity.initializeAzureBlobPrivateService w s') = Normal svc' ->
  extractBlobPath w file = Some blobPath ->
  Js.includes blobPath (user_id req) = true ->
  (forall b, sdk_delete w b = Normal tt) ->
  SignedUrl.deleteFileFromAzureBlobPrivate req file w s
  = (Normal tt,
     after (snd (SignedUrl.initializeAzureBlobPrivateService w s))
       [Delete (getBlockBlobClient (configuredContainer w svc) blobPath);
        deleteDoneLog] 0) /\
  Identity.deleteFileFromAzureBlobPrivate req file w s'
  = (Normal tt,
     after (snd (Identity.initializeAzureBlobPrivateService w s'))
       [Delete (getBlockBlobClient (configuredContainer w svc') blobPath);
        deleteDoneLog] 0).
Proof.
  intros Hok Hok' Hi Hi' Hp Hin Hd. split.
  - rewrite signed_delete_run.
    destruct (signed_init_run w s) as (_ & _ & _ & _ & _ & Hc).
    eapply deleteOutcome_done; eauto.
  - rewrite identity_delete_run.
    destruct (identity_init_run w s') as (_ & _ & _ & _ & _ & Hc).
    eapply deleteOutcome_done; eauto.
Qed.

Lemma delete_removes_extracted_blob_u1 :
  fst (SignedUrl.deleteFileFromAzureBlobPrivate {| user_id := "u1" |}
         {| filepath := "https://acct.blob.core.windows.net/files/images/u1/a.png" |}
         calmWorld initialState) = Normal tt /\
  fst (Identity.deleteFileFromAzureBlobPrivate {| user_id := "u1" |}
         {| filepath := "https://acct.blob.core.windows.net/files/images/u1/a.png" |}
         calmWorld initialState) = Normal tt.
Proof.
  destruct (delete_removes_extracted_blob calmWorld initialState initialState
              {| user_id := "u1" |}
              {| filepath := "https://acct.blob.core.windows.net/files/images/u1/a.png" |}
              "images/u1/a.png" signedClient identityClient) as [H1 H2];
    try reflexivity; try exact I.
  rewrite H1, H2. split; reflexivity.
Defined.

(** X7: a stored path without the container segment.  When
    [file.filepath] does not contain the configured container name followed
    by a slash, the second piece of the split is [undefined], so calling
    [includes] on it throws a TypeError; that error, not the authorization
    error, reaches the caller, and no blob is deleted; in both back ends. *)
Theorem delete_without_container_segment (w : World) (s s' : State)
  (req : ServerRequest) (file : MongoFile) (svc svc' : BlobServiceClient) :
  fst (SignedUrl.initializeAzureBlobPrivateService w s) = Normal svc ->
  fst (Identity.initializeAzureBlobPrivateService w s') = Normal svc' ->
  Js.includes (filepath file) (containerSegment w) = false ->
  SignedUrl.deleteFileFromAzureBlobPrivate req file w s
  = (Throw (TypeError "Cannot read properties of undefined (reading 'includes')"),
     after (snd (SignedUrl.initializeAzureBlobPrivateService w s))
       [deleteErrorLog] 0) /\
  Identity.deleteFileFromAzureBlobPrivate req file w s'
  = (Throw (TypeError "Cannot read properties of undefined (reading 'includes')"),
     after (snd (Identity.initializeAzureBlobPrivateService w s'))
       [deleteErrorLog] 0).
Proof.
  intros Hi Hi' Hno. pose proof (extractBlobPath_none w file Hno) as Hp.
  rewrite signed_delete_run, identity_delete_run.
  split; eapply deleteOutcome_no_path; eauto.
Qed.

Lemma delete_without_container_segment_local :
  SignedUrl.deleteFileFromAzureBlobPrivate {| user_id := "u1" |}
    {| filepath := "/uploads/u1/a.png" |} calmWorld initialState
  = (Throw (TypeError "Cannot read properties of undefined (reading 'includes')"),
     after (snd (SignedUrl.initializeAzureBlobPrivateService calmWorld
                   initialState))
       [deleteErrorLog] 0).
Proof.
  exact (proj1 (delete_without_container_segment calmWorld initialState
                  initialState {| user_id := "u1" |}
                  {| filepath := "/uploads/u1/a.png" |} signedClient
                  identityClient eq_refl eq_refl eq_refl)).
Defined.

(** X8: the authorization test is a substring test.  A requester whose
    id occurs inside the owner's id (for instance [u1] and [u10], or the
    empty id and any owner) passes the test on the owner's blob path, and
    the owner's blob is deleted; in both back ends. *)
Theorem delete_accepts_substring_id (w : World) (s s' : State)
  (req : ServerRequest) (file : MongoFile) (basePath owner fileName : string)
  (svc svc' : BlobServiceClient) :
  singletons_ok w s ->
  singletons_ok w s' ->
  fst (SignedUrl.initializeAzureBlobPrivateService w s) = Normal svc ->
  fst (Identity.initializeAzureBlobPrivateService w s') = Normal svc' ->
  extractBlobPath w file = Some (userBlobPath basePath (Js.str owner) fileName) ->
  Js.includes owner (user_id req) = true ->
  (forall b, sdk_delete w b = Normal tt) ->
  fst (SignedUrl.deleteFileFromAzureBlobPrivate req file w s) = Normal tt /\
  In (Delete (getBlockBlobClient (configuredContainer w svc)
                (userBlobPath basePath (Js.str owner) fileName)))
     (calls (snd (SignedUrl.deleteFileFromAzureBlobPrivate req file w s))) /\
  fst (Identity.deleteFileFromAzureBlobPrivate req file w s') = Normal tt /\
  In (Delete (getBlockBlobClient (configuredContainer w svc')
                (userBlobPath basePath (Js.str owner) fileName)))
     (calls (snd (Identity.deleteFileFromAzureBlobPrivate req file w s'))).
Proof.
  intros Hok Hok' Hi Hi' Hp Hsub Hd.
  pose proof (includes_userBlobPath basePath owner fileName (user_id req) Hsub)
    as Hin.
  destruct (signed_init_run w s) as (_ & _ & _ & _ & _ & Hc).
  destruct (identity_init_run w s') as (_ & _ & _ & _ & _ & Hc').
  rewrite signed_delete_run, identity_delete_run.
  rewrite (deleteOutcome_done w req file _ svc _ _ Hi (Hc svc Hok Hi) Hp Hin
             (Hd _)).
  rewrite (deleteOutcome_done w req file _ svc' _ _ Hi' (Hc' svc' Hok' Hi') Hp
             Hin (Hd _)).
  cbn [fst snd after calls].
  repeat split; try (apply in_or_app; right; left; reflexivity).
Qed.

Lemma delete_accepts_substring_id_u1_u10 :
  Js.includes "u10" "u1" = true /\
  fst (Identity.deleteFileFromAzureBlobPrivate {| user_id := "u1" |}
         {| filepath := "https://acct.blob.core.windows.net/files/images/u10/a.png" |}
         calmWorld initialState) = Normal tt /\
  In (Delete (getBlockBlobClient (configuredContainer calmWorld identityClient)
                "images/u10/a.png"))
     (calls (snd (Identity.deleteFileFromAzureBlobPrivate {| user_id := "u1" |}
                    {| filepath := "https://acct.blob.core.windows.net/files/images/u10/a.png" |}
                    calmWorld initialState))).
Proof.
  split; [reflexivity|].
  destruct (delete_accepts_substring_id calmWorld initialState initialState
              {| user_id := "u1" |}
              {| filepath := "https://acct.blob.core.windows.net/files/images/u10/a.png" |}
              "images" "u10" "a.png" signedClient identityClient)
    as (_ & _ & H3 & H4); try reflexivity; try exact I.
  split; [exact H3 | exact H4].
Defined.

(** ** Saving a buffer: every way it can end *)

Lemma signed_init_again (w : World) (svc : BlobServiceClient)
  (evs : list Event) (n : nat) :
  SignedUrl.initializeAzureBlobPrivateService w (readyState w svc evs n)
  = (Normal svc, readyState w svc evs n).
Proof. reflexivity. Qed.

Lemma identity_init_again (w : World) (svc : BlobServiceClient)
  (evs : list Event) (n : nat) :
  Identity.initializeAzureBlobPrivateService w (readyState w svc evs n)
  = (Normal svc, readyState w svc evs n).
Proof. reflexivity. Qed.

Lemma signed_saveBuffer_outcome (userId : Js.value) (buffer : Buffer)
  (fileName : string) (basePath containerName : option string)
  (w : World) (s : State) (svc : BlobServiceClient) :
  singletons_ok w s ->
  fst (SignedUrl.initializeAzureBlobPrivateService w s) = Normal svc ->
  let s1 := snd (SignedUrl.initializeAzureBlobPrivateService w s) in
  let cn := Js.default (AZURE_PRIVATE_CONTAINER_NAME w) containerName in
  let blobPath := saveBlobPath basePath userId fileName in
  let putUrl :=
    signedBlobUrl w svc blobPath
      (SignedUrl.writeSasModel (timeZone w) cn (clock w (clockReads s)) None) in
  let len := Z.of_nat (List.length buffer) in
  let contentType := contentTypeOf w fileName in
  SignedUrl.saveBufferToAzureBlobPrivate userId buffer fileName basePath
    containerName w s
  = match sdk_createIfNotExists w (configuredContainer w svc) with
    | Throw e =>
        (Throw e,
         readyState w svc
           (calls s1 ++ [CreateIfNotExists (configuredContainer w svc);
                         saveBufferErrorLog])
           (clockReads s))
    | Normal _ =>
        match fetch_put w putUrl contentType len buffer with
        | Throw e =>
            (Throw e,
             readyState w svc
               (calls s1 ++ [CreateIfNotExists (configuredContainer w svc);
                             NewDate;
                             FetchPut putUrl contentType len buffer;
                             saveBufferErrorLog])
               (S (clockReads s)))
        | Normal _ =>
            (Normal
               (signedBlobUrl w svc blobPath
                  (SignedUrl.readSasModel (timeZone w) cn
                     (clock w (S (clockReads s))) None)),
             readyState w svc
               (calls s1 ++ [CreateIfNotExists (configuredContainer w svc);
                             NewDate;
                             FetchPut putUrl contentType len buffer;
                             NewDate])
               (S (S (clockReads s))))
        end
    end.
Proof.
  intros Hok Hinit s1 cn blobPath putUrl len contentType.
  destruct (signed_init_ready w s svc Hok Hinit) as (evs & E).
  subst s1 putUrl len contentType blobPath cn.
  unfold SignedUrl.saveBufferToAzureBlobPrivate, SignedUrl.getSignedDownloadUrl,
    SignedUrl.createSASReadString, SignedUrl.createSASWriteString,
    SignedUrl.uploadBufferToSignedUrl, readyState, saveBufferErrorLog,
    signedBlobUrl. run.
  rewrite E. proj.
  destruct (sdk_createIfNotExists w (configuredContainer w svc)) as [[]|e]; proj.
  - match goal with
    | |- context [fetch_put w ?u ?c ?l ?b] =>
        destruct (fetch_put w u c l b) as [[]|e]
    end; proj; now rewrite <- !app_assoc.
  - now rewrite <- !app_assoc.
Qed.

Lemma identity_saveBuffer_outcome (userId : Js.value) (buffer : Buffer)
  (fileName : string) (basePath containerName : option string)
  (w : World) (s : State) (svc : BlobServiceClient) :
  singletons_ok w s ->
  fst (Identity.initializeAzureBlobPrivateService w s) = Normal svc ->
  let s1 := snd (Identity.initializeAzureBlobPrivateService w s) in
  let cn := Js.default (AZURE_PRIVATE_CONTAINER_NAME w) containerName in
  let blobPath := saveBlobPath basePath userId fileName in
  let b := getBlockBlobClient (configuredContainer w svc) blobPath in
  let len := Z.of_nat (List.length buffer) in
  let contentType := contentTypeOf w fileName in
  Identity.saveBufferToAzureBlobPrivate userId buffer fileName basePath
    containerName w s
  = match sdk_createIfNotExists w (configuredContainer w svc) with
    | Throw e =>
        (Throw e,
         readyState w svc
           (calls s1 ++ [CreateIfNotExists (configuredContainer w svc);
                         saveBufferErrorLog])
           (clockReads s))
    | Normal _ =>
        match sdk_upload w b buffer len contentType with
        | Throw e =>
            (Throw e,
             readyState w svc
               (calls s1 ++ [CreateIfNotExists (configuredContainer w svc);
                             Upload b buffer len contentType;
                             saveBufferErrorLog])
               (clockReads s))
        | Normal _ =>
            (Normal (Identity.getDirectBlobUrl w blobPath cn),
             readyState w svc
               (calls s1 ++ [CreateIfNotExists (configuredContainer w svc);
                             Upload b buffer len contentType])
               (clockReads s))
        end
    end.
Proof.
  intros Hok Hinit s1 cn blobPath b len contentType.
  destruct (identity_init_ready w s svc Hok Hinit) as (evs & E).
  subst s1 b len contentType blobPath cn.
  unfold Identity.saveBufferToAzureBlobPrivate, Identity.uploadBufferDirectly,
    readyState, saveBufferErrorLog. run.
  rewrite E. proj.
  destruct (sdk_createIfNotExists w (configuredContainer w svc)) as [[]|e]; proj.
  - match goal with
    | |- context [sdk_upload w ?u ?b ?l ?c] =>
        destruct (sdk_upload w u b l c) as [[]|e]
    end; proj; now rewrite <- !app_assoc.
  - now rewrite <- !app_assoc.
Qed.

(** X9: where saving a buffer can fail.  If creating the container
    fails, the error is rethrown as it is and neither a grant is minted nor
    a byte sent; if the upload itself fails, its error is rethrown as it is
    and, in the signed-URL back end, the download grant is never minted.
    The singletons stay bound in every case. *)
Theorem save_failure_points (w : World) (s s' : State) (userId : Js.value)
  (buffer : Buffer) (fileName : string) (basePath containerName : option string)
  (svc svc' : BlobServiceClient) (e : JsError) :
  singletons_ok w s ->
  singletons_ok w s' ->
  fst (SignedUrl.initializeAzureBlobPrivateService w s) = Normal svc ->
  fst (Identity.initializeAzureBlobPrivateService w s') = Normal svc' ->
  let s1 := snd (SignedUrl.initializeAzureBlobPrivateService w s) in
  let s1' := snd (Identity.initializeAzureBlobPrivateService w s') in
  let cn := Js.default (AZURE_PRIVATE_CONTAINER_NAME w) containerName in
  let blobPath := saveBlobPath basePath userId fileName in
  let putUrl :=
    signedBlobUrl w svc blobPath
      (SignedUrl.writeSasModel (timeZone w) cn (clock w (clockReads s)) None) in
  let b := getBlockBlobClient (configuredContainer w svc') blobPath in
  let len := Z.of_nat (List.length buffer) in
  let contentType := contentTypeOf w fileName in
  ((forall c, sdk_createIfNotExists w c = Throw e) ->
   SignedUrl.saveBufferToAzureBlobPrivate userId buffer fileName basePath
     containerName w s
   = (Throw e,
      readyState w svc
        (calls s1 ++ [CreateIfNotExists (configuredContainer w svc);
                      saveBufferErrorLog])
        (clockReads s)) /\
   Identity.saveBufferToAzureBlobPrivate userId buffer fileName basePath
     containerName w s'
   = (Throw e,
      readyState w svc'
        (calls s1' ++ [CreateIfNotExists (configuredContainer w svc');
                       saveBufferErrorLog])
        (clockReads s'))) /\
  ((forall c, sdk_createIfNotExists w c = Normal tt) ->
   fetch_put w putUrl contentType len buffer = Throw e ->
   sdk_upload w b buffer len contentType = Throw e ->
   SignedUrl.saveBufferToAzureBlobPrivate userId buffer fileName basePath
     containerName w s
   = (Throw e,
      readyState w svc
        (calls s1 ++ [CreateIfNotExists (configuredContainer w svc);
                      NewDate;
                      FetchPut putUrl contentType len buffer;
                      saveBufferErrorLog])
        (S (clockReads s))) /\
   Identity.saveBufferToAzureBlobPrivate userId buffer fileName basePath
     containerName w s'
   = (Throw e,
      readyState w svc'
        (calls s1' ++ [CreateIfNotExists (configuredContainer w svc');
                       Upload b buffer len contentType;
                       saveBufferErrorLog])
        (clockReads s'))).
Proof.
  intros Hok Hok' Hi Hi' s1 s1' cn blobPath putUrl b len contentType.
  pose proof (signed_saveBuffer_outcome userId buffer fileName basePath
                containerName w s svc Hok Hi) as Hs.
  pose proof (identity_saveBuffer_outcome userId buffer fileName basePath
                containerName w s' svc' Hok' Hi') as Hs'.
  cbv zeta in Hs, Hs'. split.
  - intros Hc. rewrite Hs, Hs', !Hc. split; reflexivity.
  - intros Hc Hput Hup. rewrite Hs, Hs', !Hc.
    subst putUrl b len contentType blobPath cn. rewrite Hput, Hup.
    split; reflexivity.
Qed.

Lemma save_failure_points_storage_down :
  SignedUrl.saveBufferToAzureBlobPrivate (Js.str "u1") [] "a.png" None None
    storageDownWorld initialState
  = (Throw (restError 503),
     readyState storageDownWorld signedClient
       [Log "info" "Azure Blob Private Service initialized";
        CreateIfNotExists (configuredContainer storageDownWorld signedClient);
        saveBufferErrorLog] 0).
Proof.
  exact (proj1 (proj1 (save_failure_points storageDownWorld initialState
                         initialState (Js.str "u1") [] "a.png" None None
                         signedClient identityClient (restError 503)
                         I I eq_refl eq_refl)
                  (fun _ => eq_refl))).
Defined.

(** ** Saving, then resolving or deleting *)

(** X10: identity-based round trip.  After a successful save for a user
    id that is present, resolving the URL with the same file name, base
    path, user id and container gives exactly the URL that the save
    returned, and makes no call at all. *)
Theorem identity_resolve_after_save (w : World) (s : State)
  (userId : Js.value) (buffer : Buffer) (fileName : string)
  (basePath containerName : option string) (svc : BlobServiceClient) :
  singletons_ok w s ->
  fst (Identity.initializeAzureBlobPrivateService w s) = Normal svc ->
  Js.truthy userId = true ->
  (forall c, sdk_createIfNotExists w c = Normal tt) ->
  (forall b data len contentType,
      sdk_upload w b data len contentType = Normal tt) ->
  let saved :=
    Identity.saveBufferToAzureBlobPrivate userId buffer fileName basePath
      containerName w s in
  fst saved
  = Normal
      (Identity.getDirectBlobUrl w (saveBlobPath basePath userId fileName)
         (Js.default (AZURE_PRIVATE_CONTAINER_NAME w) containerName)) /\
  Identity.getAzureBlobPrivateURL fileName basePath userId containerName w
    (snd saved)
  = (fst saved, snd saved).
Proof.
  intros Hok Hi Ht Hc Hup saved. subst saved.
  rewrite (identity_saveBuffer_outcome userId buffer fileName basePath
             containerName w s svc Hok Hi).
  cbv zeta. rewrite Hc, Hup. cbn [fst snd]. split; [reflexivity|].
  unfold Identity.getAzureBlobPrivateURL. run.
  rewrite identity_init_again. proj.
  rewrite (blob_paths_agree_when_present basePath userId fileName Ht).
  reflexivity.
Qed.

Lemma identity_resolve_after_save_u1 :
  Identity.getAzureBlobPrivateURL "a.png" None (Js.str "u1") None calmWorld
    (snd (Identity.saveBufferToAzureBlobPrivate (Js.str "u1") [] "a.png" None
            None calmWorld initialState))
  = (fst (Identity.saveBufferToAzureBlobPrivate (Js.str "u1") [] "a.png" None
            None calmWorld initialState),
     snd (Identity.saveBufferToAzureBlobPrivate (Js.str "u1") [] "a.png" None
            None calmWorld initialState)).
Proof.
  exact (proj2 (identity_resolve_after_save calmWorld initialState
                  (Js.str "u1") [] "a.png" None None identityClient
                  I eq_refl eq_refl (fun _ => eq_refl)
                  (fun _ _ _ _ => eq_refl))).
Defined.

(** X11: signed-URL round trip.  After a successful save for a user id
    that is present, resolving the URL addresses the same blob through the
    same container client, with a read grant minted anew from the next
    clock reading: the third of the two operations together. *)
Theorem signed_resolve_after_save (w : World) (s : State)
  (userId : Js.value) (buffer : Buffer) (fileName : string)
  (basePath containerName : option string) (svc : BlobServiceClient) :
  singletons_ok w s ->
  fst (SignedUrl.initializeAzureBlobPrivateService w s) = Normal svc ->
  Js.truthy userId = true ->
  (forall c, sdk_createIfNotExists w c = Normal tt) ->
  (forall url contentType len b, fetch_put w url contentType len b = Normal tt) ->
  let saved :=
    SignedUrl.saveBufferToAzureBlobPrivate userId buffer fileName basePath
      containerName w s in
  let cn := Js.default (AZURE_PRIVATE_CONTAINER_NAME w) containerName in
  let blobPath := saveBlobPath basePath userId fileName in
  let grant :=
    fun n => SignedUrl.readSasModel (timeZone w) cn
               (clock w (n + clockReads s)) None in
  fst saved = Normal (signedBlobUrl w svc blobPath (grant 1)) /\
  SignedUrl.getAzureBlobPrivateURL fileName basePath userId containerName w
    (snd saved)
  = (Normal (signedBlobUrl w svc blobPath (grant 2)),
     after (snd saved) [NewDate] 1).
Proof.
  intros Hok Hi Ht Hc Hput saved cn blobPath grant.
  subst saved cn blobPath grant.
  rewrite (signed_saveBuffer_outcome userId buffer fileName basePath
             containerName w s svc Hok Hi).
  cbv zeta. rewrite Hc, Hput. cbn [fst snd]. split; [reflexivity|].
  unfold SignedUrl.getAzureBlobPrivateURL, SignedUrl.getSignedDownloadUrl,
    SignedUrl.createSASReadString. run.
  rewrite signed_init_again. proj.
  rewrite (blob_paths_agree_when_present basePath userId fileName Ht).
  reflexivity.
Qed.

Lemma signed_resolve_after_save_u1 :
  fst (SignedUrl.getAzureBlobPrivateURL "a.png" None (Js.str "u1") None
         calmWorld
         (snd (SignedUrl.saveBufferToAzureBlobPrivate (Js.str "u1") [] "a.png"
                 None None calmWorld initialState)))
  = Normal "https://acct.blob.core.windows.net/files/images/u1/a.png?sp=r&sr=c&cn=files".
Proof.
  pose proof (proj2 (signed_resolve_after_save calmWorld initialState
                       (Js.str "u1") [] "a.png" None None signedClient
                       I eq_refl eq_refl (fun _ => eq_refl)
                       (fun _ _ _ _ => eq_refl))) as H.
  cbv zeta in H. rewrite H. reflexivity.
Defined.

Lemma directBlobUrl_shape (w : World) (blobPath : string) :
  Identity.getDirectBlobUrl w blobPath (AZURE_PRIVATE_CONTAINER_NAME w)
  = hostPrefix w ++ containerSegment w ++ blobPath.
Proof.
  unfold Identity.getDirectBlobUrl, hostPrefix, containerSegment.
  cbn [append]. now rewrite !append_assoc.
Qed.

(** X12: identity-based save, then delete.  When a user saves a buffer
    into the configured container and later asks to delete the file whose
    stored path is the URL that the save returned, the blob deleted is the
    blob that was uploaded, provided the container segment occurs neither
    in the host part of the URL nor in the blob path. *)
Theorem identity_delete_after_save (w : World) (s : State) (uid : string)
  (buffer : Buffer) (fileName : string) (basePath : option string)
  (svc : BlobServiceClient) :
  singletons_ok w s ->
  fst (Identity.initializeAzureBlobPrivateService w s) = Normal svc ->
  (forall c, sdk_createIfNotExists w c = Normal tt) ->
  (forall b data len contentType,
      sdk_upload w b data len contentType = Normal tt) ->
  (forall b, sdk_delete w b = Normal tt) ->
  let blobPath := saveBlobPath basePath (Js.str uid) fileName in
  no_match_in (containerSegment w) (hostPrefix w)
    (containerSegment w ++ blobPath) = true ->
  Js.includes blobPath (containerSegment w) = false ->
  let saved :=
    Identity.saveBufferToAzureBlobPrivate (Js.str uid) buffer fileName basePath
      None w s in
  let blob := getBlockBlobClient (configuredContainer w svc) blobPath in
  exists url,
    fst saved = Normal url /\
    In (Upload blob buffer (Z.of_nat (List.length buffer))
          (contentTypeOf w fileName))
       (calls (snd saved)) /\
    Identity.deleteFileFromAzureBlobPrivate {| user_id := uid |}
      {| filepath := url |} w (snd saved)
    = (Normal tt, after (snd saved) [Delete blob; deleteDoneLog] 0).
Proof.
  intros Hok Hi Hc Hup Hd blobPath Hpre Hrest saved blob.
  subst saved.
  rewrite (identity_saveBuffer_outcome (Js.str uid) buffer fileName basePath
             None w s svc Hok Hi).
  cbv zeta. rewrite Hc, Hup. cbn [fst snd Js.default]. eexists.
  split; [reflexivity|]. split.
  { unfold readyState. cbn [calls]. apply in_or_app. right. right. left.
    reflexivity. }
  rewrite identity_delete_run, identity_init_again.
  subst blob.
  erewrite (deleteOutcome_done w _ _ _ svc (configuredContainer w svc) blobPath);
    [reflexivity|reflexivity|reflexivity| | |apply Hd].
  - rewrite directBlobUrl_shape. now apply extractBlobPath_once.
  - apply includes_userBlobPath, includes_self.
Qed.

Lemma identity_delete_after_save_u1 :
  exists url,
    fst (Identity.saveBufferToAzureBlobPrivate (Js.str "u1") [] "a.png" None
           None calmWorld initialState) = Normal url /\
    fst (Identity.deleteFileFromAzureBlobPrivate {| user_id := "u1" |}
           {| filepath := url |} calmWorld
           (snd (Identity.saveBufferToAzureBlobPrivate (Js.str "u1") []
                   "a.png" None None calmWorld initialState)))
    = Normal tt.
Proof.
  destruct (identity_delete_after_save calmWorld initialState "u1" [] "a.png"
              None identityClient I eq_refl (fun _ => eq_refl)
              (fun _ _ _ _ => eq_refl) (fun _ => eq_refl) eq_refl eq_refl)
    as (url & Hsave & _ & Hdelete).
  exists url. split; [exact Hsave|]. now rewrite Hdelete.
Defined.



(** ** Uploading a local file that cannot be read *)

(** X14: when [stat] on the local path fails, the upload throws that
    error at once: the only calls after initialisation are the [stat] and
    the error log, so the container is not created and nothing is sent; in
    both back ends. *)
Theorem upload_missing_file (w : World) (s s' : State) (req : ServerRequest)
  (file : MulterFile) (file_id : string) (basePath containerName : option string)
  (svc svc' : BlobServiceClient) (e : JsError) :
  fst (SignedUrl.initializeAzureBlobPrivateService w s) = Normal svc ->
  fst (Identity.initializeAzureBlobPrivateService w s') = Normal svc' ->
  fs_stat w (path file) = Throw e ->
  SignedUrl.uploadFileToAzureBlobPrivate req file file_id basePath
    containerName w s
  = (Throw e,
     after (snd (SignedUrl.initializeAzureBlobPrivateService w s))
       [Stat (path file); uploadFileErrorLog] 0) /\
  Identity.uploadFileToAzureBlobPrivate req file file_id basePath
    containerName w s'
  = (Throw e,
     after (snd (Identity.initializeAzureBlobPrivateService w s'))
       [Stat (path file); uploadFileErrorLog] 0).
Proof.
  intros Hi Hi' Hstat.
  unfold SignedUrl.uploadFileToAzureBlobPrivate,
    Identity.uploadFileToAzureBlobPrivate, after, uploadFileErrorLog. run.
  destruct (SignedUrl.initializeAzureBlobPrivateService w s) as [[x|x] s1];
    [|discriminate].
  destruct (Identity.initializeAzureBlobPrivateService w s') as [[x'|x'] s1'];
    [|discriminate].
  proj. rewrite Hstat. proj. now rewrite <- !app_assoc.
Qed.

Lemma upload_missing_file_enoent :
  fst (SignedUrl.uploadFileToAzureBlobPrivate {| user_id := "u1" |}
         {| path := "/tmp/uploads/gone.jpg" |} "123" None None noFileWorld
         initialState)
  = Throw (mkError "Error" "ENOENT: no such file or directory" None) /\
  fst (Identity.uploadFileToAzureBlobPrivate {| user_id := "u1" |}
         {| path := "/tmp/uploads/gone.jpg" |} "123" None None noFileWorld
         initialState)
  = Throw (mkError "Error" "ENOENT: no such file or directory" None).
Proof.
  destruct (upload_missing_file noFileWorld initialState initialState
              {| user_id := "u1" |} {| path := "/tmp/uploads/gone.jpg" |}
              "123" None None signedClient identityClient
              (mkError "Error" "ENOENT: no such file or directory" None)
              eq_refl eq_refl eq_refl) as [H1 H2].
  rewrite H1, H2. split; reflexivity.
Defined.

(** ** Blob paths of different users *)

Lemma first_slash_unique (a b x y : string) :
  no_slash a = true -> no_slash b = true ->
  a ++ "/" ++ x = b ++ "/" ++ y -> a = b /\ x = y.
Proof.
  revert b. induction a as [|c a IH]; intros [|d b]; cbn [append no_slash].
  - intros _ _ [= ->]. now split.
  - intros _ [Hd _]%andb_true_iff [= <- _]. discriminate.
  - intros [Hc _]%andb_true_iff _ [= -> _]. discriminate.
  - intros [_ Ha]%andb_true_iff [_ Hb]%andb_true_iff [= -> H].
    destruct (IH b Ha Hb H) as [-> ->]. now split.
Qed.

(** X15: blob paths of different users never coincide.  For user ids
    without a slash, two save paths under the same base path are equal only
    if both the user ids and the file names are equal. *)
Theorem blob_paths_do_not_collide (basePath : option string)
  (user1 user2 fileName1 fileName2 : string) :
  no_slash user1 = true ->
  no_slash user2 = true ->
  user1 <> user2 \/ fileName1 <> fileName2 ->
  saveBlobPath basePath (Js.str user1) fileName1
  <> saveBlobPath basePath (Js.str user2) fileName2.
Proof.
  intros H1 H2 Hne. unfold saveBlobPath, userBlobPath. cbn [Js.to_string].
  intros H. apply append_inv_head in H.
  change (String "/" (user1 ++ "/" ++ fileName1))
    with ("/" ++ (user1 ++ "/" ++ fileName1)) in H.
  apply (append_inv_head "/") in H.
  destruct (first_slash_unique _ _ _ _ H1 H2 H) as [Hu Hf].
  destruct Hne as [Hne|Hne]; contradiction.
Qed.

Lemma blob_paths_do_not_collide_u1_u2 :
  saveBlobPath None (Js.str "u1") "a.png"
  <> saveBlobPath None (Js.str "u2") "a.png".
Proof.
  apply (blob_paths_do_not_collide None "u1" "u2" "a.png" "a.png");
    [reflexivity|reflexivity|left; discriminate].
Defined.

(** ** The container argument in the identity-based back end *)

(** X16: in the identity-based back end a [containerName] argument
    changes the URL that is returned, and nothing else: the bytes are
    uploaded through the client of the configured container, while the URL
    handed back names [override]. *)
Theorem identity_override_only_in_url (w : World) (s : State)
  (userId : Js.value) (buffer : Buffer) (fileName : string)
  (basePath : option string) (override : string) (svc : BlobServiceClient) :
  singletons_ok w s ->
  fst (Identity.initializeAzureBlobPrivateService w s) = Normal svc ->
  (forall c, sdk_createIfNotExists w c = Normal tt) ->
  (forall b data len contentType,
      sdk_upload w b data len contentType = Normal tt) ->
  let blobPath := saveBlobPath basePath userId fileName in
  let saved :=
    Identity.saveBufferToAzureBlobPrivate userId buffer fileName basePath
      (Some override) w s in
  fst saved
  = Normal ("https://" ++ Js.opt_to_string (env_ACCOUNT_NAME w)
            ++ ".blob.core.windows.net/" ++ override ++ "/" ++ blobPath) /\
  calls (snd saved)
  = (calls (snd (Identity.initializeAzureBlobPrivateService w s))
     ++ [CreateIfNotExists (configuredContainer w svc);
         Upload (getBlockBlobClient (configuredContainer w svc) blobPath)
           buffer (Z.of_nat (List.length buffer)) (contentTypeOf w fileName)])%list /\
  cc_containerName (configuredContainer w svc) = AZURE_PRIVATE_CONTAINER_NAME w.
Proof.
  intros Hok Hi Hc Hup blobPath saved. subst saved.
  rewrite (identity_saveBuffer_outcome userId buffer fileName basePath
             (Some override) w s svc Hok Hi).
  cbv zeta. rewrite Hc, Hup. repeat split; reflexivity.
Qed.

Lemma identity_override_only_in_url_other :
  fst (Identity.saveBufferToAzureBlobPrivate (Js.str "u1") [] "a.png" None
         (Some "other") calmWorld initialState)
  = Normal "https://acct.blob.core.windows.net/other/images/u1/a.png" /\
  In (Upload (getBlockBlobClient (configuredContainer calmWorld identityClient)
                "images/u1/a.png") [] 0 "application/octet-stream")
     (calls (snd (Identity.saveBufferToAzureBlobPrivate (Js.str "u1") []
                    "a.png" None (Some "other") calmWorld initialState))).
Proof.
  destruct (identity_override_only_in_url calmWorld initialState (Js.str "u1")
              [] "a.png" None "other" identityClient I eq_refl
              (fun _ => eq_refl) (fun _ _ _ _ => eq_refl)) as (H1 & H2 & _).
  split; [exact H1|]. rewrite H2. apply in_or_app. right. right. left.
  reflexivity.
Defined.

(** ** What the operations never call *)

Section EmitsOnly.

Variable P : Event -> bool.

Lemma emits_nothing {A : Type} (m : M A) :
  (forall w s, calls (snd (m w s)) = calls s) -> emits_only P m.
Proof.
  intros H w s. exists []. now rewrite H, app_nil_r.
Qed.

Lemma emits_only_ret {A : Type} (a : A) : emits_only P (ret a).
Proof. now apply emits_nothing. Qed.

Lemma emits_only_throw {A : Type} (e : JsError) : emits_only P (@throw A e).
Proof. now apply emits_nothing. Qed.

Lemma emits_only_ask : emits_only P ask.
Proof. now apply emits_nothing. Qed.

Lemma emits_only_get : emits_only P get.
Proof. now apply emits_nothing. Qed.

Lemma emits_only_answer {A : Type} (f : World -> Completion A) :
  emits_only P (fun w s => (f w, s)).
Proof. now apply emits_nothing. Qed.

Lemma emits_only_pure {A : Type} (c : Completion A) :
  emits_only P (fun _ s => (c, s)).
Proof. now apply emits_nothing. Qed.

Lemma emits_only_emit (ev : Event) : P ev = true -> emits_only P (emit ev).
Proof. intros H w s. exists [ev]. cbn. now rewrite H. Qed.

Lemma emits_only_bind {A B : Type} (m : M A) (k : A -> M B) :
  emits_only P m -> (forall a, emits_only P (k a)) -> emits_only P (bind m k).
Proof.
  intros Hm Hk w s. unfold bind.
  destruct (Hm w s) as (evs & E & HP). destruct (m w s) as [[a|e] s1]; cbn in *.
  - destruct (Hk a w s1) as (evs' & E' & HP'). exists (evs ++ evs')%list.
    rewrite E', E, app_assoc, forallb_app, HP, HP'. now split.
  - now exists evs.
Qed.

Lemma emits_only_try_catch {A : Type} (m : M A) (h : JsError -> M A) :
  emits_only P m -> (forall e, emits_only P (h e)) ->
  emits_only P (try_catch m h).
Proof.
  intros Hm Hh w s. unfold try_catch.
  destruct (Hm w s) as (evs & E & HP). destruct (m w s) as [[a|e] s1]; cbn in *.
  - now exists evs.
  - destruct (Hh e w s1) as (evs' & E' & HP'). exists (evs ++ evs')%list.
    rewrite E', E, app_assoc, forallb_app, HP, HP'. now split.
Qed.

Lemma emits_only_call {A : Type} (ev : Event) (f : World -> Completion A) :
  P ev = true -> emits_only P (call ev f).
Proof.
  intros H. apply emits_only_bind;
    [now apply emits_only_emit|intros _; apply emits_only_answer].
Qed.

Lemma emits_only_newDateNow : P NewDate = true -> emits_only P newDateNow.
Proof. intros H w s. exists [NewDate]. cbn. now rewrite H. Qed.

Hypothesis logs_allowed : forall level message, P (Log level message) = true.

Lemma emits_only_logger (level message : string) :
  emits_only P (logger level message).
Proof. apply emits_only_emit, logs_allowed. Qed.

Lemma logs_satisfy (evs : list Event) :
  forallb is_Log evs = true -> forallb P evs = true.
Proof.
  induction evs as [|ev evs IH]; [reflexivity|].
  cbn. intros [H1 H2]%andb_true_iff.
  destruct ev; try discriminate. now rewrite logs_allowed, IH.
Qed.

Lemma emits_only_signed_init :
  emits_only P SignedUrl.initializeAzureBlobPrivateService.
Proof.
  intros w s. destruct (signed_init_run w s) as (evs & Hl & Hc & _).
  exists evs. split; [exact Hc|now apply logs_satisfy].
Qed.

Lemma emits_only_identity_init :
  emits_only P Identity.initializeAzureBlobPrivateService.
Proof.
  intros w s. destruct (identity_init_run w s) as (evs & Hl & Hc & _).
  exists evs. split; [exact Hc|now apply logs_satisfy].
Qed.

End EmitsOnly.

(** Follows the shape of a computation; the calls met on the way must
    satisfy the predicate by computation. *)
Ltac emits_steps :=
  unfold the_containerClient;
  repeat first
    [ apply emits_only_ret
    | apply emits_only_throw
    | apply emits_only_ask
    | apply emits_only_get
    | apply emits_only_signed_init; reflexivity
    | apply emits_only_identity_init; reflexivity
    | apply emits_only_logger; reflexivity
    | apply emits_only_newDateNow; reflexivity
    | apply emits_only_call; reflexivity
    | apply emits_only_pure
    | apply emits_only_answer
    | apply emits_only_bind; [|intros ?]
    | apply emits_only_try_catch; [|intros ?]
    | match goal with
      | |- emits_only _ (match ?x with _ => _ end) => destruct x
      end ].

(** X17: resolving a URL reaches neither the storage service, nor the
    network, nor the file system: whatever the state and the arguments,
    [getAzureBlobPrivateURL] adds only log entries and clock readings to
    the calls, in both back ends. *)
Theorem resolve_url_is_local (fileName : string) (basePath : option string)
  (userId : Js.value) (containerName : option string) :
  emits_only is_local
    (SignedUrl.getAzureBlobPrivateURL fileName basePath userId containerName) /\
  emits_only is_local
    (Identity.getAzureBlobPrivateURL fileName basePath userId containerName).
Proof.
  split.
  - unfold SignedUrl.getAzureBlobPrivateURL, SignedUrl.getSignedDownloadUrl,
      SignedUrl.createSASReadString. emits_steps.
  - unfold Identity.getAzureBlobPrivateURL. emits_steps.
Qed.

(** X18: only [deleteFileFromAzureBlobPrivate] deletes.  Saving a
    buffer, saving from a URL, resolving a URL, uploading a local file and
    opening a stream never call the blob delete primitive, whatever the
    state, the arguments and the answers of the collaborators; in both back
    ends. *)
Theorem only_delete_deletes (userId : Js.value) (buffer : Buffer)
  (URL fileName fileURL file_id : string) (basePath containerName : option string)
  (req : ServerRequest) (file : MulterFile) :
  (emits_only not_Delete
     (SignedUrl.saveBufferToAzureBlobPrivate userId buffer fileName basePath
        containerName) /\
   emits_only not_Delete
     (SignedUrl.saveURLToAzureBlobPrivate userId URL fileName basePath
        containerName) /\
   emits_only not_Delete
     (SignedUrl.getAzureBlobPrivateURL fileName basePath userId containerName) /\
   emits_only not_Delete
     (SignedUrl.uploadFileToAzureBlobPrivate req file file_id basePath
        containerName) /\
   emits_only not_Delete
     (SignedUrl.getAzureBlobPrivateFileStream req fileURL)) /\
  (emits_only not_Delete
     (Identity.saveBufferToAzureBlobPrivate userId buffer fileName basePath
        containerName) /\
   emits_only not_Delete
     (Identity.saveURLToAzureBlobPrivate userId URL fileName basePath
        containerName) /\
   emits_only not_Delete
     (Identity.getAzureBlobPrivateURL fileName basePath userId containerName) /\
   emits_only not_Delete
     (Identity.uploadFileToAzureBlobPrivate req file file_id basePath
        containerName) /\
   emits_only not_Delete
     (Identity.getAzureBlobPrivateFileStream req fileURL)).
Proof.
  split; repeat split;
    unfold SignedUrl.saveURLToAzureBlobPrivate,
      SignedUrl.saveBufferToAzureBlobPrivate, SignedUrl.getAzureBlobPrivateURL,
      SignedUrl.uploadFileToAzureBlobPrivate,
      SignedUrl.getAzureBlobPrivateFileStream,
      SignedUrl.createSASWriteString, SignedUrl.uploadBufferToSignedUrl,
      SignedUrl.uploadFileToSignedUrl, SignedUrl.getSignedDownloadUrl,
      SignedUrl.createSASReadString,
      Identity.saveURLToAzureBlobPrivate,
      Identity.saveBufferToAzureBlobPrivate, Identity.getAzureBlobPrivateURL,
      Identity.uploadFileToAzureBlobPrivate,
      Identity.getAzureBlobPrivateFileStream,
      Identity.uploadBufferDirectly, Identity.uploadFileDirectly;
    emits_steps.
Qed.

(** ** The image adapter *)

(** X19: the avatar flow stores the processed image, never the original.
    If image processing fails, the error is rethrown after one log entry
    and the storage back end is not entered at all, whichever back end it
    is.  If it succeeds, the signed-URL back end PUTs the processed bytes,
    with their length, under the unchanged file name, and the result pairs
    the returned URL with the type, width and height of the processed
    image. *)
Theorem avatar_stores_processed_image
  (processImageBuffer : Buffer -> Completion ProcessedImage)
  (w : World) (s : State) (userId : Js.value) (buffer : Buffer)
  (fileName : string) (basePath containerName : option string)
  (svc : BlobServiceClient) :
  singletons_ok w s ->
  fst (SignedUrl.initializeAzureBlobPrivateService w s) = Normal svc ->
  (forall c, sdk_createIfNotExists w c = Normal tt) ->
  (forall url contentType len b, fetch_put w url contentType len b = Normal tt) ->
  let cn := Js.default (AZURE_PRIVATE_CONTAINER_NAME w) containerName in
  let blobPath := saveBlobPath basePath userId fileName in
  let putUrl :=
    signedBlobUrl w svc blobPath
      (SignedUrl.writeSasModel (timeZone w) cn (clock w (clockReads s)) None) in
  (forall save e,
      processImageBuffer buffer = Throw e ->
      Images.processAzureBlobPrivateAvatar processImageBuffer save userId
        buffer fileName basePath containerName w s
      = (Throw e, after s [avatarErrorLog] 0)) /\
  (forall processed,
      processImageBuffer buffer = Normal processed ->
      fst (Images.processAzureBlobPrivateAvatar processImageBuffer
             SignedUrl.saveBufferToAzureBlobPrivate userId buffer fileName
             basePath containerName w s)
      = Normal
          {| avatar_url :=
               signedBlobUrl w svc blobPath
                 (SignedUrl.readSasModel (timeZone w) cn
                    (clock w (S (clockReads s))) None);
             avatar_metadata := img_metadata processed |} /\
      In (FetchPut putUrl (contentTypeOf w fileName)
            (Z.of_nat (List.length (img_buffer processed)))
            (img_buffer processed))
         (calls (snd (Images.processAzureBlobPrivateAvatar processImageBuffer
                        SignedUrl.saveBufferToAzureBlobPrivate userId buffer
                        fileName basePath containerName w s)))).
Proof.
  intros Hok Hi Hc Hput cn blobPath putUrl. split.
  - intros save e He. unfold Images.processAzureBlobPrivateAvatar. run.
    rewrite He. reflexivity.
  - intros processed Hp.
    unfold Images.processAzureBlobPrivateAvatar. run. rewrite Hp. proj.
    rewrite (signed_saveBuffer_outcome userId (img_buffer processed) fileName
               (Some (Js.default defaultBasePath basePath)) containerName w s
               svc Hok Hi).
    cbv zeta. rewrite Hc, Hput. proj.
    destruct processed as [data [type width height]]. cbn. split.
    + reflexivity.
    + apply in_or_app. right. do 2 right. left. reflexivity.
Qed.

Lemma avatar_stores_processed_image_thumbnail :
  Images.processAzureBlobPrivateAvatar rejectingProcessor
    SignedUrl.saveBufferToAzureBlobPrivate (Js.str "u1") [Byte.x00] "avatar.png"
    None None calmWorld initialState
  = (Throw (mkError "Error" "Input buffer contains unsupported image format" None),
     after initialState [avatarErrorLog] 0) /\
  fst (Images.processAzureBlobPrivateAvatar shrinkingProcessor
         SignedUrl.saveBufferToAzureBlobPrivate (Js.str "u1") [Byte.x00]
         "avatar.png" None None calmWorld initialState)
  = Normal
      {| avatar_url :=
           "https://acct.blob.core.windows.net/files/images/u1/avatar.png?sp=r&sr=c&cn=files";
         avatar_metadata :=
           {| meta_type := "webp"; meta_width := 128; meta_height := 128 |} |}.
Proof.
  split.
  - apply (proj1 (avatar_stores_processed_image rejectingProcessor calmWorld
                    initialState (Js.str "u1") [Byte.x00] "avatar.png" None
                    None signedClient I eq_refl (fun _ => eq_refl)
                    (fun _ _ _ _ => eq_refl))).
    reflexivity.
  - apply (proj2 (avatar_stores_processed_image shrinkingProcessor calmWorld
                    initialState (Js.str "u1") [Byte.x00] "avatar.png" None
                    None signedClient I eq_refl (fun _ => eq_refl)
                    (fun _ _ _ _ => eq_refl)) thumbnail eq_refl).
Defined.

(** X20: image round trip through the adapter, identity-based back end.
    After [uploadImageToAzureBlobPrivate] has succeeded for a user id that
    is present, [prepareAzureBlobPrivateImageURL] with the same arguments
    returns the URL that the upload returned, without any call. *)
Theorem image_url_after_upload (w : World) (s : State) (userId : Js.value)
  (buffer : Buffer) (fileName : string) (basePath containerName : option string)
  (svc : BlobServiceClient) :
  singletons_ok w s ->
  fst (Identity.initializeAzureBlobPrivateService w s) = Normal svc ->
  Js.truthy userId = true ->
  (forall c, sdk_createIfNotExists w c = Normal tt) ->
  (forall b data len contentType,
      sdk_upload w b data len contentType = Normal tt) ->
  let uploaded :=
    Images.uploadImageToAzureBlobPrivate Identity.saveBufferToAzureBlobPrivate
      userId buffer fileName basePath containerName w s in
  fst uploaded
  = Normal
      (Identity.getDirectBlobUrl w (saveBlobPath basePath userId fileName)
         (Js.default (AZURE_PRIVATE_CONTAINER_NAME w) containerName)) /\
  Images.prepareAzureBlobPrivateImageURL Identity.getAzureBlobPrivateURL
    fileName basePath userId containerName w (snd uploaded)
  = (fst uploaded, snd uploaded).
Proof.
  intros Hok Hi Ht Hc Hup uploaded. subst uploaded.
  unfold Images.uploadImageToAzureBlobPrivate,
    Images.prepareAzureBlobPrivateImageURL. run.
  rewrite (identity_saveBuffer_outcome userId buffer fileName
             (Some (Js.default defaultBasePath basePath)) containerName w s svc
             Hok Hi).
  cbv zeta. rewrite Hc, Hup. proj. split; [reflexivity|].
  unfold Identity.getAzureBlobPrivateURL. run.
  rewrite identity_init_again. proj.
  rewrite (blob_paths_agree_when_present _ userId fileName Ht).
  reflexivity.
Qed.

Lemma image_url_after_upload_u1 :
  fst (Images.prepareAzureBlobPrivateImageURL Identity.getAzureBlobPrivateURL
         "a.png" None (Js.str "u1") None calmWorld
         (snd (Images.uploadImageToAzureBlobPrivate
                 Identity.saveBufferToAzureBlobPrivate (Js.str "u1") []
                 "a.png" None None calmWorld initialState)))
  = Normal "https://acct.blob.core.windows.net/files/images/u1/a.png".
Proof.
  pose proof (proj2 (image_url_after_upload calmWorld initialState
                       (Js.str "u1") [] "a.png" None None identityClient
                       I eq_refl eq_refl (fun _ => eq_refl)
                       (fun _ _ _ _ => eq_refl))) as H.
  cbv zeta in H. rewrite H. reflexivity.
Defined.

(** ** Saving from a URL, when all goes well *)

Lemma signed_init_with_more_calls (w : World) (s : State)
  (svc : BlobServiceClient) (evs : list Event) :
  singletons_ok w s ->
  fst (SignedUrl.initializeAzureBlobPrivateService w s) = Normal svc ->
  singletons_ok w (after s evs 0) /\
  fst (SignedUrl.initializeAzureBlobPrivateService w (after s evs 0))
  = Normal svc.
Proof.
  unfold SignedUrl.initializeAzureBlobPrivateService, singletons_ok, after. run.
  destruct s as [[svc0|] c evs0 n]; proj; [now split|].
  destruct (_ && _); proj; now split.
Qed.

(** X21: what [saveURLToAzureBlobPrivate] uploads.  When the fetch and
    the storage service answer, the signed-URL back end PUTs exactly the
    bytes of the fetched body, declares their number as the length, and
    takes the content type from the file name given by the caller; the
    URL returned is the signed download URL of [basePath/userId/fileName]
    in the configured container. *)
Theorem save_url_uploads_fetched_body (w : World) (s : State)
  (userId : Js.value) (URL fileName : string)
  (basePath containerName : option string) (svc : BlobServiceClient)
  (response : Response) (body : Buffer) :
  singletons_ok w s ->
  fst (SignedUrl.initializeAzureBlobPrivateService w s) = Normal svc ->
  fetch_get w URL = Normal response ->
  resp_buffer response = Normal body ->
  (forall c, sdk_createIfNotExists w c = Normal tt) ->
  (forall url contentType len b, fetch_put w url contentType len b = Normal tt) ->
  let cn := Js.default (AZURE_PRIVATE_CONTAINER_NAME w) containerName in
  let blobPath := saveBlobPath basePath userId fileName in
  let putUrl :=
    signedBlobUrl w svc blobPath
      (SignedUrl.writeSasModel (timeZone w) cn (clock w (clockReads s)) None) in
  let saved :=
    SignedUrl.saveURLToAzureBlobPrivate userId URL fileName basePath
      containerName w s in
  fst saved
  = Normal
      (signedBlobUrl w svc blobPath
         (SignedUrl.readSasModel (timeZone w) cn
            (clock w (S (clockReads s))) None)) /\
  In (FetchPut putUrl (contentTypeOf w fileName)
        (Z.of_nat (List.length body)) body)
     (calls (snd saved)).
Proof.
  intros Hok Hi Hf Hb Hc Hput cn blobPath putUrl saved.
  subst saved putUrl blobPath cn.
  destruct (signed_init_with_more_calls w s svc [FetchGet URL] Hok Hi)
    as [Hok1 Hi1].
  rewrite signed_saveURL_run, Hf, Hb.
  rewrite (signed_saveBuffer_outcome userId body fileName basePath
             (Some (Js.default (AZURE_PRIVATE_CONTAINER_NAME w) containerName))
             w (after s [FetchGet URL] 0) svc Hok1 Hi1).
  cbv zeta. rewrite Hc, Hput. cbn [fst snd readyState calls].
  split; [reflexivity|].
  apply in_or_app. right. do 2 right. left. reflexivity.
Qed.

Lemma save_url_uploads_fetched_body_cat :
  fst (SignedUrl.saveURLToAzureBlobPrivate (Js.str "u1")
         "https://example.org/cat.png" "cat.png" None None calmWorld
         initialState)
  = Normal "https://acct.blob.core.windows.net/files/images/u1/cat.png?sp=r&sr=c&cn=files" /\
  In (FetchPut
        "https://acct.blob.core.windows.net/files/images/u1/cat.png?sp=w&sr=c&cn=files"
        "application/octet-stream" 0 [])
     (calls (snd (SignedUrl.saveURLToAzureBlobPrivate (Js.str "u1")
                    "https://example.org/cat.png" "cat.png" None None
                    calmWorld initialState))).
Proof.
  exact (save_url_uploads_fetched_body calmWorld initialState (Js.str "u1")
           "https://example.org/cat.png" "cat.png" None None signedClient
           {| resp_buffer := Normal [] |} [] I eq_refl eq_refl eq_refl
           (fun _ => eq_refl) (fun _ _ _ _ => eq_refl)).
Defined.

(** ** A stored path in which the container segment occurs twice *)

Lemma extractBlobPath_twice (w : World) (pre mid rest : string) :
  no_match_in (containerSegment w) pre
    (containerSegment w ++ mid ++ containerSegment w ++ rest) = true ->
  no_match_in (containerSegment w) mid (containerSegment w ++ rest) = true ->
  extractBlobPath w
    {| filepath := pre ++ containerSegment w ++ mid ++ containerSegment w ++ rest |}
  = Some mid.
Proof.
  intros Hpre Hmid. unfold extractBlobPath, Js.split. cbn [filepath].
  change (AZURE_PRIVATE_CONTAINER_NAME w ++ "/") with (containerSegment w).
  rewrite (split_from_passes _ _ _ _ Hpre).
  rewrite (split_from_match _ _ _ (containerSegment_not_empty w)).
  rewrite (split_from_passes _ _ _ _ Hmid).
  rewrite (split_from_match _ _ _ (containerSegment_not_empty w)).
  reflexivity.
Qed.

(** X22: the blob path is cut at the second container segment.  When the
    container name followed by a slash occurs again inside the stored
    path (container [files] and base path [profiles], say), the extracted
    blob path is only the text between the first two occurrences.  A user
    id that comes after the second occurrence is not seen: the owner's
    delete is refused with the authorization error and no blob is
    deleted; in both back ends. *)
Theorem delete_cut_at_second_segment (w : World) (s s' : State)
  (req : ServerRequest) (pre mid rest : string)
  (svc svc' : BlobServiceClient) :
  fst (SignedUrl.initializeAzureBlobPrivateService w s) = Normal svc ->
  fst (Identity.initializeAzureBlobPrivateService w s') = Normal svc' ->
  no_match_in (containerSegment w) pre
    (containerSegment w ++ mid ++ containerSegment w ++ rest) = true ->
  no_match_in (containerSegment w) mid (containerSegment w ++ rest) = true ->
  Js.includes mid (user_id req) = false ->
  let file :=
    {| filepath :=
         pre ++ containerSegment w ++ mid ++ containerSegment w ++ rest |} in
  extractBlobPath w file = Some mid /\
  SignedUrl.deleteFileFromAzureBlobPrivate req file w s
  = (Throw authorizationError,
     after (snd (SignedUrl.initializeAzureBlobPrivateService w s))
       [deleteErrorLog] 0) /\
  Identity.deleteFileFromAzureBlobPrivate req file w s'
  = (Throw authorizationError,
     after (snd (Identity.initializeAzureBlobPrivateService w s'))
       [deleteErrorLog] 0).
Proof.
  intros Hi Hi' Hpre Hmid Hno file.
  pose proof (extractBlobPath_twice w pre mid rest Hpre Hmid) as Hp.
  split; [exact Hp|].
  rewrite signed_delete_run, identity_delete_run. unfold deleteOutcome.
  rewrite Hi, Hi'. subst file. rewrite Hp, Hno. split; reflexivity.
Qed.

Lemma delete_cut_at_second_segment_profiles :
  Js.includes "u1/a.png" "u1" = true /\
  extractBlobPath calmWorld
    {| filepath := "https://acct.blob.core.windows.net/files/profiles/u1/a.png" |}
  = Some "pro" /\
  fst (Identity.deleteFileFromAzureBlobPrivate {| user_id := "u1" |}
         {| filepath := "https://acct.blob.core.windows.net/files/profiles/u1/a.png" |}
         calmWorld initialState)
  = Throw authorizationError.
Proof.
  destruct (delete_cut_at_second_segment calmWorld initialState initialState
              {| user_id := "u1" |} "https://acct.blob.core.windows.net/"
              "pro" "u1/a.png" signedClient identityClient
              eq_refl eq_refl eq_refl eq_refl eq_refl) as (H1 & _ & H3).
  split; [reflexivity|]. split; [exact H1|].
  cbv zeta in H3. change ("https://acct.blob.core.windows.net/"
                          ++ containerSegment calmWorld ++ "pro"
                          ++ containerSegment calmWorld ++ "u1/a.png")
    with "https://acct.blob.core.windows.net/files/profiles/u1/a.png" in H3.
  now rewrite H3.
Defined.
